(** * hard-ml: the campaign uplift command line and the recommender scoring wrapper

    A shallow embedding of

    - [final/campaign/__main__.py]: [_init], [featurize], [train],
      [inference], the task table [_tasks] and the main block;
    - [recsys/lesson5/config.py]: [pipelines], [score_wrapper] and
      [searchers].

    Both files are orchestration code over pandas, dask, scikit-learn and
    numpy, and the embedding keeps that shape.

    - Every call into a third-party library, or into a module of the
      repository that is not among the two files ([Engine],
      [compute_features], [build_pipeline], [uplift_at_k], [ndcg_score]),
      is a _call_ of a program; a run answers the calls from an arbitrary
      library with a state of its own, and records what happened in a
      trace.  A call may answer with an exception.
    - What Python itself does (subscripts of the configuration,
      [os.path.join], f-strings, [int], [N * cutoff], slices) and what the
      pandas indexing of the two files does ([.loc], [fillna], column
      assignment, boolean masks, series arithmetic, the constructors of
      series and frames) is written out as functions that return a value
      or an exception.
    - Floats are IEEE binary64 values, [spec_float] at precision 53 with
      exponent bound 1024; a missing value of a frame is NaN.
    - Paths are POSIX paths.  A configuration is the document [yaml.load]
      returns, its mappings keyed by distinct strings.

    The file has the definitions first (values, programs, the two modules,
    the example libraries), then the facts. *)

From Stdlib Require Import ZArith List String Ascii Bool Lia.
From Stdlib Require Import Permutation Sorted.
From Stdlib Require Import Floats.SpecFloat.
Import ListNotations.

Set Implicit Arguments.
Set Warnings "-register-all".

Local Open Scope string_scope.
Local Open Scope list_scope.
Local Open Scope Z_scope.

(* ===================================================================== *)
(** ** Python floats *)
(* ===================================================================== *)

Module Float64.

Definition float := spec_float.

Definition prec : Z := 53.
Definition emax : Z := 1024.

Definition nan : float := S754_nan.
Definition zero : float := S754_zero false.

(** [float(z)] for a Python integer: the nearest binary64 value. *)
Definition of_int (z : Z) : float := binary_normalize prec emax z 0 false.

(** The quotient of two integers rounded to nearest: [of_ratio 3 10] is
    the value of the literal [0.3]. *)
Definition of_ratio (m : Z) (d : Z) : float :=
  SFdiv prec emax (of_int m) (of_int d).

Definition mul : float -> float -> float := SFmul prec emax.
Definition sub : float -> float -> float := SFsub prec emax.

Definition ltb : float -> float -> bool := SFltb.
Definition leb : float -> float -> bool := SFleb.

(** [x > y] on floats: false as soon as one side is NaN. *)
Definition gtb (x y : float) : bool := ltb y x.

Definition isna (x : float) : bool :=
  match x with S754_nan => true | _ => false end.

Definition valid (x : float) : bool := valid_binary prec emax x.

(** The integer part of a finite float, rounded toward zero: what Python's
    [int] computes. *)
Definition truncate (x : float) : option Z :=
  match x with
  | S754_nan | S754_infinity _ => None
  | S754_zero _ => Some 0
  | S754_finite s m e =>
      Some (match e with
            | Zneg p => cond_Zopp s (Zpos m / 2 ^ Zpos p)
            | _ => cond_Zopp s (Zpos m * 2 ^ e)
            end)
  end.



(** An order on all floats that agrees with [<=] away from NaN and puts NaN
    below everything.  The example library sorts with it. *)
Definition rank (x : float) : Z * Z * Z :=
  match x with
  | S754_nan => (-3, 0, 0)
  | S754_infinity true => (-2, 0, 0)
  | S754_finite true m e => (-1, - e, - Zpos m)
  | S754_zero _ => (0, 0, 0)
  | S754_finite false m e => (1, e, Zpos m)
  | S754_infinity false => (2, 0, 0)
  end.

Definition lex_leb (a b : Z * Z * Z) : bool :=
  let '(a1, a2, a3) := a in
  let '(b1, b2, b3) := b in
  (a1 <? b1) || ((a1 =? b1) && ((a2 <? b2) || ((a2 =? b2) && (a3 <=? b3)))).

Definition total_leb (x y : float) : bool := lex_leb (rank x) (rank y).

End Float64.

(* ===================================================================== *)
(** ** Python values, exceptions and paths *)
(* ===================================================================== *)

Definition path := string.

(** A document loaded by [yaml.load]: the configuration of a task. *)
Inductive yaml : Type :=
| YNull
| YBool (b : bool)
| YInt (z : Z)
| YFloat (f : Float64.float)
| YStr (s : string)
| YSeq (items : list yaml)
| YMap (entries : list (string * yaml)).

(** Exceptions.  [ValueErrorOf o] is [ValueError(o)] for a Python object [o];
    [LibraryError] stands for whatever a library call raises. *)
Inductive exn (O : Type) : Type :=
| KeyError (key : string)
| TypeError (msg : string)
| ValueError (msg : string)
| OverflowError (msg : string)
| ValueErrorOf (o : O)
| LibraryError (tag : string).

Arguments KeyError {O} key.
Arguments TypeError {O} msg.
Arguments ValueError {O} msg.
Arguments OverflowError {O} msg.
Arguments ValueErrorOf {O} o.
Arguments LibraryError {O} tag.

Inductive result (E A : Type) : Type :=
| Ok (a : A)
| Err (e : E).

Arguments Ok {E A} a.
Arguments Err {E A} e.

(** [d[key]] on a loaded document: the entry of a mapping, [KeyError] when
    the mapping has none, [TypeError] on a document that is no mapping. *)
Fixpoint assoc (key : string) (entries : list (string * yaml)) : option yaml :=
  match entries with
  | [] => None
  | (k, v) :: rest => if String.eqb k key then Some v else assoc key rest
  end.

Definition getitem {O} (d : yaml) (key : string) : result (exn O) yaml :=
  match d with
  | YMap entries =>
      match assoc key entries with
      | Some v => Ok v
      | None => Err (KeyError key)
      end
  | _ => Err (TypeError "indices must be integers or object is not subscriptable")
  end.

(** [str.startswith('/')] and [str.endswith('/')]. *)
Definition startswith_sep (s : string) : bool :=
  match s with
  | String c _ => Ascii.eqb c "/"%char
  | EmptyString => false
  end.

Fixpoint endswith_sep (s : string) : bool :=
  match s with
  | EmptyString => false
  | String c EmptyString => Ascii.eqb c "/"%char
  | String _ rest => endswith_sep rest
  end.

(** [os.path.join(a, b)] of [posixpath]. *)
Definition os_path_join (a b : path) : path :=
  if startswith_sep b then b
  else if (String.eqb a "" || endswith_sep a)%bool then (a ++ b)%string
  else (a ++ "/" ++ b)%string.

(** [os.path.join] on a module global that is still [None] raises. *)
Definition join_global {O} (g : option path) (b : path) : result (exn O) path :=
  match g with
  | Some a => Ok (os_path_join a b)
  | None => Err (TypeError "expected str, bytes or os.PathLike object, not NoneType")
  end.

(** [l[:n]] for a Python integer [n]: a negative bound counts from the end. *)
Definition slice_to {A} (l : list A) (n : Z) : list A :=
  if n <? 0 then firstn (Z.to_nat (Z.of_nat (List.length l) + n)) l
  else firstn (Z.to_nat n) l.

(* ===================================================================== *)
(** ** Programs over library calls *)
(* ===================================================================== *)

(** A program is a tree of library calls.  [Raise] is a [raise] statement
    written in the program itself; [Fail] is an exception coming out of a
    Python built-in operation (a subscript, [int], an assignment); [Try] is
    a [try: body except Exception as e: handler(e)] block followed by the
    rest of the program. *)
Section Interaction.

Variable call : Type.
Variable resp : call -> Type.
Variable E : Type.

Inductive prog (R : Type) : Type :=
| Ret (r : R)
| Raise (e : E)
| Fail (e : E)
| Call (c : call) (k : resp c -> prog R)
| Try (A : Type) (body : prog A) (handler : E -> prog A) (k : A -> prog R).

Arguments Ret {R} r.
Arguments Raise {R} e.
Arguments Fail {R} e.
Arguments Call {R} c k.
Arguments Try {R A} body handler k.

Fixpoint bind {A B} (p : prog A) (f : A -> prog B) : prog B :=
  match p with
  | Ret a => f a
  | Raise e => Raise e
  | Fail e => Fail e
  | Call c k => Call c (fun x => bind (k x) f)
  | Try body handler k => Try body handler (fun x => bind (k x) f)
  end.

(** A built-in operation: its value, or its exception. *)
Definition eval {A} (r : result E A) : prog A :=
  match r with
  | Ok a => Ret a
  | Err e => Fail e
  end.

(** One library call. *)
Definition invoke (c : call) : prog (resp c) := Call c (fun x => Ret x).

(** A [for] loop or a list comprehension [[f(x) for x in xs]]. *)
Fixpoint for_each {A B} (f : A -> prog B) (xs : list A) : prog (list B) :=
  match xs with
  | [] => Ret []
  | x :: rest =>
      bind (f x) (fun y => bind (for_each f rest) (fun ys => Ret (y :: ys)))
  end.

(** What happened during a run: a call with the library's answer, or an
    exception out of a built-in operation. *)
Inductive event : Type :=
| Ev (c : call) (r : result E (resp c))
| BuiltinError (e : E).

Arguments Ev c r : clear implicits.

Definition calls (tr : list event) : list call :=
  flat_map (fun ev => match ev with
                      | Ev c _ => [c]
                      | BuiltinError _ => []
                      end) tr.

(** The exceptions that occurred, from library calls and built-ins alike. *)
Definition errors (tr : list event) : list E :=
  flat_map (fun ev => match ev with
                      | Ev _ (Err e) => [e]
                      | Ev _ (Ok _) => []
                      | BuiltinError e => [e]
                      end) tr.

(** How a run ends: a value, an exception raised by the program's own
    [raise], or an exception that came out of a library call or a built-in
    and went through the program untouched. *)
Inductive outcome (R : Type) : Type :=
| Returned (r : R)
| Raised (e : E)
| Propagated (e : E).

Arguments Returned {R} r.
Arguments Raised {R} e.
Arguments Propagated {R} e.

Section Run.

(** The libraries and everything behind them (file system, random
    generators, the engine object): a state [W] and an answer to every
    call. *)
Variable W : Type.
Variable lib : W -> forall c : call, result E (resp c) * W.

Fixpoint run {R} (p : prog R) (w : W) : outcome R * W * list event :=
  match p with
  | Ret r => (Returned r, w, [])
  | Raise e => (Raised e, w, [])
  | Fail e => (Propagated e, w, [BuiltinError e])
  | Call c k =>
      match lib w c with
      | (Ok x, w1) =>
          let '(o, w2, tr) := run (k x) w1 in (o, w2, Ev c (Ok x) :: tr)
      | (Err e, w1) => (Propagated e, w1, [Ev c (Err e)])
      end
  | Try body handler k =>
      let '(o, w1, tr1) := run body w in
      let '(o', w2, tr2) :=
        match o with
        | Returned a => (Returned a, w1, [])
        | Raised e | Propagated e => run (handler e) w1
        end in
      match o' with
      | Returned a =>
          let '(o'', w3, tr3) := run (k a) w2 in (o'', w3, tr1 ++ tr2 ++ tr3)
      | Raised e => (Raised e, w2, tr1 ++ tr2)
      | Propagated e => (Propagated e, w2, tr1 ++ tr2)
      end
  end.

(** The event is an answer of the library, in some state. *)
Definition answered (ev : event) : Prop :=
  match ev with
  | Ev c r => exists w0 w1, lib w0 c = (r, w1)
  | BuiltinError _ => True
  end.

(** A run in which the program neither raised nor caught anything: it did
    not end by a [raise] of the program, and the exceptions that came out
    of library calls and built-ins are the one exception the run ended
    with, or none when it returned. *)
Definition propagates_unchanged {R} (r : outcome R * W * list event) : Prop :=
  (forall e, fst (fst r) <> Raised e) /\
  errors (snd r) = match fst (fst r) with
                   | Propagated e => [e]
                   | _ => []
                   end.

Definition run_trace {R} (p : prog R) (w : W) : list event :=
  snd (run p w).

End Run.

(** Two traces agree on their first [n] events (calls and answers), and on
    the call that comes next. *)
Definition same_until (n : nat) (tr1 tr2 : list event) : Prop :=
  firstn n tr1 = firstn n tr2 /\
  firstn (S n) (calls tr1) = firstn (S n) (calls tr2).

(** No [raise] statement in the program. *)
Fixpoint raise_free {R} (p : prog R) : Prop :=
  match p with
  | Ret _ | Fail _ => True
  | Raise _ => False
  | Call c k => forall x, raise_free (k x)
  | Try body handler k =>
      (raise_free body /\ (forall e, raise_free (handler e)) /\
       forall x, raise_free (k x))%type
  end.

(** No [try]/[except] block in the program. *)
Fixpoint handler_free {R} (p : prog R) : Prop :=
  match p with
  | Ret _ | Fail _ | Raise _ => True
  | Call c k => forall x, handler_free (k x)
  | Try _ _ _ => False
  end.

(** Every call the program can make satisfies [P]. *)
Fixpoint all_calls (P : call -> Prop) {R} (p : prog R) : Prop :=
  match p with
  | Ret _ | Raise _ | Fail _ => True
  | Call c k => (P c /\ forall x, all_calls P (k x))%type
  | Try body handler k =>
      (all_calls P body /\ (forall e, all_calls P (handler e)) /\
       forall x, all_calls P (k x))%type
  end.

End Interaction.

Arguments Ret {call resp E R} r.
Arguments Raise {call resp E R} e.
Arguments Fail {call resp E R} e.
Arguments Call {call resp E R} c k.
Arguments Try {call resp E R A} body handler k.
Arguments BuiltinError {call resp E} e.
Arguments Returned {E R} r.
Arguments Raised {E R} e.
Arguments Propagated {E R} e.
Arguments Ev {call resp E} c r.
Arguments invoke {call resp E} c.
Arguments eval {call resp E A} r.

Declare Scope prog_scope.
Delimit Scope prog_scope with prog.
Notation "x <- p ;; q" := (bind p (fun x => q))
  (at level 61, p at next level, right associativity) : prog_scope.
Notation "' pat <- p ;; q" := (bind p (fun x => match x with pat => q end))
  (at level 61, pat pattern, p at next level, right associativity) : prog_scope.
Notation "p ;;; q" := (bind p (fun _ => q))
  (at level 61, right associativity) : prog_scope.

(* ===================================================================== *)
(** ** recsys/lesson5/config.py *)
(* ===================================================================== *)

Module Recsys.

(** An interactions array: one row [(user id, artist id)] per interaction,
    the two columns [pandas.DataFrame(X, columns=[USER_ID_COLUMN,
    ARTIST_ID_COLUMN])] names. *)
Definition interactions := list (Z * Z).

(** [sorted(set(user ids))], built by ordered insertion. *)
Fixpoint insert_user (u : Z) (us : list Z) : list Z :=
  match us with
  | [] => [u]
  | v :: rest =>
      if u <? v then u :: v :: rest
      else if u =? v then v :: rest
      else v :: insert_user u rest
  end.

Definition user_ids (X : interactions) : list Z :=
  fold_right insert_user [] (map fst X).

(** The artists of one user, in the order of the rows of [X]. *)
Definition items_of (u : Z) (X : interactions) : list Z :=
  map snd (filter (fun r => fst r =? u) X).

(** [DataFrame(X, ...).groupby(USER_ID_COLUMN)[ARTIST_ID_COLUMN]
      .agg(lambda items: items.to_list()).to_numpy(dtype=object)]:
    one list per user id, the groups in increasing order of the id. *)
Definition group_items (X : interactions) : list (list Z) :=
  map (fun u => items_of u X) (user_ids X).

Section Lesson5.

(** Any Python object may be passed as [estimator]. *)
Variable object : Type.
Variable isinstance_Pipeline : object -> bool.

(** [constants.AT_K]; the module [constants] is not part of the sources. *)
Variable AT_K : Z.

(** The array [estimator.predict] returns, and its [.shape]. *)
Variable ndarray : Type.
Variable shape : ndarray -> list Z.

Inductive call : Type :=
| logging_info (msg : string) (args : list Z)
| predict (estimator : object) (X : interactions) (k : Z)
| ndcg_score (y_true : list (list Z)) (y_pred : ndarray) (k : Z).

Definition resp (c : call) : Type :=
  match c with
  | logging_info _ _ => unit
  | predict _ _ _ => ndarray
  | ndcg_score _ _ _ => Float64.float
  end.

Definition pyexn := exn object.

Definition score_wrapper (estimator : object) (X : interactions)
    (y : option ndarray) : prog resp pyexn Float64.float :=
  if isinstance_Pipeline estimator then
    (invoke (resp := resp) (logging_info "Evaluate" []) ;;;
     let y_true := group_items X in
     invoke (resp := resp)
       (logging_info "Got y_true with shape %s"
                     [Z.of_nat (List.length y_true)]) ;;;
     y_pred <- invoke (resp := resp) (predict estimator X AT_K) ;;
     invoke (resp := resp)
       (logging_info "Got y_pred with shape %s" (shape y_pred)) ;;;
     invoke (ndcg_score y_true y_pred AT_K))%prog
  else Raise (ValueErrorOf estimator).

End Lesson5.

Arguments logging_info {object ndarray} msg args.
Arguments predict {object ndarray} estimator X k.
Arguments ndcg_score {object ndarray} y_true y_pred k.

End Recsys.

(* ===================================================================== *)
(** ** final/campaign/__main__.py: data frames *)
(* ===================================================================== *)

Module Campaign.

(** Index labels are customer ids. *)
Definition label := Z.

(** A frame of float columns: the column labels, and per row its index
    label and its cells.  A missing value is NaN. *)
Record DataFrame : Type := {
  columns : list string;
  rows : list (label * list Float64.float)
}.

Definition Series := list (label * Float64.float).

Definition index (df : DataFrame) : list label := map fst (rows df).
Definition values (s : Series) : list Float64.float := map snd s.
Definition shape0 (df : DataFrame) : Z := Z.of_nat (List.length (rows df)).

(** Every row has one cell per column, the labels are distinct and every
    cell is a binary64 value: what a frame read from a features file is. *)
Definition well_formed (df : DataFrame) : Prop :=
  NoDup (columns df) /\
  Forall (fun r => List.length (snd r) = List.length (columns df)) (rows df) /\
  Forall (fun r => Forall (fun x => Float64.valid x = true) (snd r)) (rows df).

Definition pyexn := exn Empty_set.

(** Sequencing of built-in operations that may raise. *)
Definition rbind {A B} (r : result pyexn A) (f : A -> result pyexn B)
  : result pyexn B :=
  match r with
  | Ok a => f a
  | Err e => Err e
  end.

Declare Scope result_scope.
Delimit Scope result_scope with result.
Notation "x <- r ;; q" := (rbind r (fun x => q))
  (at level 61, r at next level, right associativity) : result_scope.

(** The positions of the columns labelled [name]. *)
Fixpoint positions_from (i : nat) (name : string) (cols : list string)
  : list nat :=
  match cols with
  | [] => []
  | c :: rest =>
      if String.eqb c name then i :: positions_from (S i) name rest
      else positions_from (S i) name rest
  end.

Definition positions (name : string) (cols : list string) : list nat :=
  positions_from 0 name cols.

Definition cell (i : nat) (r : label * list Float64.float) : Float64.float :=
  nth i (snd r) Float64.nan.

(** [df.loc[:, name]] and [df[name]] for one label: the column as a series,
    [KeyError] when there is none.  (With a repeated label pandas returns a
    frame; frames with repeated labels are outside [well_formed].) *)
Definition loc_column (df : DataFrame) (name : string) : result pyexn Series :=
  match positions name (columns df) with
  | [] => Err (KeyError name)
  | i :: _ => Ok (map (fun r => (fst r, cell i r)) (rows df))
  end.

(** [df.loc[:, names]] and [df[names]] for a list of labels: for each label
    in turn all the columns that carry it, [KeyError] on a label that no
    column carries. *)
Fixpoint select (names : list string) (cols : list string)
  : result pyexn (list (string * nat)) :=
  match names with
  | [] => Ok []
  | n :: rest =>
      match positions n cols with
      | [] => Err (KeyError n)
      | ps =>
          (sel <- select rest cols ;;
           Ok (map (fun i => (n, i)) ps ++ sel))%result
      end
  end.

Definition loc_columns (df : DataFrame) (names : list string)
  : result pyexn DataFrame :=
  (sel <- select names (columns df) ;;
   Ok {| columns := map fst sel;
         rows := map (fun r => (fst r, map (fun p => cell (snd p) r) sel))
                     (rows df) |})%result.

(** The cell of row [r] in the column labelled [name]. *)
Definition value_at (df : DataFrame) (name : string)
    (r : label * list Float64.float) : Float64.float :=
  match positions name (columns df) with
  | i :: _ => cell i r
  | [] => Float64.nan
  end.

(** A missing value read as [0]. *)
Definition or_zero (x : Float64.float) : Float64.float :=
  if Float64.isna x then Float64.zero else x.

(** [s.fillna(v)]. *)
Definition fillna (v : Float64.float) (s : Series) : Series :=
  map (fun p => (fst p, if Float64.isna (snd p) then v else snd p)) s.

(** [c * s] for a Python integer [c], and [s1 - s2] for two series over the
    same index (no alignment happens then: the operation is positional). *)
Definition series_scale (c : Z) (s : Series) : Series :=
  map (fun p => (fst p, Float64.mul (Float64.of_int c) (snd p))) s.

Definition series_sub (s1 s2 : Series) : Series :=
  map (fun p => (fst (fst p), Float64.sub (snd (fst p)) (snd (snd p))))
      (combine s1 s2).

(** [df[name] = values] for an array: the lengths must agree; an existing
    column is overwritten, a new one is appended. *)
Definition set_cell (i : nat) (v : Float64.float) (cells : list Float64.float)
  : list Float64.float :=
  firstn i cells ++ v :: skipn (S i) cells.

Definition setitem (df : DataFrame) (name : string) (vals : list Float64.float)
  : result pyexn DataFrame :=
  if negb (Nat.eqb (List.length vals) (List.length (rows df))) then
    Err (ValueError "Length of values does not match length of index")
  else
    match positions name (columns df) with
    | [] =>
        Ok {| columns := columns df ++ [name];
              rows := map (fun rv => (fst (fst rv), snd (fst rv) ++ [snd rv]))
                          (combine (rows df) vals) |}
    | i :: _ =>
        Ok {| columns := columns df;
              rows := map (fun rv => (fst (fst rv),
                                      set_cell i (snd rv) (snd (fst rv))))
                          (combine (rows df) vals) |}
    end.

(** [df.loc[mask, :]] for a boolean series over the frame's own index. *)
Definition loc_mask (df : DataFrame) (mask : list bool) : DataFrame :=
  {| columns := columns df;
     rows := map fst (filter snd (combine (rows df) mask)) |}.

(** [pd.Series(hist, index=pd.IntervalIndex.from_breaks(edges,
    closed='left'))]: [k] breaks make [k - 1] intervals, and the series
    needs as many values as intervals. *)
Record HistSeries : Type := {
  hist_breaks : list Float64.float;
  hist_counts : list Z
}.

Definition interval_series (hist : list Z) (edges : list Float64.float)
  : result pyexn HistSeries :=
  if Nat.eqb (List.length hist) (Nat.pred (List.length edges)) then
    Ok {| hist_breaks := edges; hist_counts := hist |}
  else Err (ValueError "Length of values does not match length of index").

(** The frame written as [<name>_examples.csv]: a copy of [X] with the
    columns [sample], [w], [y] and [uplift] added. *)
Record ExampleFrame : Type := {
  ex_features : DataFrame;
  ex_sample : list (option string);
  ex_w : Series;
  ex_y : Series;
  ex_uplift : list Float64.float
}.

Definition mem (l : label) (ls : list label) : bool :=
  existsb (Z.eqb l) ls.

(** [example_df.loc[X_train.index, 'sample'] = 'train'] and the same for
    the test rows: a label that the frame does not have is a [KeyError]. *)
Definition mark_sample (idx train_idx test_idx : list label)
  : result pyexn (list (option string)) :=
  if negb (forallb (fun l => mem l idx) train_idx) then
    Err (KeyError "not in index")
  else if negb (forallb (fun l => mem l idx) test_idx) then
    Err (KeyError "not in index")
  else
    Ok (map (fun l => if mem l test_idx then Some "test"
                      else if mem l train_idx then Some "train"
                      else None) idx).

Definition example_frame (X : DataFrame) (sample : list (option string))
    (w y : Series) (uplift : list Float64.float) : result pyexn ExampleFrame :=
  if negb (Nat.eqb (List.length uplift) (List.length (rows X))) then
    Err (ValueError "Length of values does not match length of index")
  else
    Ok {| ex_features := X; ex_sample := sample;
          ex_w := w; ex_y := y; ex_uplift := uplift |}.

(** Lines 64 to 68 of [train]: the features [X], the treatment flag [w] and
    the target [y]. *)
Definition train_targets (features_df : DataFrame)
  : result pyexn (DataFrame * Series * Series) :=
  (X <- loc_columns features_df (skipn 3 (columns features_df)) ;;
   flag <- loc_column features_df "target_group_flag" ;;
   let w := fillna Float64.zero flag in
   amt <- loc_column features_df "target_purchase_amt" ;;
   discount <- loc_column features_df "target_discount_sum" ;;
   flag' <- loc_column features_df "target_group_flag" ;;
   let y := series_sub
              (series_sub (series_scale 28 (fillna Float64.zero amt))
                          (fillna Float64.zero discount))
              (series_scale 1 (fillna Float64.zero flag')) in
   Ok (X, w, y))%result.

(** [N * cutoff] for the row count [N] and a configuration value. *)
Definition repeat_string (n : Z) (s : string) : string :=
  String.concat "" (repeat s (Z.to_nat n)).

Definition mul_int (N : Z) (v : yaml) : result pyexn yaml :=
  match v with
  | YInt z => Ok (YInt (N * z))
  | YBool b => Ok (YInt (N * (if b then 1 else 0)))
  | YFloat f => Ok (YFloat (Float64.mul (Float64.of_int N) f))
  | YStr s => Ok (YStr (repeat_string N s))
  | YSeq l => Ok (YSeq (List.concat (repeat l (Z.to_nat N))))
  | YNull | YMap _ => Err (TypeError "unsupported operand type(s) for *")
  end.

(** The uplift column as a mask [uplift > 0.0]. *)
Definition positive_mask (uplift : Series) : list bool :=
  map (fun p => Float64.gtb (snd p) Float64.zero) uplift.

(** *** The ranking of customers, in the words of the specification *)

(** The customers whose uplift is strictly greater than [0.0]. *)
Definition kept_positive (scores : Series) : Series :=
  filter (fun p => Float64.gtb (snd p) Float64.zero) scores.



(* ===================================================================== *)
(** ** final/campaign/__main__.py: the tasks *)
(* ===================================================================== *)

Section Main.

(** A dask frame (a lazy table: its rows exist once [.compute()] has run),
    and an estimator object as [build_pipeline] returns it: both are opaque
    to this module. *)
Variable DaskFrame : Type.
Variable Estimator : Type.

(** The class [Engine] of the module [source], which is not part of the
    sources, and the module global [_engine = Engine()]. *)
Variable Engine : Type.
Variable _engine : Engine.

(** Python's parser of integer literals, [int(str)]. *)
Variable int_of_str : string -> result pyexn Z.

(** [sklearn.pipeline.Pipeline(steps)]: the named steps. *)
Definition Pipeline := list (string * Estimator).

(** What [to_csv] writes. *)
Inductive csv_content : Type :=
| CsvHist (hist_ss : HistSeries)
| CsvMetrics (metrics_ss : list (Float64.float * Float64.float))
| CsvExamples (example_df : ExampleFrame)
| CsvCustomers (customers : list label).

(** The library calls of the module.  [registerTable engine name table] is
    [engine.registerTable(name, table)]; the two [with open(...)] blocks are
    the calls [pickle_dump] and [pickle_load]; [dd_columns] and [dd_getitem]
    are [frame.columns] and [frame[labels]] on a dask frame; [fit] answers
    with the pipeline as the fit left it (the method changes the object in
    place); [yaml_load] is the last [with open(...)] block, of the main
    block. *)
Inductive call : Type :=
| os_path_exists (p : path)
| os_mkdir (p : path)
| dd_read_csv (p : path)
| dd_read_parquet (p : path)
| registerTable (engine : Engine) (name : string) (table : DaskFrame)
| compute_features (calcers : yaml) (engine : Engine)
| to_parquet (features_dd : DaskFrame) (p : path)
| dd_sample (features_dd : DaskFrame) (frac : yaml) (random_state : Z)
| dd_columns (features_dd : DaskFrame)
| dd_getitem (features_dd : DaskFrame) (labels : list string)
| dd_compute (features_dd : DaskFrame)
| build_pipeline (steps : yaml)
| train_test_split (X : DataFrame) (y w : Series) (test_size : yaml)
    (random_state : Z) (stratify : Series)
| fit (pipeline : Pipeline) (X : DataFrame) (y : Series) (model__w : Series)
| pickle_dump (pipeline : Pipeline) (file : path)
| pickle_load (file : path)
| predict (pipeline : Pipeline) (X : DataFrame)
| np_histogram (a : list Float64.float) (bins : yaml)
| np_around (a : list Float64.float) (decimals : Z)
| np_arange_float16 (start : yaml) (stop : Z) (step : yaml)
| uplift_at_k (uplift w y : list Float64.float) (k : Float64.float)
| sort_values (df : DataFrame) (by_ : string) (ascending : bool)
| to_csv (content : csv_content) (p : path) (with_index : bool)
| yaml_load (p : path).

Definition split_parts : Type :=
  (DataFrame * DataFrame * Series * Series * Series * Series)%type.

Definition resp (c : call) : Type :=
  match c with
  | os_path_exists _ => bool
  | os_mkdir _ => unit
  | dd_read_csv _ => DaskFrame
  | dd_read_parquet _ => DaskFrame
  | registerTable _ _ _ => unit
  | compute_features _ _ => DaskFrame
  | to_parquet _ _ => unit
  | dd_sample _ _ _ => DaskFrame
  | dd_columns _ => list string
  | dd_getitem _ _ => DaskFrame
  | dd_compute _ => DataFrame
  | build_pipeline _ => Estimator
  | train_test_split _ _ _ _ _ _ => split_parts
  | fit _ _ _ _ => Pipeline
  | pickle_dump _ _ => unit
  | pickle_load _ => Pipeline
  | predict _ _ => list Float64.float
  | np_histogram _ _ => (list Z * list Float64.float)%type
  | np_around _ _ => list Float64.float
  | np_arange_float16 _ _ _ => list Float64.float
  | uplift_at_k _ _ _ _ => Float64.float
  | sort_values _ _ _ => DataFrame
  | to_csv _ _ _ => unit
  | yaml_load _ => yaml
  end.

Definition program := prog resp pyexn.

Definition lib_call (c : call) : program (resp c) := invoke c.
Definition builtin {A} (r : result pyexn A) : program A := eval r.

(** The module globals that [_init] sets; [module_globals] is their value
    when the module is loaded. *)
Record globals : Type := {
  _datapath : option path;
  _metricspath : option path;
  _artifactspath : option path;
  _submitspath : option path
}.

Definition module_globals : globals :=
  {| _datapath := None; _metricspath := None;
     _artifactspath := None; _submitspath := None |}.

Definition _random_state : Z := 110894.

(** [int(v)]. *)
Definition py_int (v : yaml) : result pyexn Z :=
  match v with
  | YInt z => Ok z
  | YBool b => Ok (if b then 1 else 0)
  | YFloat S754_nan => Err (ValueError "cannot convert float NaN to integer")
  | YFloat f =>
      match Float64.truncate f with
      | Some z => Ok z
      | None => Err (OverflowError "cannot convert float infinity to integer")
      end
  | YStr s => int_of_str s
  | YNull | YSeq _ | YMap _ =>
      Err (TypeError "int() argument must be a string or a real number")
  end.

Definition _init (workpath : path) : program globals :=
  (let datapath := os_path_join workpath "data" in
   let metricspath := os_path_join workpath "metrics" in
   let artifactspath := os_path_join workpath "artifacts" in
   let submitspath := os_path_join workpath "submits" in
   for_each (fun p =>
               found <- lib_call (os_path_exists p) ;;
               if negb found then lib_call (os_mkdir p) else Ret tt)
            [artifactspath; metricspath; submitspath] ;;;
   campaigns <- lib_call (dd_read_csv (os_path_join datapath "campaigns.csv")) ;;
   lib_call (registerTable _engine "campaigns" campaigns) ;;;
   customers <- lib_call (dd_read_csv (os_path_join datapath "customers.csv")) ;;
   lib_call (registerTable _engine "customers" customers) ;;;
   receipts <- lib_call (dd_read_parquet
                           (os_path_join datapath "receipts.parquet")) ;;
   lib_call (registerTable _engine "receipts" receipts) ;;;
   Ret {| _datapath := Some datapath; _metricspath := Some metricspath;
          _artifactspath := Some artifactspath;
          _submitspath := Some submitspath |})%prog.

Definition featurize (g : globals) (name : string) (config : yaml)
  : program unit :=
  (calcers <- builtin (getitem config "calcers") ;;
   features_dd <- lib_call (compute_features calcers _engine) ;;
   p <- builtin (join_global (_datapath g) (name ++ "_features.parquet")%string) ;;
   lib_call (to_parquet features_dd p))%prog.

Definition train (g : globals) (name : string) (config : yaml)
  : program unit :=
  (p <- builtin (join_global (_datapath g) (name ++ "_features.parquet")%string) ;;
   features_dd <- lib_call (dd_read_parquet p) ;;
   frac <- builtin (getitem config "sample_frac") ;;
   sampled <- lib_call (dd_sample features_dd frac _random_state) ;;
   features_df <- lib_call (dd_compute sampled) ;;

   ' (X, w, y) <- builtin (train_targets features_df) ;;

   transformers <- builtin (getitem config "transformers") ;;
   transform <- lib_call (build_pipeline transformers) ;;
   selectors <- builtin (getitem config "selectors") ;;
   select_ <- lib_call (build_pipeline selectors) ;;
   model_cfg <- builtin (getitem config "model") ;;
   model <- lib_call (build_pipeline (YSeq [model_cfg])) ;;
   let pipeline : Pipeline :=
     [("transform", transform); ("select", select_); ("model", model)] in

   validation <- builtin (getitem config "validation") ;;
   test_size <- builtin (getitem validation "test_size") ;;
   ' (X_train, X_test, y_train, y_test, w_train, w_test) <-
     lib_call (train_test_split X y w test_size _random_state w) ;;

   pipeline <- lib_call (fit pipeline X_train y_train w_train) ;;

   pkl <- builtin (join_global (_artifactspath g) (name ++ "_pipeline.pkl")%string) ;;
   lib_call (pickle_dump pipeline pkl) ;;;

   uplift <- lib_call (predict pipeline X_test) ;;

   evaluation <- builtin (getitem config "evaluation") ;;
   bin_count <- builtin (getitem evaluation "bin_count") ;;
   ' (hist, edges) <- lib_call (np_histogram uplift bin_count) ;;
   edges <- lib_call (np_around edges 2) ;;
   hist_ss <- builtin (interval_series hist edges) ;;

   evaluation <- builtin (getitem config "evaluation") ;;
   cutoff_step <- builtin (getitem evaluation "cutoff_step") ;;
   cutoffs <- lib_call (np_arange_float16 cutoff_step 1 cutoff_step) ;;
   metrics <- for_each (fun k => lib_call (uplift_at_k uplift (values w)
                                                       (values y) k))
                       cutoffs ;;
   let metrics_ss := combine cutoffs metrics in

   sample <- builtin (mark_sample (index X) (index X_train) (index X_test)) ;;
   uplift_all <- lib_call (predict pipeline X) ;;
   example_df <- builtin (example_frame X sample w y uplift_all) ;;

   hist_csv <- builtin (join_global (_metricspath g) (name ++ "_hist.csv")%string) ;;
   lib_call (to_csv (CsvHist hist_ss) hist_csv true) ;;;
   metrics_csv <- builtin (join_global (_metricspath g)
                                       (name ++ "_metrics.csv")%string) ;;
   lib_call (to_csv (CsvMetrics metrics_ss) metrics_csv true) ;;;
   examples_csv <- builtin (join_global (_metricspath g)
                                        (name ++ "_examples.csv")%string) ;;
   lib_call (to_csv (CsvExamples example_df) examples_csv true))%prog.

Definition inference (g : globals) (name : string) (config : yaml)
  : program unit :=
  (p <- builtin (join_global (_datapath g) (name ++ "_features.parquet")%string) ;;
   features_dd <- lib_call (dd_read_parquet p) ;;
   cols <- lib_call (dd_columns features_dd) ;;
   features_dd <- lib_call (dd_getitem features_dd (skipn 3 cols)) ;;

   pkl <- builtin (join_global (_artifactspath g) (name ++ "_pipeline.pkl")%string) ;;
   pipeline <- lib_call (pickle_load pkl) ;;

   features_df <- lib_call (dd_compute features_dd) ;;
   uplift <- lib_call (predict pipeline features_df) ;;
   features_df <- builtin (setitem features_df "uplift" uplift) ;;
   uplift_col <- builtin (loc_column features_df "uplift") ;;
   let features_df := loc_mask features_df (positive_mask uplift_col) in
   features_df <- lib_call (sort_values features_df "uplift" false) ;;

   let N := shape0 features_df in
   cutoff <- builtin (getitem config "cutoff") ;;
   product <- builtin (mul_int N cutoff) ;;
   n <- builtin (py_int product) ;;

   let customers := slice_to (index features_df) n in
   csv <- builtin (join_global (_submitspath g) (name ++ "_submit.csv")%string) ;;
   lib_call (to_csv (CsvCustomers customers) csv false))%prog.

Definition task : Type := globals -> string -> yaml -> program unit.

Definition _tasks (key : string) : option task :=
  if String.eqb key "featurise" then Some featurize
  else if String.eqb key "train" then Some train
  else if String.eqb key "inference" then Some inference
  else None.

(** The parsed command line. *)
Record arguments : Type := {
  arg_name : string;
  arg_task : string;
  arg_config : path;
  arg_work_dir : path
}.

Definition main (args : arguments) : program unit :=
  (g <- _init (arg_work_dir args) ;;
   config <- lib_call (yaml_load (arg_config args)) ;;
   match _tasks (arg_task args) with
   | Some run_task => run_task g (arg_name args) config
   | None => Fail (KeyError (arg_task args))
   end)%prog.

(** *** Reading a trace *)

(** The file a call writes, and in which format. *)
Inductive file_format : Type := Parquet | Pickle | Csv.

Definition written_file (c : call) : option (path * file_format) :=
  match c with
  | to_parquet _ p => Some (p, Parquet)
  | pickle_dump _ p => Some (p, Pickle)
  | to_csv _ p _ => Some (p, Csv)
  | _ => None
  end.

Definition files_written (cs : list call) : list (path * file_format) :=
  flat_map (fun c => match written_file c with
                     | Some f => [f]
                     | None => []
                     end) cs.

(** A call that writes no file, or one in a format of [formats]. *)
Definition writes_only (formats : list file_format) (c : call) : Prop :=
  match written_file c with
  | Some f => In (snd f) formats
  | None => True
  end.

(** The steps of [train], as the specification names them. *)
Inductive step : Type :=
| ReadFeatures | Assemble | Split | Fit | Persist | Score | WriteMetrics | Other.

Definition step_of (c : call) : step :=
  match c with
  | dd_read_parquet _ | dd_sample _ _ _ | dd_compute _ => ReadFeatures
  | build_pipeline _ => Assemble
  | train_test_split _ _ _ _ _ _ => Split
  | fit _ _ _ _ => Fit
  | pickle_dump _ _ => Persist
  | predict _ _ | np_histogram _ _ | np_around _ _
  | np_arange_float16 _ _ _ | uplift_at_k _ _ _ _ => Score
  | to_csv _ _ _ => WriteMetrics
  | _ => Other
  end.

(** The random state a call is given, when it takes one. *)
Definition random_state_of (c : call) : option Z :=
  match c with
  | dd_sample _ _ rs => Some rs
  | train_test_split _ _ _ _ rs _ => Some rs
  | _ => None
  end.

(** The tables registered on engines, in order. *)
Definition registered (cs : list call)
  : list (Engine * string * DaskFrame) :=
  flat_map (fun c => match c with
                     | registerTable engine name t => [(engine, name, t)]
                     | _ => []
                     end) cs.

(** The specification's order of [train]: the fitted pipeline is persisted
    only after it has been scored, that is, every [Persist] step of a run
    has a [Score] step before it. *)
Definition persisted_after_scored (steps : list step) : Prop :=
  forall i, nth_error steps i = Some Persist ->
            exists j, (j < i)%nat /\ nth_error steps j = Some Score.

(** The order of the code: no [Score] step and no [WriteMetrics] step
    before a [Persist] step. *)
Definition persisted_before_scored (steps : list step) : Prop :=
  forall i j, nth_error steps i = Some Persist -> (j < i)%nat ->
              nth_error steps j <> Some Score /\
              nth_error steps j <> Some WriteMetrics.

(** *** What the theorems assume of pandas and dask *)

Section Contracts.

Variable W : Type.
Variable lib : W -> forall c : call, result pyexn (resp c) * W.

(** Row [a] may stand before row [b] in a frame sorted by column [i] in
    descending order. *)
Definition desc_by (i : nat) (a b : label * list Float64.float) : Prop :=
  Float64.leb (cell i b) (cell i a) = true.

(** [df.sort_values(by, ascending=False)] on a column without NaN: the same
    columns, the same rows in another order, the key never increasing.
    (pandas sorts with quicksort: the order of equal keys is not fixed.) *)
Definition sort_values_contract : Prop :=
  forall w df by_ df' w' i others,
    lib w (sort_values df by_ false) = (Ok df', w') ->
    positions by_ (columns df) = i :: others ->
    Forall (fun r => Float64.isna (cell i r) = false) (rows df) ->
    columns df' = columns df /\
    Permutation (rows df') (rows df) /\
    StronglySorted (desc_by i) (rows df').

(** Every row of a computed frame has one cell per column. *)
Definition aligned (df : DataFrame) : Prop :=
  Forall (fun r => List.length (snd r) = List.length (columns df)) (rows df).

Definition compute_contract : Prop :=
  forall w d df w', lib w (dd_compute d) = (Ok df, w') -> aligned df.

(** The answers of [c] do not depend on the state of the libraries: a pure
    function of its arguments (for [dd_sample] and [train_test_split], the
    random state among them). *)
Definition deterministic (c : call) : Prop :=
  forall w1 w2, fst (lib w1 c) = fst (lib w2 c).

(** Every call that takes a random state is given [seed]. *)
Definition seeded_with (seed : Z) (c : call) : Prop :=
  match random_state_of c with
  | Some rs => rs = seed
  | None => True
  end.

(** Reading, sampling, computing, building and splitting are deterministic:
    the features file is the same in every run, the constructors are pure,
    and the sampler and the splitter draw from the given random state. *)
Definition seeded_calls_deterministic : Prop :=
  (forall p, deterministic (dd_read_parquet p)) /\
  (forall d frac rs, deterministic (dd_sample d frac rs)) /\
  (forall d, deterministic (dd_compute d)) /\
  (forall steps, deterministic (build_pipeline steps)) /\
  (forall X y w ts rs st, deterministic (train_test_split X y w ts rs st)).

End Contracts.

End Main.

Arguments os_path_exists {DaskFrame Estimator Engine} p.
Arguments os_mkdir {DaskFrame Estimator Engine} p.
Arguments dd_read_csv {DaskFrame Estimator Engine} p.
Arguments dd_read_parquet {DaskFrame Estimator Engine} p.
Arguments registerTable {DaskFrame Estimator Engine} engine name table.
Arguments compute_features {DaskFrame Estimator Engine} calcers engine.
Arguments to_parquet {DaskFrame Estimator Engine} features_dd p.
Arguments dd_sample {DaskFrame Estimator Engine} features_dd frac random_state.
Arguments dd_columns {DaskFrame Estimator Engine} features_dd.
Arguments dd_getitem {DaskFrame Estimator Engine} features_dd labels.
Arguments dd_compute {DaskFrame Estimator Engine} features_dd.
Arguments build_pipeline {DaskFrame Estimator Engine} steps.
Arguments train_test_split {DaskFrame Estimator Engine} X y w test_size
  random_state stratify.
Arguments fit {DaskFrame Estimator Engine} pipeline X y model__w.
Arguments pickle_dump {DaskFrame Estimator Engine} pipeline file.
Arguments pickle_load {DaskFrame Estimator Engine} file.
Arguments predict {DaskFrame Estimator Engine} pipeline X.
Arguments np_histogram {DaskFrame Estimator Engine} a bins.
Arguments np_around {DaskFrame Estimator Engine} a decimals.
Arguments np_arange_float16 {DaskFrame Estimator Engine} start stop step.
Arguments uplift_at_k {DaskFrame Estimator Engine} uplift w y k.
Arguments sort_values {DaskFrame Estimator Engine} df by_ ascending.
Arguments to_csv {DaskFrame Estimator Engine} content p with_index.
Arguments yaml_load {DaskFrame Estimator Engine} p.
Arguments _init {DaskFrame Estimator Engine} _engine workpath.
Arguments featurize {DaskFrame Estimator Engine} _engine g name config.
Arguments train {DaskFrame Estimator Engine} g name config.
Arguments inference {DaskFrame Estimator Engine} int_of_str g name config.
Arguments _tasks {DaskFrame Estimator Engine} _engine int_of_str key.
Arguments main {DaskFrame Estimator Engine} _engine int_of_str args.

End Campaign.

(* ===================================================================== *)
(** ** Comparing the ends of paths *)
(* ===================================================================== *)

(** Two lists agree as far as the shorter one goes. *)
Fixpoint agree_start (l1 l2 : list ascii) : bool :=
  match l1, l2 with
  | [], _ | _, [] => true
  | a :: r1, b :: r2 => Ascii.eqb a b && agree_start r1 r2
  end.

(** One of the two strings is an ending of the other. *)
Definition same_ending (s t : string) : bool :=
  agree_start (rev (list_ascii_of_string s)) (rev (list_ascii_of_string t)).

(* ===================================================================== *)
(** ** Kinds of binary64 values *)
(* ===================================================================== *)

Module Float64Kind.

(** Neither NaN nor an infinity. *)
Definition finite (x : Float64.float) : bool :=
  match x with
  | S754_zero _ | S754_finite _ _ _ => true
  | S754_infinity _ | S754_nan => false
  end.

Definition isinf (x : Float64.float) : bool :=
  match x with
  | S754_infinity _ => true
  | _ => false
  end.

End Float64Kind.

(* ===================================================================== *)
(** ** Counting the marks of the [sample] column *)
(* ===================================================================== *)

(** How many rows carry the mark [tag]. *)
Definition marked (tag : string) (marks : list (option string)) : nat :=
  List.length (filter (fun m => match m with
                                | Some s => String.eqb s tag
                                | None => false
                                end) marks).

(* ===================================================================== *)
(** ** What holds of every run *)
(* ===================================================================== *)

Section Always.

Variable call : Type.
Variable resp : call -> Type.
Variable E : Type.

(** [always p Q]: [Q] holds of the outcome and the trace of every run of
    [p], whatever the libraries answer to its calls. *)
Fixpoint always {R} (p : prog resp E R)
    (Q : outcome E R -> list (event resp E) -> Prop) {struct p} : Prop :=
  match p with
  | Ret r => Q (Returned r) []
  | Raise e => Q (Raised e) []
  | Fail e => Q (Propagated e) [BuiltinError e]
  | Call c k =>
      (forall e, Q (Propagated e) [Ev c (Err e)]) /\
      (forall x, always (k x) (fun o tr => Q o (Ev c (Ok x) :: tr)))
  | Try body handler k =>
      always body (fun o tr1 =>
        match o with
        | Returned a =>
            always (k a) (fun o' tr3 => Q o' (tr1 ++ [] ++ tr3))
        | Raised e | Propagated e =>
            always (handler e) (fun o' tr2 =>
              match o' with
              | Returned a =>
                  always (k a) (fun o'' tr3 => Q o'' (tr1 ++ tr2 ++ tr3))
              | Raised e' => Q (Raised e') (tr1 ++ tr2)
              | Propagated e' => Q (Propagated e') (tr1 ++ tr2)
              end)
        end)
  end.

End Always.

(* ===================================================================== *)
(** ** final/campaign/__main__.py: reading the runs of the tasks *)
(* ===================================================================== *)

Module CampaignRuns.

Import Campaign.

(** The target [y] of one row of the sampled features, line 66 to 68 of
    [train]. *)
Definition target_of (df : DataFrame) (r : label * list Float64.float)
  : Float64.float :=
  Float64.sub
    (Float64.sub
       (Float64.mul (Float64.of_int 28)
          (or_zero (value_at df "target_purchase_amt" r)))
       (or_zero (value_at df "target_discount_sum" r)))
    (Float64.mul (Float64.of_int 1)
       (or_zero (value_at df "target_group_flag" r))).

Section Readers.

Variable DaskFrame : Type.
Variable Estimator : Type.
Variable Engine : Type.

Local Abbreviation call := (Campaign.call DaskFrame Estimator Engine).
Local Abbreviation event := (event (@resp DaskFrame Estimator Engine) pyexn).

(** The paths [os.path.exists] was asked about, each with the answer. *)
Definition checked (tr : list event) : list (path * bool) :=
  flat_map (fun ev =>
              match ev with
              | Ev c r =>
                  match c as c0 return result pyexn (resp c0) -> list (path * bool)
                  with
                  | os_path_exists p =>
                      fun r0 => match r0 with
                                | Ok found => [(p, found)]
                                | Err _ => []
                                end
                  | _ => fun _ => []
                  end r
              | BuiltinError _ => []
              end) tr.

(** The directories [os.mkdir] was called on. *)
Definition made_dirs (cs : list call) : list path :=
  flat_map (fun c => match c with
                     | os_mkdir p => [p]
                     | _ => []
                     end) cs.

(** The files whose write came back without an exception. *)
Definition files_completed (tr : list event) : list (path * file_format) :=
  flat_map (fun ev =>
              match ev with
              | Ev c (Ok _) =>
                  match written_file c with
                  | Some f => [f]
                  | None => []
                  end
              | _ => []
              end) tr.

(** The file a call reads, and in which format. *)
Definition read_file (c : call) : option (path * file_format) :=
  match c with
  | dd_read_csv p => Some (p, Csv)
  | dd_read_parquet p => Some (p, Parquet)
  | pickle_load p => Some (p, Pickle)
  | _ => None
  end.

Definition files_read (cs : list call) : list (path * file_format) :=
  flat_map (fun c => match read_file c with
                     | Some f => [f]
                     | None => []
                     end) cs.

(** The configuration files loaded, each with the document it held. *)
Definition configs_read (tr : list event) : list (path * yaml) :=
  flat_map (fun ev =>
              match ev with
              | Ev c r =>
                  match c as c0 return result pyexn (resp c0) -> list (path * yaml)
                  with
                  | yaml_load p =>
                      fun r0 => match r0 with
                                | Ok config => [(p, config)]
                                | Err _ => []
                                end
                  | _ => fun _ => []
                  end r
              | BuiltinError _ => []
              end) tr.

(** The predictions asked of a pipeline: the pipeline, the frame, and the
    uplift it answered. *)
Definition predictions (tr : list event)
  : list (Pipeline Estimator * DataFrame * list Float64.float) :=
  flat_map (fun ev =>
              match ev with
              | Ev c r =>
                  match c as c0
                        return result pyexn (resp c0) ->
                               list (Pipeline Estimator * DataFrame
                                     * list Float64.float)
                  with
                  | predict pipeline X =>
                      fun r0 => match r0 with
                                | Ok uplift => [(pipeline, X, uplift)]
                                | Err _ => []
                                end
                  | _ => fun _ => []
                  end r
              | BuiltinError _ => []
              end) tr.

(** The metrics computed: the arguments of [uplift_at_k] and its answer. *)
Definition metrics_computed (tr : list event)
  : list (list Float64.float * list Float64.float * list Float64.float
          * Float64.float * Float64.float) :=
  flat_map (fun ev =>
              match ev with
              | Ev c r =>
                  match c as c0
                        return result pyexn (resp c0) ->
                               list (list Float64.float * list Float64.float
                                     * list Float64.float * Float64.float
                                     * Float64.float)
                  with
                  | uplift_at_k uplift ws ys k =>
                      fun r0 => match r0 with
                                | Ok m => [(uplift, ws, ys, k, m)]
                                | Err _ => []
                                end
                  | _ => fun _ => []
                  end r
              | BuiltinError _ => []
              end) tr.

(** The answers of [train_test_split]: the frame that was split, and the
    train and test parts of it. *)
Definition splits (tr : list event) : list (DataFrame * DataFrame * DataFrame) :=
  flat_map (fun ev =>
              match ev with
              | Ev c r =>
                  match c as c0
                        return result pyexn (resp c0) ->
                               list (DataFrame * DataFrame * DataFrame)
                  with
                  | train_test_split X _ _ _ _ _ =>
                      fun r0 => match r0 with
                                | Ok (X_train, X_test, _, _, _, _) =>
                                    [(X, X_train, X_test)]
                                | Err _ => []
                                end
                  | _ => fun _ => []
                  end r
              | BuiltinError _ => []
              end) tr.

(** The frames computed from dask frames. *)
Definition computed (tr : list event) : list DataFrame :=
  flat_map (fun ev =>
              match ev with
              | Ev c r =>
                  match c as c0 return result pyexn (resp c0) -> list DataFrame
                  with
                  | dd_compute _ =>
                      fun r0 => match r0 with
                                | Ok df => [df]
                                | Err _ => []
                                end
                  | _ => fun _ => []
                  end r
              | BuiltinError _ => []
              end) tr.

(** What was handed to [to_csv], in order. *)
Definition csv_written (cs : list call) : list (csv_content * path * bool) :=
  flat_map (fun c => match c with
                     | to_csv content p with_index => [(content, p, with_index)]
                     | _ => []
                     end) cs.

End Readers.

End CampaignRuns.

(* ===================================================================== *)
(** ** recsys/lesson5/config.py: reading the runs of [score_wrapper] *)
(* ===================================================================== *)

Module RecsysRuns.

Import Recsys.

Section Readers.

Variable object : Type.
Variable ndarray : Type.

Local Abbreviation event := (event (@resp object ndarray) (exn object)).

(** What the estimators were asked, and what they answered. *)
Definition asked (cs : list (call object ndarray))
  : list (object * interactions * Z) :=
  flat_map (fun c => match c with
                     | predict estimator X k => [(estimator, X, k)]
                     | _ => []
                     end) cs.

Definition predicted (tr : list event) : list ndarray :=
  flat_map (fun ev =>
              match ev with
              | Ev c r =>
                  match c as c0
                        return result (exn object) (resp c0) -> list ndarray
                  with
                  | predict _ _ _ =>
                      fun r0 => match r0 with
                                | Ok y_pred => [y_pred]
                                | Err _ => []
                                end
                  | _ => fun _ => []
                  end r
              | BuiltinError _ => []
              end) tr.

(** What [ndcg_score] was called on. *)
Definition scored (cs : list (call object ndarray))
  : list (list (list Z) * ndarray * Z) :=
  flat_map (fun c => match c with
                     | ndcg_score y_true y_pred k => [(y_true, y_pred, k)]
                     | _ => []
                     end) cs.

End Readers.

End RecsysRuns.

(* ===================================================================== *)
(** ** recsys/lesson5/config.py: [pipelines] and [searchers] *)
(* ===================================================================== *)

Module RecsysConfig.

Import Recsys.

(** The value of a keyword argument, as the module writes it;
    [RANDOM_STATE] is [constants.RANDOM_STATE]. *)
Inductive value : Type :=
| VInt (z : Z)
| VFloat (f : Float64.float)
| VBool (b : bool)
| RANDOM_STATE.

(** A constructor call [Class(key=value, ...)] of a recommender. *)
Record construction : Type := {
  class_name : string;
  keywords : list (string * value)
}.

(** [Pipeline(steps)]: the named steps. *)
Definition steps : Type := list (string * construction).

Fixpoint lookup {A} (key : string) (d : list (string * A)) : option A :=
  match d with
  | [] => None
  | (k, v) :: rest => if String.eqb k key then Some v else lookup key rest
  end.

Definition pipelines : list (string * steps) :=
  [ ("baseline",
     [("recommender",
       {| class_name := "PopularItemsColabRecommender"; keywords := [] |})]);
    ("pure_svd",
     [("recommender",
       {| class_name := "PureSVDColabRecommender";
          keywords := [("n_components", VInt 5);
                       ("random_state", RANDOM_STATE)] |})]);
    ("funk_svd",
     [("recommender",
       {| class_name := "FunkSVDColabRecommender";
          keywords := [("n_factors", VInt 5);
                       ("n_epochs", VInt 1);
                       ("random_state", RANDOM_STATE);
                       ("verbose", VBool false)] |})]);
    ("als_lightfm",
     [("recommender",
       {| class_name := "LightFMColabRecommender";
          keywords := [("epochs", VInt 10);
                       ("num_threads", VInt 10);
                       ("verbose", VBool true);
                       ("random_state", RANDOM_STATE)] |})]) ].

(** The distributions of optuna, as the module builds them. *)
Inductive distribution : Type :=
| IntDistribution (low high : Z)
| FloatDistribution (low high : value)
| CategoricalDistribution (choices : list string).

(** The number a bound of a [FloatDistribution] stands for. *)
Definition bound (v : value) : Float64.float :=
  match v with
  | VInt z => Float64.of_int z
  | VFloat f => f
  | VBool b => Float64.of_int (if b then 1 else 0)
  | RANDOM_STATE => Float64.nan
  end.

(** The range of a distribution holds a value. *)
Definition inhabited (d : distribution) : bool :=
  match d with
  | IntDistribution low high => low <=? high
  | FloatDistribution low high => Float64.leb (bound low) (bound high)
  | CategoricalDistribution choices =>
      match choices with [] => false | _ => true end
  end.

(** [v] is a value of the distribution. *)
Definition within (d : distribution) (v : value) : bool :=
  match d, v with
  | IntDistribution low high, VInt z => (low <=? z) && (z <=? high)
  | FloatDistribution low high, (VInt _ | VFloat _) =>
      Float64.leb (bound low) (bound v) && Float64.leb (bound v) (bound high)
  | _, _ => false
  end.

(** [<step>__<parameter>], the way scikit-learn addresses the parameter of
    a step of a pipeline: the text before the first ["__"] and the text
    after it. *)
Fixpoint split_parameter (s : string) : option (string * string) :=
  match s with
  | EmptyString => None
  | String c rest =>
      match c, rest with
      | "_"%char, String "_"%char parameter => Some (EmptyString, parameter)
      | _, _ =>
          match split_parameter rest with
          | Some (step, parameter) => Some (String c step, parameter)
          | None => None
          end
      end
  end.

Section Searchers.

Variable object : Type.
Variable isinstance_Pipeline : object -> bool.
Variable AT_K : Z.
Variable ndarray : Type.
Variable shape : ndarray -> list Z.

(** The keyword arguments of a search; [n_jobs] is [None] where the
    dictionary has no such key. *)
Record search_arguments : Type := {
  param_distributions : list (string * distribution);
  n_jobs : option Z;
  n_trials : Z;
  scoring : object -> interactions -> option ndarray
            -> prog (@resp object ndarray) (exn object) Float64.float;
  refit : bool;
  verbose : Z;
  random_state : value;
  error_score : string
}.

Definition searchers : list (string * (string * search_arguments)) :=
  [ ("pure_svd",
     ("OptunaSearchCV",
      {| param_distributions :=
           [("recommender__n_components", IntDistribution 2 50)];
         n_jobs := None;
         n_trials := 5;
         scoring := score_wrapper isinstance_Pipeline AT_K shape;
         refit := false;
         verbose := 4;
         random_state := RANDOM_STATE;
         error_score := "raise" |}));
    ("funk_svd",
     ("OptunaSearchCV",
      {| param_distributions :=
           [("recommender__n_factors", IntDistribution 2 200);
            ("recommender__n_epochs", IntDistribution 1 50);
            ("recommender__lr_all",
             FloatDistribution (VFloat (Float64.of_ratio 1 1000))
                               (VFloat (Float64.of_ratio 1 100)));
            ("recommender__reg_all",
             FloatDistribution (VFloat (Float64.of_ratio 1 1000))
                               (VFloat (Float64.of_int 10)))];
         n_jobs := None;
         n_trials := 50;
         scoring := score_wrapper isinstance_Pipeline AT_K shape;
         refit := false;
         verbose := 4;
         random_state := RANDOM_STATE;
         error_score := "raise" |}));
    ("als_lightfm",
     ("OptunaSearchCV",
      {| param_distributions :=
           [("recommender__no_components", IntDistribution 10 200);
            ("recommender__loss",
             CategoricalDistribution ["logistic"; "bpr"; "warp"]);
            ("recommender__learning_rate",
             FloatDistribution (VFloat (Float64.of_ratio 1 1000))
                               (VFloat (Float64.of_ratio 1 100)));
            ("recommender__item_alpha",
             FloatDistribution (VFloat (Float64.of_ratio 5 100)) (VInt 5));
            ("recommender__user_alpha",
             FloatDistribution (VFloat (Float64.of_ratio 5 100)) (VInt 5))];
         n_jobs := Some 16;
         n_trials := 2;
         scoring := score_wrapper isinstance_Pipeline AT_K shape;
         refit := false;
         verbose := 4;
         random_state := RANDOM_STATE;
         error_score := "raise" |})) ].

(** The parameter [name] of a search addresses a step of [p], and when
    the step's constructor call sets the parameter, the value it sets is a
    value of the distribution. *)
Definition addresses (p : steps) (name : string) (d : distribution) : bool :=
  match split_parameter name with
  | None => false
  | Some (step, parameter) =>
      match lookup step p with
      | None => false
      | Some c =>
          match lookup parameter (keywords c) with
          | None => true
          | Some v => within d v
          end
      end
  end.

End Searchers.

End RecsysConfig.

(* ===================================================================== *)
(** ** Concrete libraries for the examples *)
(* ===================================================================== *)

Module RecsysExample.

(** Objects are numbered; object [0] is the one [Pipeline]. *)
Definition object := nat.
Definition isinstance_Pipeline (o : object) : bool := Nat.eqb o 0.
Definition AT_K : Z := 2.
Definition ndarray := list (list Z).
Definition shape (a : ndarray) : list Z := [Z.of_nat (List.length a); AT_K].

Definition call := Recsys.call object ndarray.
Definition resp := @Recsys.resp object ndarray.

(** A library that recommends the artists [1] and [2] to every user and
    scores every prediction [1.0]; its state counts the calls. *)
Definition lib (w : nat) (c : call) : result (exn object) (resp c) * nat :=
  match c with
  | Recsys.logging_info _ _ => (Ok tt, S w)
  | Recsys.predict _ X _ => (Ok (map (fun _ => [1; 2]) (Recsys.user_ids X)), S w)
  | Recsys.ndcg_score _ _ _ => (Ok (Float64.of_int 1), S w)
  end.

Definition X : Recsys.interactions := [(7, 30); (3, 10); (7, 31); (3, 11); (5, 20)].

End RecsysExample.

Module CampaignExample.

Import Campaign.

(** In the examples a dask frame is the frame it computes to, and an
    estimator is the number its fit left in it. *)
Definition DaskFrame := DataFrame.
Definition Estimator := Z.

(** [int(str)] for an optional sign and decimal digits.  (Python also
    accepts blanks around the literal and underscores inside it; no example
    needs them.) *)
Definition digit (c : ascii) : option Z :=
  let n := Z.of_nat (nat_of_ascii c) in
  if (48 <=? n) && (n <=? 57) then Some (n - 48) else None.

Fixpoint digits (acc : Z) (s : string) : option Z :=
  match s with
  | EmptyString => Some acc
  | String c rest =>
      match digit c with
      | Some d => digits (10 * acc + d) rest
      | None => None
      end
  end.

Definition int_of_str (s : string) : result pyexn Z :=
  let invalid := Err (ValueError "invalid literal for int() with base 10") in
  let unsigned (t : string) :=
    match t with
    | EmptyString => None
    | _ => digits 0 t
    end in
  match s with
  | String "-" rest =>
      match unsigned rest with Some z => Ok (- z) | None => invalid end
  | String "+" rest =>
      match unsigned rest with Some z => Ok z | None => invalid end
  | _ => match unsigned s with Some z => Ok z | None => invalid end
  end.

Definition Engine := unit.
Definition _engine : Engine := tt.

Definition call := Campaign.call DaskFrame Estimator Engine.
Definition resp := @Campaign.resp DaskFrame Estimator Engine.

Definition f (z : Z) : Float64.float := Float64.of_int z.

(** Six customers: three target columns, then the features [age] and
    [spend]. *)
Definition features : DataFrame :=
  {| columns := ["target_group_flag"; "target_purchase_amt";
                 "target_discount_sum"; "age"; "spend"];
     rows := [ (101, [f 1; f 2; Float64.nan; f 30; f 5]);
               (102, [f 0; Float64.nan; f 1; f 41; f (-2)]);
               (103, [Float64.nan; f 0; f 0; f 25; f 3]);
               (104, [f 1; f 1; f 1; f 52; f 0]);
               (105, [f 0; f 3; f 2; f 38; f 7]);
               (106, [f 1; f 0; f 0; f 19; f 1]) ] |}.

Definition aligned_b (df : DataFrame) : bool :=
  forallb (fun r => Nat.eqb (List.length (snd r)) (List.length (columns df)))
          (rows df).

(** Insertion sort of the rows, the key in column [i] never increasing. *)
Fixpoint insert_desc (i : nat) (r : label * list Float64.float)
    (l : list (label * list Float64.float)) : list (label * list Float64.float) :=
  match l with
  | [] => [r]
  | x :: rest =>
      if Float64.total_leb (cell i x) (cell i r) then r :: x :: rest
      else x :: insert_desc i r rest
  end.

Definition sort_desc (i : nat) (l : list (label * list Float64.float))
  : list (label * list Float64.float) :=
  fold_right (insert_desc i) [] l.

(** The order [sort_desc] sorts by. *)
Definition total_desc (i : nat) (a b : label * list Float64.float) : Prop :=
  Float64.total_leb (cell i b) (cell i a) = true.

(** The state of the libraries is a number that an unseeded fit draws its
    randomness from; [predict] subtracts the state of the model step from
    the second feature. *)
Definition model_state (p : Pipeline Estimator) : Z :=
  match filter (fun s => String.eqb (fst s) "model") p with
  | s :: _ => snd s
  | [] => 0
  end.

Definition lib (w : nat) (c : call) : result pyexn (resp c) * nat :=
  match c with
  | os_path_exists _ => (Ok false, w)
  | os_mkdir _ => (Ok tt, w)
  | dd_read_csv _ => (Ok {| columns := []; rows := [] |}, w)
  | dd_read_parquet _ => (Ok features, w)
  | registerTable _ _ _ => (Ok tt, w)
  | compute_features _ _ => (Ok features, w)
  | to_parquet _ _ => (Ok tt, w)
  | dd_sample d _ _ => (Ok d, w)
  | dd_columns d => (Ok (columns d), w)
  | dd_getitem d labels =>
      match loc_columns d labels with
      | Ok d' => (Ok d', w)
      | Err e => (Err e, w)
      end
  | dd_compute d =>
      if aligned_b d then (Ok d, w) else (Err (LibraryError "ragged frame"), w)
  | build_pipeline _ => (Ok 0, w)
  | train_test_split X y w_ _ _ _ => (Ok (X, X, y, y, w_, w_), w)
  | fit p _ _ _ => (Ok (map (fun s => (fst s, Z.of_nat w)) p), w)
  | pickle_dump _ _ => (Ok tt, w)
  | pickle_load _ => (Ok [("model", 0)], w)
  | predict p X =>
      (Ok (map (fun r => Float64.sub (cell 1 r) (f (model_state p))) (rows X)), w)
  | np_histogram a _ => (Ok ([Z.of_nat (List.length a)], [f 0; f 1]), w)
  | np_around a _ => (Ok a, w)
  | np_arange_float16 _ _ _ => (Ok [Float64.of_ratio 1 2], w)
  | uplift_at_k _ _ _ _ => (Ok (f 0), w)
  | sort_values df by_ _ =>
      match positions by_ (columns df) with
      | [] => (Err (KeyError by_), w)
      | i :: _ =>
          (Ok {| columns := columns df; rows := sort_desc i (rows df) |}, w)
      end
  | to_csv _ _ _ => (Ok tt, w)
  | yaml_load _ => (Ok YNull, w)
  end.

Definition g : globals :=
  {| _datapath := Some "./data"; _metricspath := Some "./metrics";
     _artifactspath := Some "./artifacts"; _submitspath := Some "./submits" |}.

Definition inference_config (cutoff : Float64.float) : yaml :=
  YMap [("cutoff", YFloat cutoff)].

Definition train_config : yaml :=
  YMap [("sample_frac", YFloat (f 1));
        ("transformers", YSeq []);
        ("selectors", YSeq []);
        ("model", YStr "solo");
        ("validation", YMap [("test_size", YFloat (Float64.of_ratio 1 4))]);
        ("evaluation", YMap [("bin_count", YInt 1);
                             ("cutoff_step", YFloat (Float64.of_ratio 1 2))])].

Definition featurise_config : yaml :=
  YMap [("calcers", YSeq [YStr "age"; YStr "spend"])].

(** The uplift the example library predicts for the six customers. *)
Definition scores : Series :=
  [(101, f 5); (102, f (-2)); (103, f 3); (104, f 0); (105, f 7); (106, f 1)].

(** Two runs of [inference]: with [cutoff: 0.5] and with [cutoff: -0.3]. *)
Definition half : Float64.float := Float64.of_ratio 1 2.

Definition half_cutoff_run :=
  run lib (inference int_of_str g "spring" (inference_config half)) 1%nat.


(** A run of each of the other tasks. *)
Definition init_run := run lib (_init _engine "/srv/work") 1%nat.

Definition featurise_run :=
  run lib (featurize _engine g "spring" featurise_config) 1%nat.

Definition train_run (entropy : nat) :=
  run lib (train g "spring" train_config) entropy.

End CampaignExample.

(* ===================================================================== *)
(** ** More example runs: libraries that fail, the command line *)
(* ===================================================================== *)

Module CampaignScenario.

Import Campaign CampaignExample.

(** Answers that take the place of the example library's. *)
Definition answers : Type :=
  forall c : call, option (result pyexn (resp c)).

Definition lib_with (over : answers) (w : nat) (c : call)
  : result pyexn (resp c) * nat :=
  match over c with
  | Some r => (r, w)
  | None => lib w c
  end.

(** The configuration file holds [config]. *)
Definition loads (config : yaml) : answers :=
  fun c => match c as c0 return option (result pyexn (resp c0)) with
           | yaml_load _ => Some (Ok config)
           | _ => None
           end.


(** [np.histogram] raises. *)
Definition histogram_fails : answers :=
  fun c => match c as c0 return option (result pyexn (resp c0)) with
           | np_histogram _ _ => Some (Err (LibraryError "np.histogram"))
           | _ => None
           end.

(** The directory of the artifacts is there already. *)
Definition artifacts_exist : answers :=
  fun c => match c as c0 return option (result pyexn (resp c0)) with
           | os_path_exists p =>
               Some (Ok (String.eqb p "/srv/work/artifacts"))
           | _ => None
           end.

(** The command line [-n spring -t <task> -c spring.yaml -d /srv/work]. *)
Definition command_line (task : string) : arguments :=
  {| arg_name := "spring"; arg_task := task;
     arg_config := "spring.yaml"; arg_work_dir := "/srv/work" |}.

Definition main_train_run :=
  run (lib_with (loads train_config))
      (main _engine int_of_str (command_line "train")) 1%nat.

Definition main_featurize_run :=
  run (lib_with (loads featurise_config))
      (main _engine int_of_str (command_line "featurize")) 1%nat.

(** [train] on a configuration without ['evaluation']. *)
Definition no_evaluation : list (string * yaml) :=
  [("sample_frac", YFloat (f 1));
   ("transformers", YSeq []);
   ("selectors", YSeq []);
   ("model", YStr "solo");
   ("validation", YMap [("test_size", YFloat (Float64.of_ratio 1 4))])].

Definition no_evaluation_run :=
  run lib (train g "spring" (YMap no_evaluation)) 1%nat.

Definition histogram_fails_run :=
  run (lib_with histogram_fails) (train g "spring" train_config) 1%nat.


(** The tasks under the absolute name [/tmp/spring]. *)
Definition absolute_featurise_run :=
  run lib (featurize _engine g "/tmp/spring" featurise_config) 1%nat.

(** [inference] with [cutoff: 1] and with [cutoff: 0.0]. *)
Definition whole_cutoff_run :=
  run lib (inference int_of_str g "spring" (YMap [("cutoff", YInt 1)])) 1%nat.


Definition init_artifacts_exist_run :=
  run (lib_with artifacts_exist) (_init _engine "/srv/work") 1%nat.

End CampaignScenario.

(* ===================================================================== *)
(** * Facts about programs and their runs *)
(* ===================================================================== *)

Section InteractionFacts.

Variable call : Type.
Variable resp : call -> Type.
Variable E : Type.
Variable W : Type.
Variable lib : W -> forall c : call, result E (resp c) * W.

Local Abbreviation prog := (prog resp E).

Lemma run_bind A B (p : prog A) (f : A -> prog B) (w : W) :
  run lib (bind p f) w =
  match run lib p w with
  | (Returned a, w1, t1) =>
      let '(o, w2, t2) := run lib (f a) w1 in (o, w2, t1 ++ t2)
  | (Raised e, w1, t1) => (Raised e, w1, t1)
  | (Propagated e, w1, t1) => (Propagated e, w1, t1)
  end.
Proof.
  revert B f w.
  induction p as [A a|A e|A e|A c k IH|A T body _ handler _ k IH]; intros B f w.
  - cbn. destruct (run lib (f a) w) as [[o w2] t2]. reflexivity.
  - reflexivity.
  - reflexivity.
  - cbn. destruct (lib w c) as [[x|e] w1]; [|reflexivity].
    rewrite IH. destruct (run lib (k x) w1) as [[[a|e|e] w2] t1]; try reflexivity.
    destruct (run lib (f a) w2) as [[o w3] t2]. reflexivity.
  - cbn. destruct (run lib body w) as [[o w1] tr1].
    destruct (match o with
              | Returned a => (Returned a, w1, [])
              | Raised e | Propagated e => run lib (handler e) w1
              end) as [[o' w2] tr2].
    destruct o' as [a|e|e]; try reflexivity.
    rewrite IH. destruct (run lib (k a) w2) as [[[b|e|e] w3] tr3];
      try reflexivity.
    destruct (run lib (f b) w3) as [[o4 w4] tr4].
    now rewrite <- !app_assoc.
Qed.

(** A program without [raise] never ends in [Raised]. *)
Lemma raise_free_run R (p : prog R) :
  raise_free p -> forall w e, fst (fst (run lib p w)) <> Raised e.
Proof.
  induction p as [A a|A e|A e|A c k IH|A T body IHb handler IHh k IH];
    cbn; intros H w e0; try discriminate; try contradiction.
  - destruct (lib w c) as [[x|e] w1]; cbn; [|discriminate].
    specialize (IH x (H x) w1 e0).
    destruct (run lib (k x) w1) as [[o w2] tr]. exact IH.
  - destruct H as (Hb & Hh & Hk).
    specialize (IHb Hb w).
    destruct (run lib body w) as [[o w1] tr1]. cbn in IHb.
    assert (Hmid : forall o' w2 tr2,
               match o with
               | Returned a => (Returned a, w1, [])
               | Raised e | Propagated e => run lib (handler e) w1
               end = (o', w2, tr2) -> forall e1, o' <> Raised e1).
    { intros o' w2 tr2 Heq e1. destruct o as [a|e|e].
      - inversion Heq. discriminate.
      - exfalso. exact (IHb e eq_refl).
      - specialize (IHh e (Hh e) w1 e1). rewrite Heq in IHh. exact IHh. }
    destruct (match o with
              | Returned a => (Returned a, w1, [])
              | Raised e | Propagated e => run lib (handler e) w1
              end) as [[o' w2] tr2] eqn:Heq.
    specialize (Hmid _ _ _ eq_refl).
    destruct o' as [a|e|e]; cbn.
    + specialize (IH a (Hk a) w2 e0).
      destruct (run lib (k a) w2) as [[o3 w3] tr3]. exact IH.
    + exfalso. exact (Hmid e eq_refl).
    + discriminate.
Qed.

(** In a program without [try], an exception that occurs ends the run, and
    the run ends with that very exception: the exceptions of the trace are
    the one the outcome carries, or none. *)
Lemma handler_free_run R (p : prog R) :
  handler_free p ->
  forall w,
    errors (snd (run lib p w)) =
    match fst (fst (run lib p w)) with
    | Propagated e => [e]
    | _ => []
    end.
Proof.
  induction p as [A a|A e|A e|A c k IH|A T body _ handler _ k _];
    cbn; intros H w; try reflexivity; try contradiction.
  destruct (lib w c) as [[x|e] w1]; cbn; [|reflexivity].
  specialize (IH x (H x) w1).
  destruct (run lib (k x) w1) as [[o w2] tr]. exact IH.
Qed.

(** Every call of a run is a call of the program. *)
Lemma all_calls_run (P : call -> Prop) R (p : prog R) :
  all_calls P p -> forall w, Forall P (calls (snd (run lib p w))).
Proof.
  induction p as [A a|A e|A e|A c k IH|A T body IHb handler IHh k IH];
    cbn; intros H w; try constructor.
  - destruct H as [Hc Hk].
    destruct (lib w c) as [[x|e] w1]; cbn.
    + specialize (IH x (Hk x) w1).
      destruct (run lib (k x) w1) as [[o w2] tr]. cbn. constructor; assumption.
    + constructor; [assumption|constructor].
  - destruct H as (Hb & Hh & Hk).
    specialize (IHb Hb w).
    destruct (run lib body w) as [[o w1] tr1]. cbn in IHb.
    assert (Hmid : Forall P (calls (snd
               match o with
               | Returned a => (Returned a, w1, [])
               | Raised e | Propagated e => run lib (handler e) w1
               end))).
    { destruct o as [a|e|e]; [constructor| |]; apply IHh, Hh. }
    destruct (match o with
              | Returned a => (Returned a, w1, [])
              | Raised e | Propagated e => run lib (handler e) w1
              end) as [[o' w2] tr2].
    cbn in Hmid. unfold calls in *.
    destruct o' as [a|e|e]; cbn.
    + specialize (IH a (Hk a) w2).
      destruct (run lib (k a) w2) as [[o3 w3] tr3]. cbn in *.
      rewrite !flat_map_app. repeat (apply Forall_app; split); assumption.
    + rewrite flat_map_app. apply Forall_app; split; assumption.
    + rewrite flat_map_app. apply Forall_app; split; assumption.
Qed.

(** Every event of a run is an answer of the library. *)
Lemma run_answered R (p : prog R) (w : W) :
  Forall (answered lib) (snd (run lib p w)).
Proof.
  revert w.
  induction p as [A a|A e|A e|A c k IH|A T body IHb handler IHh k IH];
    cbn; intros w.
  - constructor.
  - constructor.
  - constructor; [exact I|constructor].
  - destruct (lib w c) as [[x|e] w1] eqn:Hc.
    + specialize (IH x w1).
      destruct (run lib (k x) w1) as [[o w2] tr]. cbn in *.
      constructor; [|assumption]. cbn. eauto.
    + cbn. constructor; [|constructor]. cbn. eauto.
  - specialize (IHb w).
    destruct (run lib body w) as [[o w1] tr1]. cbn in IHb.
    assert (Hmid : Forall (answered lib) (snd
               match o with
               | Returned a => (Returned a, w1, [])
               | Raised e | Propagated e => run lib (handler e) w1
               end)).
    { destruct o as [a|e|e]; [constructor| |]; apply IHh. }
    destruct (match o with
              | Returned a => (Returned a, w1, [])
              | Raised e | Propagated e => run lib (handler e) w1
              end) as [[o' w2] tr2].
    cbn in Hmid.
    destruct o' as [a|e|e]; cbn.
    + specialize (IH a w2).
      destruct (run lib (k a) w2) as [[o3 w3] tr3]. cbn in *.
      repeat (apply Forall_app; split); assumption.
    + apply Forall_app; split; assumption.
    + apply Forall_app; split; assumption.
Qed.

Lemma run_event_answered R (p : prog R) (w w' : W) (o : outcome E R)
    (tr : list (event resp E)) (c : call) (r : result E (resp c)) :
  run lib p w = (o, w', tr) -> In (Ev c r) tr ->
  exists w0 w1, lib w0 c = (r, w1).
Proof.
  intros Hrun Hin. pose proof (run_answered p w) as Hall.
  rewrite Hrun in Hall. cbn in Hall. rewrite Forall_forall in Hall.
  exact (Hall _ Hin).
Qed.

(** The three properties go through sequencing. *)
Lemma raise_free_bind A B (p : prog A) (f : A -> prog B) :
  raise_free p -> (forall a, raise_free (f a)) -> raise_free (bind p f).
Proof.
  induction p as [A a|A e|A e|A c k IH|A T body _ handler _ k IH];
    cbn; intros Hp Hf; auto.
  destruct Hp as (Hb & Hh & Hk). auto.
Qed.

Lemma handler_free_bind A B (p : prog A) (f : A -> prog B) :
  handler_free p -> (forall a, handler_free (f a)) -> handler_free (bind p f).
Proof.
  induction p as [A a|A e|A e|A c k IH|A T body _ handler _ k IH];
    cbn; intros Hp Hf; auto.
Qed.

Lemma all_calls_bind (P : call -> Prop) A B (p : prog A) (f : A -> prog B) :
  all_calls P p -> (forall a, all_calls P (f a)) -> all_calls P (bind p f).
Proof.
  induction p as [A a|A e|A e|A c k IH|A T body _ handler _ k IH];
    cbn; intros Hp Hf; auto.
  - destruct Hp as [Hc Hk]. auto.
  - destruct Hp as (Hb & Hh & Hk). auto.
Qed.

Lemma raise_free_eval A (r : result E A) : raise_free (eval (resp := resp) r).
Proof. destruct r; exact I. Qed.

Lemma handler_free_eval A (r : result E A) :
  handler_free (eval (resp := resp) r).
Proof. destruct r; exact I. Qed.

Lemma all_calls_eval (P : call -> Prop) A (r : result E A) :
  all_calls P (eval (resp := resp) r).
Proof. destruct r; exact I. Qed.

Lemma raise_free_for_each A B (f : A -> prog B) (xs : list A) :
  (forall x, raise_free (f x)) -> raise_free (for_each f xs).
Proof.
  intros Hf. induction xs as [|x xs IH]; cbn; [exact I|].
  apply raise_free_bind; [apply Hf|]. intros y.
  apply raise_free_bind; [exact IH|]. intros ys. exact I.
Qed.

Lemma handler_free_for_each A B (f : A -> prog B) (xs : list A) :
  (forall x, handler_free (f x)) -> handler_free (for_each f xs).
Proof.
  intros Hf. induction xs as [|x xs IH]; cbn; [exact I|].
  apply handler_free_bind; [apply Hf|]. intros y.
  apply handler_free_bind; [exact IH|]. intros ys. exact I.
Qed.

Lemma all_calls_for_each (P : call -> Prop) A B (f : A -> prog B)
    (xs : list A) :
  (forall x, all_calls P (f x)) -> all_calls P (for_each f xs).
Proof.
  intros Hf. induction xs as [|x xs IH]; cbn; [exact I|].
  apply all_calls_bind; [apply Hf|]. intros y.
  apply all_calls_bind; [exact IH|]. intros ys. exact I.
Qed.

(** A comprehension over single calls: when it returns, it made one call
    per element, in order, and returns their answers. *)
Lemma run_for_each_invoke A (c : A -> call) (B : Type)
    (cast : forall a, resp (c a) -> B) (xs : list A) :
  forall w ys w' tr,
    run lib (for_each (fun a => bind (invoke (c a))
                                     (fun r => Ret (cast a r))) xs) w
    = (Returned ys, w', tr) ->
    calls tr = map c xs /\ List.length ys = List.length xs.
Proof.
  induction xs as [|x xs IH]; intros w ys w' tr H.
  - cbn in H. inversion H. split; reflexivity.
  - cbn in H. destruct (lib w (c x)) as [[r|e] w1]; [|discriminate].
    rewrite run_bind in H.
    destruct (run lib (for_each _ xs) w1) as [[[zs|e|e] w2] t1] eqn:Hrun;
      try discriminate.
    cbn in H. inversion H; subst.
    destruct (IH _ _ _ _ Hrun) as [Hc Hl].
    cbn. rewrite app_nil_r. unfold calls in Hc. rewrite Hc, Hl.
    split; reflexivity.
Qed.

Lemma raise_free_invoke (c : call) : raise_free (invoke (resp := resp) (E := E) c).
Proof. intro. exact I. Qed.

Lemma handler_free_invoke (c : call) :
  handler_free (invoke (resp := resp) (E := E) c).
Proof. intro. exact I. Qed.

Lemma all_calls_invoke (P : call -> Prop) (c : call) :
  P c -> all_calls P (invoke (resp := resp) (E := E) c).
Proof. intro H. split; [exact H|]. intro. exact I. Qed.

(** A program with neither [raise] nor [try] lets every exception through
    unchanged. *)
Lemma plain_program_propagates R (p : prog R) (w : W) :
  raise_free p -> handler_free p -> propagates_unchanged (run lib p w).
Proof.
  intros Hr Hh. split.
  - intros e. apply raise_free_run, Hr.
  - apply handler_free_run, Hh.
Qed.

(** Such a program returns exactly when nothing raised: no run is lost. *)
Lemma plain_program_returns R (p : prog R) (w : W) :
  raise_free p -> handler_free p ->
  (errors (snd (run lib p w)) = [] <->
   exists r, fst (fst (run lib p w)) = Returned r).
Proof.
  intros Hr Hh.
  pose proof (raise_free_run p Hr w) as Hnot.
  rewrite (handler_free_run p Hh w).
  destruct (fst (fst (run lib p w))) as [r|e|e].
  - split; eauto.
  - exfalso. exact (Hnot e eq_refl).
  - split; [discriminate|]. intros [r Hr']. discriminate Hr'.
Qed.

(** Stepping through a run that returns. *)
Lemma run_Call_returned R (c : call) (k : resp c -> prog R) w r w' tr :
  run lib (Call c k) w = (Returned r, w', tr) ->
  exists x w1 tr1,
    lib w c = (Ok x, w1) /\
    run lib (k x) w1 = (Returned r, w', tr1) /\
    tr = Ev c (Ok x) :: tr1.
Proof.
  cbn. destruct (lib w c) as [[x|e] w1]; [|discriminate].
  destruct (run lib (k x) w1) as [[o w2] tr1] eqn:Hk.
  intros H. inversion H; subst. exists x, w1, tr1. repeat split; auto.
Qed.

Lemma run_eval_returned A R (r0 : result E A) (f : A -> prog R) w r w' tr :
  run lib (bind (eval r0) f) w = (Returned r, w', tr) ->
  exists a, r0 = Ok a /\ run lib (f a) w = (Returned r, w', tr).
Proof.
  destruct r0 as [a|e]; cbn; [eauto|discriminate].
Qed.

Lemma run_bind_returned A R (p : prog A) (f : A -> prog R) w r w' tr :
  run lib (bind p f) w = (Returned r, w', tr) ->
  exists a w1 t1 t2,
    run lib p w = (Returned a, w1, t1) /\
    run lib (f a) w1 = (Returned r, w', t2) /\
    tr = t1 ++ t2.
Proof.
  rewrite run_bind.
  destruct (run lib p w) as [[[a|e|e] w1] t1]; try discriminate.
  destruct (run lib (f a) w1) as [[o w2] t2] eqn:Hf.
  intros H. inversion H; subst. exists a, w1, t1, t2. repeat split; auto.
Qed.

(** Stepping through the trace of any run. *)
Lemma run_trace_Call R (c : call) (k : resp c -> prog R) w :
  run_trace lib (Call c k) w =
  match lib w c with
  | (Ok x, w1) => Ev c (Ok x) :: run_trace lib (k x) w1
  | (Err e, _) => [Ev c (Err e)]
  end.
Proof.
  unfold run_trace. cbn. destruct (lib w c) as [[x|e] w1]; [|reflexivity].
  destruct (run lib (k x) w1) as [[o w2] tr]. reflexivity.
Qed.

Lemma run_trace_eval A R (r0 : result E A) (f : A -> prog R) w :
  run_trace lib (bind (eval r0) f) w =
  match r0 with
  | Ok a => run_trace lib (f a) w
  | Err e => [BuiltinError e]
  end.
Proof. destruct r0; reflexivity. Qed.

(** Over libraries whose answers do not depend on their state, a program
    runs the same way twice. *)
Lemma deterministic_run R (p : prog R) :
  (forall c w1 w2, fst (lib w1 c) = fst (lib w2 c)) ->
  forall w1 w2,
    fst (fst (run lib p w1)) = fst (fst (run lib p w2)) /\
    snd (run lib p w1) = snd (run lib p w2).
Proof.
  intros Hdet.
  induction p as [A a|A e|A e|A c k IH|A T body IHb handler IHh k IH];
    cbn; intros w1 w2; try (split; reflexivity).
  - pose proof (Hdet c w1 w2) as Hc.
    destruct (lib w1 c) as [[x|e] w1'], (lib w2 c) as [[x'|e'] w2'];
      cbn in Hc; try discriminate Hc.
    + injection Hc as <-.
      destruct (IH x w1' w2') as [Ho Ht].
      destruct (run lib (k x) w1') as [[o1 v1] t1],
               (run lib (k x) w2') as [[o2 v2] t2].
      cbn in *. subst. split; reflexivity.
    + injection Hc as <-. split; reflexivity.
  - destruct (IHb w1 w2) as [Ho Ht].
    destruct (run lib body w1) as [[o1 v1] t1],
             (run lib body w2) as [[o2 v2] t2].
    cbn in Ho, Ht. subst o2 t2.
    assert (Hmid :
      fst (fst match o1 with
               | Returned a => (Returned a, v1, [])
               | Raised e | Propagated e => run lib (handler e) v1
               end)
      = fst (fst match o1 with
                 | Returned a => (Returned a, v2, [])
                 | Raised e | Propagated e => run lib (handler e) v2
                 end)
      /\ snd match o1 with
             | Returned a => (Returned a, v1, [])
             | Raised e | Propagated e => run lib (handler e) v1
             end
         = snd match o1 with
               | Returned a => (Returned a, v2, [])
               | Raised e | Propagated e => run lib (handler e) v2
               end).
    { destruct o1 as [a|e|e]; [split; reflexivity| |]; apply IHh. }
    destruct (match o1 with
              | Returned a => (Returned a, v1, [])
              | Raised e | Propagated e => run lib (handler e) v1
              end) as [[o1' v1'] t1'],
             (match o1 with
              | Returned a => (Returned a, v2, [])
              | Raised e | Propagated e => run lib (handler e) v2
              end) as [[o2' v2'] t2'].
    cbn in Hmid. destruct Hmid as [<- <-].
    destruct o1' as [a|e|e]; cbn; try (split; reflexivity).
    destruct (IH a v1' v2') as [Ho' Ht'].
    destruct (run lib (k a) v1') as [[o3 v3] t3],
             (run lib (k a) v2') as [[o4 v4] t4].
    cbn in *. subst. split; reflexivity.
Qed.

Lemma same_until_refl (n : nat) (tr : list (event resp E)) :
  same_until n tr tr.
Proof. split; reflexivity. Qed.

Lemma same_until_cons (n : nat) (c : call) (r : result E (resp c))
    (t1 t2 : list (event resp E)) :
  same_until n t1 t2 -> same_until (S n) (Ev c r :: t1) (Ev c r :: t2).
Proof.
  intros [Ht Hc]. split.
  - cbn [firstn]. now rewrite Ht.
  - change (calls (Ev c r :: t1)) with (c :: calls t1).
    change (calls (Ev c r :: t2)) with (c :: calls t2).
    cbn [firstn] in *. now rewrite Hc.
Qed.

Lemma same_until_call (c : call) (r1 r2 : result E (resp c))
    (t1 t2 : list (event resp E)) :
  same_until 0 (Ev c r1 :: t1) (Ev c r2 :: t2).
Proof. split; reflexivity. Qed.

Lemma calls_cons_Ev (c : call) (r : result E (resp c)) (tr : list (event resp E)) :
  calls (Ev c r :: tr) = c :: calls tr.
Proof. reflexivity. Qed.

Lemma calls_app (t1 t2 : list (event resp E)) :
  calls (t1 ++ t2) = calls t1 ++ calls t2.
Proof. unfold calls. apply flat_map_app. Qed.

End InteractionFacts.

(** One step of a returning run [H]: through a library call whose answer
    is named [x], or through a built-in that did not raise, with value
    [a]. *)
Ltac step_call_as H x :=
  cbn [bind invoke for_each] in H;
  let w1 := fresh "w" in
  let tr1 := fresh "tr" in
  let Hc := fresh "Hcall" in
  let Htr := fresh "Htr" in
  apply run_Call_returned in H;
  destruct H as (x & w1 & tr1 & Hc & H & Htr);
  match type of Htr with ?t = _ => subst t end;
  cbv beta in H.

Ltac step_builtin_as H a Ha :=
  cbn [bind invoke for_each] in H;
  apply run_eval_returned in H;
  destruct H as (a & Ha & H);
  cbv beta in H.

Tactic Notation "step_call" hyp(H) "as" ident(x) := step_call_as H x.
Tactic Notation "step_call" hyp(H) :=
  let x := fresh "x" in step_call_as H x.
Tactic Notation "step_builtin" hyp(H) "as" ident(a) ident(Ha) :=
  step_builtin_as H a Ha.

(** Discharging [raise_free], [handler_free] and [all_calls] on a program
    written with [bind], [invoke], [eval] and [for_each]. *)
Ltac split_pairs :=
  repeat match goal with
         | |- context [match ?x with pair _ _ => _ end] => destruct x
         | |- context [if negb ?b then _ else _] => destruct b; cbn [negb]
         end.

Ltac raise_free_tac :=
  repeat first
    [ exact I
    | apply raise_free_invoke
    | apply raise_free_eval
    | apply raise_free_for_each; intro
    | apply raise_free_bind; [|intro]
    | progress cbv zeta
    | progress split_pairs ].

Ltac handler_free_tac :=
  repeat first
    [ exact I
    | apply handler_free_invoke
    | apply handler_free_eval
    | apply handler_free_for_each; intro
    | apply handler_free_bind; [|intro]
    | progress cbv zeta
    | progress split_pairs ].

Ltac all_calls_tac solve_call :=
  repeat first
    [ exact I
    | apply all_calls_invoke; solve_call
    | apply all_calls_eval
    | apply all_calls_for_each; intro
    | apply all_calls_bind; [|intro]
    | progress cbv zeta
    | progress split_pairs ].

(** One step of two runs side by side: through a built-in, or through a
    call that [Hdet] shows to be deterministic. *)
Ltac det_builtin :=
  cbn [bind invoke for_each];
  rewrite !run_trace_eval;
  match goal with
  | |- same_until _ (match ?r with Ok _ => _ | Err _ => _ end) _ =>
      destruct r; [|apply same_until_refl]
  end;
  cbv beta.

Ltac det_call Hdet :=
  cbn [bind invoke for_each];
  rewrite !run_trace_Call;
  match goal with
  | |- same_until _ ?L ?R =>
      match L with
      | context [?lib ?w1 ?c] =>
          match R with
          | context [lib ?w2 c] =>
              let H := fresh "Hsame" in
              assert (H : fst (lib w1 c) = fst (lib w2 c)) by Hdet;
              destruct (lib w1 c) as [[?|?] ?], (lib w2 c) as [[?|?] ?];
              cbn [fst] in H; try discriminate H;
              injection H as <-;
              [apply same_until_cons | apply same_until_refl]
          end
      end
  end;
  cbv beta.

(* ===================================================================== *)
(** * Facts about binary64 values *)
(* ===================================================================== *)

Module Float64Facts.

Import Float64.

Lemma shift_right_52 (m : positive) :
  iter_pos shr_1 52 (Build_shr_record (Zpos (4503599627370496 * m)) false false)
  = Build_shr_record (Zpos m) false false.
Proof. reflexivity. Qed.

Lemma digits_shift_52 (m : positive) :
  Zpos (digits2_pos (4503599627370496 * m)) = Zpos (digits2_pos m) + 52.
Proof. cbn [Pos.mul digits2_pos]. lia. Qed.

(** [1.0 * x] is [x] for every binary64 value but NaN. *)
Lemma mul_one_l (x : float) :
  valid x = true -> isna x = false -> mul (of_int 1) x = x.
Proof.
  destruct x as [s|s| |s m e]; try reflexivity; try discriminate.
  intros Hv _. unfold valid in Hv. cbn [valid_binary] in Hv.
  unfold bounded, canonical_mantissa in Hv.
  apply andb_prop in Hv. destruct Hv as [Hc Hb].
  apply Z.eqb_eq in Hc.
  change (of_int 1) with (S754_finite false 4503599627370496 (-52)).
  unfold mul, SFmul. cbn [xorb].
  unfold binary_round_aux, shr_fexp.
  cbn [Zdigits2]. rewrite digits_shift_52.
  replace (Zpos (digits2_pos m) + 52 + (-52 + e))
    with (Zpos (digits2_pos m) + e) by lia.
  rewrite Hc. replace (e - (-52 + e)) with 52 by lia.
  cbn [shr shr_record_of_loc]. rewrite shift_right_52.
  cbn [shr_m loc_of_shr_record round_nearest_even Zdigits2].
  replace (-52 + e + 52) with e by lia.
  rewrite Hc, Z.sub_diag. cbn [shr shr_record_of_loc shr_m].
  rewrite Hb. reflexivity.
Qed.



(** [total_leb] is a total preorder. *)
Lemma lex_leb_total (a b : Z * Z * Z) : lex_leb a b = true \/ lex_leb b a = true.
Proof.
  destruct a as [[a1 a2] a3], b as [[b1 b2] b3]. unfold lex_leb.
  destruct (Z.ltb_spec a1 b1), (Z.ltb_spec b1 a1), (Z.eqb_spec a1 b1),
    (Z.eqb_spec b1 a1), (Z.ltb_spec a2 b2), (Z.ltb_spec b2 a2),
    (Z.eqb_spec a2 b2), (Z.eqb_spec b2 a2), (Z.leb_spec a3 b3),
    (Z.leb_spec b3 a3); cbn; try lia; auto.
Qed.

Lemma lex_leb_trans (a b c : Z * Z * Z) :
  lex_leb a b = true -> lex_leb b c = true -> lex_leb a c = true.
Proof.
  destruct a as [[a1 a2] a3], b as [[b1 b2] b3], c as [[c1 c2] c3].
  unfold lex_leb.
  destruct (Z.ltb_spec a1 b1), (Z.eqb_spec a1 b1), (Z.ltb_spec a2 b2),
    (Z.eqb_spec a2 b2), (Z.leb_spec a3 b3); cbn; try discriminate; intros _;
  destruct (Z.ltb_spec b1 c1), (Z.eqb_spec b1 c1), (Z.ltb_spec b2 c2),
    (Z.eqb_spec b2 c2), (Z.leb_spec b3 c3); cbn; try discriminate; intros _;
  destruct (Z.ltb_spec a1 c1), (Z.eqb_spec a1 c1), (Z.ltb_spec a2 c2),
    (Z.eqb_spec a2 c2), (Z.leb_spec a3 c3); cbn; try reflexivity; lia.
Qed.

Lemma total_leb_total (x y : float) : total_leb x y = true \/ total_leb y x = true.
Proof. apply lex_leb_total. Qed.

Lemma total_leb_trans (x y z : float) :
  total_leb x y = true -> total_leb y z = true -> total_leb x z = true.
Proof. apply lex_leb_trans. Qed.

(** Away from NaN, [total_leb] is the comparison [<=] of floats. *)
Lemma total_leb_leb (x y : float) :
  isna x = false -> isna y = false -> total_leb x y = leb x y.
Proof.
  unfold total_leb, leb, SFleb, lex_leb.
  destruct x as [sx|[|]| |[|] mx ex], y as [sy|[|]| |[|] my ey];
    cbn; try discriminate; try reflexivity; intros _ _.
  - change (PosDef.Pos.compare_cont Eq mx my) with (Pos.compare mx my).
    destruct (Z.compare_spec ex ey), (Pos.compare_spec mx my);
      destruct (Z.ltb_spec (- ex) (- ey)), (Z.eqb_spec (- ex) (- ey)),
        (Z.leb_spec (Zneg mx) (Zneg my)); cbn; try reflexivity; lia.
  - change (PosDef.Pos.compare_cont Eq mx my) with (Pos.compare mx my).
    destruct (Z.compare_spec ex ey), (Pos.compare_spec mx my);
      destruct (Z.ltb_spec ex ey), (Z.eqb_spec ex ey),
        (Z.leb_spec (Zpos mx) (Zpos my)); cbn; try reflexivity; lia.
Qed.

End Float64Facts.

(* ===================================================================== *)
(** * Facts about every run of a program *)
(* ===================================================================== *)

Section AlwaysFacts.

Variable call : Type.
Variable resp : call -> Type.
Variable E : Type.

Local Abbreviation prog := (prog resp E).
Local Abbreviation trace := (list (event resp E)).

Lemma always_impl R (p : prog R) (Q Q' : outcome E R -> trace -> Prop) :
  (forall o tr, Q o tr -> Q' o tr) -> always p Q -> always p Q'.
Proof.
  revert Q Q'.
  induction p as [A a|A e|A e|A c k IH|A T body IHb handler IHh k IH];
    cbn; intros Q Q' Himp H; auto.
  - destruct H as [He Hk]. split; [auto|].
    intros x. eapply IH; [|apply Hk]. cbn. auto.
  - eapply IHb; [|exact H]. cbn. intros o tr1 Ho.
    destruct o as [a|e|e].
    + eapply IH; [|exact Ho]. cbn. auto.
    + eapply IHh; [|exact Ho]. cbn. intros o' tr2 Ho'.
      destruct o' as [a|e'|e']; auto.
      eapply IH; [|exact Ho']. cbn. auto.
    + eapply IHh; [|exact Ho]. cbn. intros o' tr2 Ho'.
      destruct o' as [a|e'|e']; auto.
      eapply IH; [|exact Ho']. cbn. auto.
Qed.

Section Sound.

Variable W : Type.
Variable lib : W -> forall c : call, result E (resp c) * W.

(** [always] speaks of the runs over every library. *)
Lemma always_run R (p : prog R) (Q : outcome E R -> trace -> Prop) :
  always p Q ->
  forall w, Q (fst (fst (run lib p w))) (snd (run lib p w)).
Proof.
  revert Q.
  induction p as [A a|A e|A e|A c k IH|A T body IHb handler IHh k IH];
    cbn; intros Q H w; auto.
  - destruct H as [He Hk].
    destruct (lib w c) as [[x|e] w1]; cbn; [|apply He].
    specialize (IH x _ (Hk x) w1).
    destruct (run lib (k x) w1) as [[o w2] tr]. exact IH.
  - specialize (IHb _ H w).
    destruct (run lib body w) as [[o w1] tr1]. cbn in IHb.
    destruct o as [a|e|e].
    + specialize (IH a _ IHb w1).
      destruct (run lib (k a) w1) as [[o3 w3] tr3]. exact IH.
    + specialize (IHh e _ IHb w1).
      destruct (run lib (handler e) w1) as [[o' w2] tr2]. cbn in IHh.
      destruct o' as [a|e'|e']; cbn; auto.
      specialize (IH a _ IHh w2).
      destruct (run lib (k a) w2) as [[o3 w3] tr3]. exact IH.
    + specialize (IHh e _ IHb w1).
      destruct (run lib (handler e) w1) as [[o' w2] tr2]. cbn in IHh.
      destruct o' as [a|e'|e']; cbn; auto.
      specialize (IH a _ IHh w2).
      destruct (run lib (k a) w2) as [[o3 w3] tr3]. exact IH.
Qed.

Lemma always_run_eq R (p : prog R) (Q : outcome E R -> trace -> Prop)
    (w w' : W) (o : outcome E R) (tr : trace) :
  always p Q -> run lib p w = (o, w', tr) -> Q o tr.
Proof.
  intros H Hrun. pose proof (always_run p Q H w) as HQ.
  now rewrite Hrun in HQ.
Qed.

End Sound.

Lemma always_bind A B (p : prog A) (f : A -> prog B)
    (Q : outcome E B -> trace -> Prop) :
  always p (fun o tr =>
              match o with
              | Returned a => always (f a) (fun o' tr' => Q o' (tr ++ tr'))
              | Raised e => Q (Raised e) tr
              | Propagated e => Q (Propagated e) tr
              end) ->
  always (bind p f) Q.
Proof.
  revert B f Q.
  induction p as [T a|T e|T e|T c k IH|T U body IHb handler IHh k IH];
    cbn; intros B f Q H; auto.
  - destruct H as [He Hk]. split; [exact He|].
    intros x. apply IH. eapply always_impl; [|apply Hk].
    cbn. intros o tr Ho. destruct o as [a|e|e]; exact Ho.
  - eapply always_impl; [|exact H]. cbn. intros o tr1 Ho.
    destruct o as [a|e|e].
    + apply IH. eapply always_impl; [|exact Ho].
      cbn. intros o' tr3 Ho'. destruct o' as [b|e|e]; try exact Ho'.
      eapply always_impl; [|exact Ho']. cbn. intros o'' tr4.
      now rewrite <- app_assoc.
    + eapply always_impl; [|exact Ho]. cbn. intros o' tr2 Ho'.
      destruct o' as [a|e'|e']; try exact Ho'.
      apply IH. eapply always_impl; [|exact Ho'].
      cbn. intros o'' tr3 Ho''. destruct o'' as [b|e''|e'']; try exact Ho''.
      eapply always_impl; [|exact Ho'']. cbn. intros o3 tr4.
      now rewrite <- !app_assoc.
    + eapply always_impl; [|exact Ho]. cbn. intros o' tr2 Ho'.
      destruct o' as [a|e'|e']; try exact Ho'.
      apply IH. eapply always_impl; [|exact Ho'].
      cbn. intros o'' tr3 Ho''. destruct o'' as [b|e''|e'']; try exact Ho''.
      eapply always_impl; [|exact Ho'']. cbn. intros o3 tr4.
      now rewrite <- !app_assoc.
Qed.

Lemma always_Ret R (r : R) (Q : outcome E R -> trace -> Prop) :
  Q (Returned r) [] -> always (Ret r) Q.
Proof. exact (fun H => H). Qed.

Lemma always_Fail R (e : E) (Q : outcome E R -> trace -> Prop) :
  Q (Propagated e) [BuiltinError e] -> always (Fail e) Q.
Proof. exact (fun H => H). Qed.

Lemma always_Raise R (e : E) (Q : outcome E R -> trace -> Prop) :
  Q (Raised e) [] -> always (Raise e) Q.
Proof. exact (fun H => H). Qed.

Lemma always_Call R (c : call) (k : resp c -> prog R)
    (Q : outcome E R -> trace -> Prop) :
  (forall e, Q (Propagated e) [Ev c (Err e)]) ->
  (forall x, always (k x) (fun o tr => Q o (Ev c (Ok x) :: tr))) ->
  always (Call c k) Q.
Proof. intros He Hk. split; assumption. Qed.

(** A comprehension over single calls: every event of its runs is a call
    for one of the elements, it raises nothing of its own, and when it
    returns it has made one call per element, in order, and returns their
    answers. *)
Lemma always_for_each_invoke A (c : A -> call) (B : Type)
    (cast : forall a, resp (c a) -> B) (xs : list A)
    (Q : outcome E (list B) -> trace -> Prop) :
  (forall o tr,
      Forall (fun ev => exists a r, In a xs /\ ev = Ev (c a) r) tr ->
      (forall e, o <> Raised e) ->
      (forall ys, o = Returned ys ->
         exists rs : list {a : A & resp (c a)},
           xs = map (@projT1 _ _) rs
           /\ ys = map (fun ar : {a : A & resp (c a)} =>
                          cast (projT1 ar) (projT2 ar)) rs
           /\ tr = map (fun ar : {a : A & resp (c a)} =>
                          Ev (c (projT1 ar)) (Ok (projT2 ar))) rs) ->
      Q o tr) ->
  always (for_each (fun a => bind (invoke (c a))
                                  (fun r => Ret (cast a r))) xs) Q.
Proof.
  revert Q. induction xs as [|x xs IH]; intros Q HQ.
  - cbn. apply HQ; [constructor|discriminate|].
    intros ys Hys. injection Hys as <-. now exists [].
  - cbn [for_each bind invoke always]. split.
    + intros e. apply HQ; [|discriminate|discriminate].
      constructor; [|constructor].
      exists x, (Err e). split; [now left|reflexivity].
    + intros r. apply always_bind. apply IH. intros o tr Hall Hnr Hret.
      assert (Hall' : Forall (fun ev => exists a r0, In a (x :: xs)
                                                     /\ ev = Ev (c a) r0)
                             (Ev (c x) (Ok r) :: tr)).
      { constructor.
        - exists x, (Ok r). split; [now left|reflexivity].
        - eapply Forall_impl; [|exact Hall]. cbn.
          intros ev (a & r0 & Ha & ->). exists a, r0.
          split; [now right|reflexivity]. }
      destruct o as [ys|e|e].
      * cbn. rewrite app_nil_r. apply HQ; [exact Hall'|discriminate|].
        intros ys' Hys'. injection Hys' as <-.
        destruct (Hret ys eq_refl) as (rs & -> & -> & ->).
        now exists (existT _ x r :: rs).
      * exfalso. exact (Hnr e eq_refl).
      * apply HQ; [exact Hall'|discriminate|discriminate].
Qed.

(** Nothing is read off the events of such a comprehension by a reader
    that ignores its calls. *)
Lemma loop_flat_map_nil A (c : A -> call) (xs : list A) (t : trace) B
    (f : event resp E -> list B) :
  Forall (fun ev => exists a r, In a xs /\ ev = Ev (c a) r) t ->
  (forall a r, f (Ev (c a) r) = []) ->
  flat_map f t = [].
Proof.
  intros Hloop Hf. induction Hloop as [|ev t (a & r & _ & ->) _ IH];
    [reflexivity|].
  cbn. now rewrite Hf, IH.
Qed.

Lemma loop_calls_flat_map_nil A (c : A -> call) (xs : list A) (t : trace) B
    (f : call -> list B) :
  Forall (fun ev => exists a r, In a xs /\ ev = Ev (c a) r) t ->
  (forall a, f (c a) = []) ->
  flat_map f (calls t) = [].
Proof.
  intros Hloop Hf. induction Hloop as [|ev t (a & r & _ & ->) _ IH];
    [reflexivity|].
  rewrite calls_cons_Ev. cbn. now rewrite Hf, IH.
Qed.

Lemma calls_cons_BuiltinError (e : E) (tr : trace) :
  calls (BuiltinError e :: tr) = calls tr.
Proof. reflexivity. Qed.

Lemma calls_nil : calls (@nil (event resp E)) = [].
Proof. reflexivity. Qed.

End AlwaysFacts.

Arguments loop_flat_map_nil {call resp E A c xs t B} f _ _.
Arguments always_run_eq {call resp E W} lib {R p Q w w' o tr} _ _.
Arguments loop_calls_flat_map_nil {call resp E A c xs t B} f _ _.

(** Reading a trace that is a list of events around the events of a
    comprehension. *)
Ltac read_calls :=
  repeat (progress rewrite ?calls_cons_Ev, ?calls_cons_BuiltinError,
                           ?calls_app, ?calls_nil).

Ltac read_loops :=
  rewrite ?flat_map_app;
  repeat match goal with
         | Hloop : Forall _ ?t |- context [flat_map ?f (calls ?t)] =>
             rewrite (loop_calls_flat_map_nil f Hloop)
               by (intros ?; reflexivity)
         | Hloop : Forall _ ?t |- context [flat_map ?f ?t] =>
             rewrite (loop_flat_map_nil f Hloop)
               by (intros ? [?|?]; reflexivity)
         end.

(** Walking through every run of a program written with [bind], [invoke]
    and [eval]: [leaf] proves the property at each end of a run. *)
Ltac always_walk leaf :=
  cbv beta zeta;
  lazymatch goal with
  | |- always (Ret _) _ => apply always_Ret; cbv beta; leaf
  | |- always (Fail _) _ => apply always_Fail; cbv beta; leaf
  | |- always (Raise _) _ => apply always_Raise; cbv beta; leaf
  | |- always (Call _ _) _ =>
      apply always_Call;
      [ let e := fresh "e" in intros e; cbv beta; leaf
      | let x := fresh "x" in intros x; always_walk leaf ]
  | |- always (invoke _) _ => unfold invoke; always_walk leaf
  | |- always (eval ?r) _ =>
      let H := fresh "Hbuiltin" in
      destruct r eqn:H; cbn [eval]; always_walk leaf
  | |- always (bind (eval (Ok _)) _) _ => cbn [bind eval]; always_walk leaf
  | |- always (bind (eval (Err _)) _) _ => cbn [bind eval]; always_walk leaf
  | |- always (bind (eval ?r) _) _ =>
      first
        [ match goal with
          | Hr : r = Ok _ |- _ => rewrite Hr
          | Hr : r = Err _ |- _ => rewrite Hr
          end
        | let H := fresh "Hbuiltin" in destruct r eqn:H ];
      cbn [bind eval]; always_walk leaf
  | |- always (match ?x with pair _ _ => _ end) _ =>
      destruct x; always_walk leaf
  | |- always (bind (@for_each _ _ _ _ ?B (fun a => invoke (@?c a)) ?xs) _) _ =>
      tryif is_var xs then
        (apply always_bind;
         apply (@always_for_each_invoke _ _ _ _ c B (fun _ r => r));
         let o := fresh "o" in
         let t := fresh "t_loop" in
         let Hl := fresh "Hloop" in
         let Hnr := fresh "Hnr" in
         let Hret := fresh "Hreturned" in
         intros o t Hl Hnr Hret; destruct o as [?|?|?];
         [ always_walk leaf
         | exfalso; eapply Hnr; reflexivity
         | cbv beta; leaf ])
      else (progress cbn [bind invoke for_each]; always_walk leaf)
  | |- always ?p _ =>
      first
        [ progress cbn [bind invoke for_each]
        | match p with
          | context [if negb ?b then _ else _] => destruct b; cbn [negb]
          | context [if ?b then _ else _] => destruct b
          | context [bind (eval ?r) _] =>
              let H := fresh "Hbuiltin" in destruct r eqn:H; cbn [bind eval]
          | _ => idtac "stuck at" p; fail 2
          end ];
      always_walk leaf
  end.

(* ===================================================================== *)
(** * More facts about binary64 values: where NaN comes from *)
(* ===================================================================== *)

Module Float64More.

Import Float64 Float64Kind.

Lemma shr_1_nonneg (mrs : shr_record) :
  0 <= shr_m mrs -> 0 <= shr_m (shr_1 mrs).
Proof.
  destruct mrs as [m r s]. cbn [shr_m].
  destruct m as [|[p|p|]|p]; cbn; lia.
Qed.

Lemma iter_shr_1_nonneg (p : positive) (mrs : shr_record) :
  0 <= shr_m mrs -> 0 <= shr_m (iter_pos shr_1 p mrs).
Proof.
  revert mrs. induction p as [p IH|p IH|]; intros mrs H; cbn [iter_pos].
  - apply IH, IH, shr_1_nonneg, H.
  - apply IH, IH, H.
  - apply shr_1_nonneg, H.
Qed.

Lemma shr_fexp_nonneg (m e : Z) (l : location) :
  0 <= m -> 0 <= shr_m (fst (shr_fexp prec emax m e l)).
Proof.
  intros Hm. unfold shr_fexp, shr.
  assert (H0 : 0 <= shr_m (shr_record_of_loc m l)).
  { destruct l as [|[| |]]; exact Hm. }
  destruct (fexp prec emax (Zdigits2 m + e) - e) as [|p|p]; cbn [fst];
    try exact H0.
  now apply iter_shr_1_nonneg.
Qed.

Lemma round_nearest_even_nonneg (m : Z) (l : location) :
  0 <= m -> 0 <= round_nearest_even m l.
Proof.
  intros Hm. destruct l as [|[| |]]; cbn [round_nearest_even]; try lia.
  destruct (Z.even m); lia.
Qed.

(** Rounding never makes a NaN. *)
Lemma binary_round_aux_not_nan (sx : bool) (mx ex : Z) (lx : location) :
  0 <= mx -> isna (binary_round_aux prec emax sx mx ex lx) = false.
Proof.
  intros Hm. unfold binary_round_aux.
  pose proof (shr_fexp_nonneg ex lx Hm) as H1.
  destruct (shr_fexp prec emax mx ex lx) as [mrs' e']. cbn [fst] in H1.
  pose proof (shr_fexp_nonneg e' loc_Exact
                (round_nearest_even_nonneg (loc_of_shr_record mrs') H1)) as H2.
  destruct (shr_fexp prec emax _ e' loc_Exact) as [mrs'' e'']. cbn [fst] in H2.
  destruct (shr_m mrs'') as [|m|m]; [reflexivity| |lia].
  destruct (e'' <=? emax - prec); reflexivity.
Qed.

Lemma binary_normalize_not_nan (m e : Z) (s : bool) :
  isna (binary_normalize prec emax m e s) = false.
Proof.
  destruct m as [|p|p]; cbn [binary_normalize]; [reflexivity| |];
    unfold binary_round;
    destruct (shl_align p e _) as [mz ez];
    apply binary_round_aux_not_nan; lia.
Qed.

(** A product of two finite values is no NaN (it may overflow to an
    infinity). *)
Lemma mul_finite_not_nan (x y : float) :
  finite x = true -> finite y = true -> isna (mul x y) = false.
Proof.
  destruct x as [sx|sx| |sx mx ex], y as [sy|sy| |sy my ey];
    try discriminate; intros _ _; try reflexivity.
  unfold mul, SFmul. apply binary_round_aux_not_nan. lia.
Qed.

(** Subtracting a finite value from a value that is no NaN gives no NaN. *)
Lemma sub_finite_not_nan (x y : float) :
  isna x = false -> finite y = true -> isna (sub x y) = false.
Proof.
  destruct x as [sx|sx| |sx mx ex], y as [sy|sy| |sy my ey];
    try discriminate; intros _ _; try reflexivity.
  - destruct sx, sy; reflexivity.
  - unfold sub, SFsub. apply binary_normalize_not_nan.
Qed.

(** [inf - inf] is the one way a difference of two values that are no NaN
    is a NaN. *)
Lemma sub_nan_inf (x y : float) :
  isna x = false -> isna y = false -> isna (sub x y) = true ->
  isinf x = true /\ isinf y = true.
Proof.
  intros Hx Hy Hs. destruct (finite y) eqn:Hfy.
  - rewrite (sub_finite_not_nan x y Hx Hfy) in Hs. discriminate.
  - destruct y as [sy|sy| |sy my ey]; try discriminate.
    destruct x as [sx|sx| |sx mx ex]; try discriminate; auto.
Qed.

Lemma or_zero_finite (x : float) :
  isinf x = false -> finite (Campaign.or_zero x) = true.
Proof. destruct x; cbn; congruence. Qed.

End Float64More.

(* ===================================================================== *)
(** * recsys/lesson5/config.py: [score_wrapper] *)
(* ===================================================================== *)

Module RecsysFacts.

Import Recsys.

Lemma insert_user_In (u x : Z) (us : list Z) :
  In x (insert_user u us) <-> x = u \/ In x us.
Proof.
  induction us as [|v us IH]; cbn.
  - intuition.
  - destruct (Z.ltb_spec u v); [cbn; intuition|].
    destruct (Z.eqb_spec u v); cbn; [subst; intuition|].
    rewrite IH. intuition.
Qed.

Lemma insert_user_sorted (u : Z) (us : list Z) :
  StronglySorted Z.lt us -> StronglySorted Z.lt (insert_user u us).
Proof.
  induction 1 as [|v us Hs IH Hall]; cbn.
  - repeat constructor.
  - destruct (Z.ltb_spec u v).
    + constructor; [constructor; assumption|].
      constructor; [assumption|].
      eapply Forall_impl; [|exact Hall]. cbn. intros; lia.
    + destruct (Z.eqb_spec u v); [constructor; assumption|].
      constructor; [assumption|].
      apply Forall_forall. intros x Hx. apply insert_user_In in Hx.
      destruct Hx as [->|Hx]; [lia|].
      rewrite Forall_forall in Hall. auto.
Qed.

(** The groups are keyed by the distinct user ids, in increasing order. *)
Lemma user_ids_sorted (X : interactions) : StronglySorted Z.lt (user_ids X).
Proof.
  unfold user_ids. induction (map fst X) as [|u us IH]; cbn.
  - constructor.
  - apply insert_user_sorted, IH.
Qed.

Lemma user_ids_In (X : interactions) (u : Z) :
  In u (user_ids X) <-> In u (map fst X).
Proof.
  unfold user_ids. induction (map fst X) as [|v us IH]; cbn.
  - reflexivity.
  - rewrite insert_user_In, IH. intuition.
Qed.

(** Each group holds exactly the artists of its user. *)
Lemma items_of_In (X : interactions) (u a : Z) :
  In a (items_of u X) <-> In (u, a) X.
Proof.
  unfold items_of. rewrite in_map_iff. split.
  - intros [[u' a'] [<- H]]. apply filter_In in H. cbn in H.
    destruct H as [H Hu]. apply Z.eqb_eq in Hu. now subst.
  - intros H. exists (u, a). split; [reflexivity|].
    apply filter_In. split; [assumption|]. cbn. apply Z.eqb_refl.
Qed.

Section Wrapper.

Variable object : Type.
Variable isinstance_Pipeline : object -> bool.
Variable AT_K : Z.
Variable ndarray : Type.
Variable shape : ndarray -> list Z.
Variable W : Type.
Variable lib : W -> forall c : call object ndarray,
                     result (exn object) (resp c) * W.

Local Abbreviation score_wrapper :=
  (score_wrapper isinstance_Pipeline AT_K shape).

(** C4.  For an estimator that is a [Pipeline], whenever [score_wrapper]
    returns a score, that score is the answer of [ndcg_score] at [k = AT_K]
    to the estimator's predictions [estimator.predict(X, k=AT_K)], judged
    against the ground truth [group_items X]: one list of artists per
    distinct user id of [X] (ids in increasing order), each list holding
    exactly the artists of the rows of that user. *)
Theorem score_wrapper_ndcg
    (estimator : object) (X : interactions) (y : option ndarray)
    (w w' : W) (s : Float64.float) (tr : list (event (@resp object ndarray) (exn object))) :
  isinstance_Pipeline estimator = true ->
  run lib (score_wrapper estimator X y) w = (Returned s, w', tr) ->
  exists y_pred : ndarray,
    tr = [ Ev (logging_info "Evaluate" []) (Ok tt);
           Ev (logging_info "Got y_true with shape %s"
                            [Z.of_nat (List.length (group_items X))]) (Ok tt);
           Ev (predict estimator X AT_K) (Ok y_pred);
           Ev (logging_info "Got y_pred with shape %s" (shape y_pred)) (Ok tt);
           Ev (ndcg_score (group_items X) y_pred AT_K) (Ok s) ]
    /\ group_items X = map (fun u => items_of u X) (user_ids X)
    /\ StronglySorted Z.lt (user_ids X)
    /\ (forall u, In u (user_ids X) <-> In u (map fst X))
    /\ (forall u a, In a (items_of u X) <-> In (u, a) X).
Proof.
  intros Hp Hrun. unfold Recsys.score_wrapper in Hrun. rewrite Hp in Hrun.
  cbn in Hrun.
  destruct (lib w _) as [[[] |e] w1]; [|discriminate].
  destruct (lib w1 _) as [[[] |e] w2]; [|discriminate].
  destruct (lib w2 _) as [[y_pred|e] w3]; [|discriminate].
  destruct (lib w3 _) as [[[] |e] w4]; [|discriminate].
  destruct (lib w4 _) as [[s'|e] w5]; [|discriminate].
  inversion Hrun; subst. exists y_pred.
  split; [reflexivity|]. split; [reflexivity|].
  split; [apply user_ids_sorted|]. split; [apply user_ids_In|].
  intros u a. apply items_of_In.
Qed.

(** When the library answers every call, [score_wrapper] does return. *)
Lemma score_wrapper_completes
    (estimator : object) (X : interactions) (y : option ndarray) (w : W) :
  isinstance_Pipeline estimator = true ->
  (forall w0 c, exists x w1, lib w0 c = (Ok x, w1)) ->
  exists s w' tr, run lib (score_wrapper estimator X y) w = (Returned s, w', tr).
Proof.
  intros Hp Hlib. unfold Recsys.score_wrapper. rewrite Hp.
  cbn [run bind invoke].
  repeat match goal with
         | |- context [lib ?w0 ?c] =>
             destruct (Hlib w0 c) as (? & ? & ->); cbn [run bind invoke]
         end.
  eauto.
Qed.

(** C10.  For an estimator that is not a [Pipeline], [score_wrapper] raises
    [ValueError(estimator)] by its own [raise] statement: no library is
    called, no score is returned. *)
Theorem score_wrapper_not_pipeline
    (estimator : object) (X : interactions) (y : option ndarray) (w : W) :
  isinstance_Pipeline estimator = false ->
  run lib (score_wrapper estimator X y) w
  = (Raised (ValueErrorOf estimator), w, []).
Proof.
  intros Hp. unfold Recsys.score_wrapper. rewrite Hp. reflexivity.
Qed.

End Wrapper.

(** The run of [score_wrapper] on five interactions of three users. *)
Lemma score_wrapper_ndcg_witness :
  exists y_pred : RecsysExample.ndarray,
    snd (run RecsysExample.lib
           (Recsys.score_wrapper RecsysExample.isinstance_Pipeline
              RecsysExample.AT_K RecsysExample.shape 0%nat RecsysExample.X None)
           0%nat)
    = ([ Ev (logging_info "Evaluate" []) (Ok tt);
         Ev (logging_info "Got y_true with shape %s" [3]) (Ok tt);
         Ev (predict 0%nat RecsysExample.X 2) (Ok y_pred);
         Ev (logging_info "Got y_pred with shape %s"
                          (RecsysExample.shape y_pred)) (Ok tt);
         Ev (ndcg_score [[10; 11]; [20]; [30; 31]] y_pred 2)
            (Ok (Float64.of_int 1)) ]
       : list (event RecsysExample.resp (exn RecsysExample.object))).
Proof.
  destruct (@score_wrapper_ndcg RecsysExample.object
              RecsysExample.isinstance_Pipeline RecsysExample.AT_K
              RecsysExample.ndarray RecsysExample.shape nat RecsysExample.lib
              0%nat RecsysExample.X None 0%nat 5%nat (Float64.of_int 1) _
              eq_refl eq_refl) as (y_pred & Htr & _).
  exists y_pred. exact Htr.
Defined.

Lemma score_wrapper_not_pipeline_witness :
  run RecsysExample.lib
      (Recsys.score_wrapper RecsysExample.isinstance_Pipeline
         RecsysExample.AT_K RecsysExample.shape 4%nat RecsysExample.X None)
      0%nat
  = (Raised (ValueErrorOf 4%nat), 0%nat, []).
Proof.
  exact (@score_wrapper_not_pipeline RecsysExample.object
           RecsysExample.isinstance_Pipeline RecsysExample.AT_K
           RecsysExample.ndarray RecsysExample.shape nat RecsysExample.lib
           4%nat RecsysExample.X None 0%nat eq_refl).
Defined.

End RecsysFacts.

(* ===================================================================== *)
(** * recsys/lesson5/config.py: the ground truth, every run, the searches *)
(* ===================================================================== *)

Module RecsysMore.

Import Recsys RecsysRuns RecsysConfig.

(** ** The ground truth of [score_wrapper] *)

Lemma filter_partition_perm A (f : A -> bool) (l : list A) :
  Permutation (filter f l ++ filter (fun a => negb (f a)) l) l.
Proof.
  induction l as [|a l IH]; cbn; [constructor|].
  destruct (f a); cbn.
  - now constructor.
  - symmetry. apply Permutation_cons_app. symmetry. exact IH.
Qed.

Lemma items_of_other_users (u v : Z) (X : interactions) :
  v <> u ->
  items_of v (filter (fun r => negb (fst r =? u)) X) = items_of v X.
Proof.
  intros Hne. unfold items_of. f_equal.
  induction X as [|r X IH]; [reflexivity|]. cbn.
  destruct (Z.eqb_spec (fst r) u) as [Hu|Hu]; cbn.
  - destruct (Z.eqb_spec (fst r) v) as [Hv|Hv]; [congruence|exact IH].
  - destruct (fst r =? v); [now rewrite IH|exact IH].
Qed.

(** The lists of the users of [us], one after the other, hold the artists
    of [X]: nothing is lost and nothing comes twice. *)
Lemma concat_groups (us : list Z) :
  forall X : interactions,
    NoDup us -> (forall u, In u (map fst X) -> In u us) ->
    Permutation (List.concat (map (fun u => items_of u X) us)) (map snd X).
Proof.
  induction us as [|u us IH]; intros X Hnd Hall.
  - destruct X as [|r X]; [constructor|].
    exfalso. apply (Hall (fst r)). now left.
  - inversion Hnd as [|x xs Hu Hnd']; subst. cbn [map List.concat].
    set (X' := filter (fun r => negb (fst r =? u)) X).
    assert (Hsame : map (fun v => items_of v X) us
                    = map (fun v => items_of v X') us).
    { apply map_ext_in. intros v Hv. symmetry.
      apply items_of_other_users. intros ->. contradiction. }
    rewrite Hsame.
    assert (Hrest : Permutation (List.concat (map (fun v => items_of v X') us))
                                (map snd X')).
    { apply IH; [exact Hnd'|]. intros v Hv.
      apply in_map_iff in Hv. destruct Hv as (r & <- & Hr).
      unfold X' in Hr. apply filter_In in Hr. destruct Hr as [Hr Hne].
      destruct (Hall (fst r)) as [Heq|Hin]; [now apply in_map| |exact Hin].
      rewrite Heq, Z.eqb_refl in Hne. discriminate. }
    rewrite Hrest. unfold items_of. rewrite <- map_app.
    apply Permutation_map. apply filter_partition_perm.
Qed.

Lemma sorted_NoDup (l : list Z) : StronglySorted Z.lt l -> NoDup l.
Proof.
  induction 1 as [|a l Hs IH Hall]; constructor; [|exact IH].
  intros Hin. rewrite Forall_forall in Hall. specialize (Hall a Hin). lia.
Qed.

(** X1.  The ground truth loses nothing.  [y_true] has one list per
    distinct user id of [X], none of them empty; taken together the lists
    hold the artist of every row of [X] exactly once.  Without rows there
    is no list. *)
Theorem group_items_partition (X : interactions) :
  Permutation (List.concat (group_items X)) (map snd X)
  /\ Forall (fun items => items <> []) (group_items X)
  /\ List.length (group_items X) = List.length (user_ids X)
  /\ NoDup (user_ids X)
  /\ (forall u, In u (user_ids X) <-> In u (map fst X))
  /\ (X = [] <-> group_items X = []).
Proof.
  assert (Hnd : NoDup (user_ids X))
    by apply sorted_NoDup, RecsysFacts.user_ids_sorted.
  assert (Hne : Forall (fun items => items <> []) (group_items X)).
  { unfold group_items. rewrite Forall_map. apply Forall_forall.
    intros u Hu Hnil. apply RecsysFacts.user_ids_In in Hu.
    apply in_map_iff in Hu. destruct Hu as ([u' a] & <- & Hin).
    assert (Ha : In a (items_of u' X)) by now apply RecsysFacts.items_of_In.
    cbn [fst] in Hnil. rewrite Hnil in Ha. contradiction. }
  split; [|split; [|split; [|split; [|split]]]].
  - unfold group_items. apply concat_groups; [exact Hnd|].
    intros u Hu. now apply RecsysFacts.user_ids_In.
  - exact Hne.
  - unfold group_items. now rewrite length_map.
  - exact Hnd.
  - intros u. apply RecsysFacts.user_ids_In.
  - split; [intros ->; reflexivity|].
    intros Hnil. destruct X as [|[u a] X]; [reflexivity|]. exfalso.
    assert (Hu : In u (user_ids ((u, a) :: X))).
    { apply RecsysFacts.user_ids_In. now left. }
    unfold group_items in Hnil. apply map_eq_nil in Hnil.
    rewrite Hnil in Hu. contradiction.
Qed.

(** ** Every run of [score_wrapper] *)

Section Wrapper.

Variable object : Type.
Variable isinstance_Pipeline : object -> bool.
Variable AT_K : Z.
Variable ndarray : Type.
Variable shape : ndarray -> list Z.
Variable W : Type.
Variable lib : W -> forall c : call object ndarray,
                     result (exn object) (resp c) * W.

Local Abbreviation score_wrapper :=
  (score_wrapper isinstance_Pipeline AT_K shape).

(** X2.  What [score_wrapper] asks and what it lets through.  For an
    estimator that is a [Pipeline], in every run, whatever the libraries
    answer: an exception of the logging, of the estimator or of
    [ndcg_score] ends the run unchanged, and the wrapper raises none of
    its own; the estimator is asked at most once, for [X] itself with
    [k = AT_K]; [ndcg_score] is called at most once, with the ground truth
    of [X], at [k = AT_K], on the one prediction the estimator answered,
    so never after a failed prediction.  The argument [y] is not used. *)
Theorem score_wrapper_asks_once
    (estimator : object) (X : interactions) (y : option ndarray) (w : W) :
  isinstance_Pipeline estimator = true ->
  let r := run lib (score_wrapper estimator X y) w in
  propagates_unchanged r
  /\ (exists n, asked (calls (snd r)) = firstn n [(estimator, X, AT_K)])
  /\ (forall y_true y_pred k,
        In (y_true, y_pred, k) (scored (calls (snd r))) ->
        y_true = group_items X /\ k = AT_K /\ predicted (snd r) = [y_pred])
  /\ (List.length (scored (calls (snd r))) <= 1)%nat
  /\ score_wrapper estimator X y = score_wrapper estimator X None.
Proof.
  intros Hp. cbv zeta.
  rewrite <- !and_assoc. split; [|reflexivity]. rewrite !and_assoc.
  unfold propagates_unchanged.
  apply (always_run lib (score_wrapper estimator X y)
           (fun o tr =>
              ((forall e, o <> Raised e)
               /\ errors tr = match o with
                              | Propagated e => [e]
                              | _ => []
                              end)
              /\ (exists n, asked (calls tr) = firstn n [(estimator, X, AT_K)])
              /\ (forall y_true y_pred k,
                    In (y_true, y_pred, k) (scored (calls tr)) ->
                    y_true = group_items X /\ k = AT_K
                    /\ predicted tr = [y_pred])
              /\ (List.length (scored (calls tr)) <= 1)%nat)).
  unfold Recsys.score_wrapper. rewrite Hp.
  always_walk ltac:(
    read_calls;
    cbn [asked scored predicted errors flat_map app List.length];
    split; [split; [discriminate|reflexivity]|];
    split; [first [now exists 0%nat | now exists 1%nat]|];
    split;
    [ intros y_true y_pred k HIn; cbn [In] in HIn;
      first [ contradiction
            | destruct HIn as [HIn|[]]; injection HIn as <- <- <-;
              repeat split; reflexivity ]
    | lia ]).
Qed.

End Wrapper.

(** ** The searches *)

Section Searches.

Variable object : Type.
Variable isinstance_Pipeline : object -> bool.
Variable AT_K : Z.
Variable ndarray : Type.
Variable shape : ndarray -> list Z.

(** X3.  The searches fit the pipelines.  Every entry of [searchers] is an
    [OptunaSearchCV] over the pipeline that [pipelines] has under the same
    key; each of its parameters is named [<step>__<parameter>] for a step
    of that pipeline, has a range that is not empty, and when the
    pipeline's constructor call sets the parameter, it sets it to a value
    of the range; the search scores with [score_wrapper], does not refit,
    and lets the exceptions of the scoring through
    ([error_score='raise']).  The pipeline ['baseline'] has no search. *)
Theorem searchers_address_pipelines :
  Forall
    (fun entry : string * (string * search_arguments object ndarray) =>
       let name := fst entry in
       let args := snd (snd entry) in
       fst (snd entry) = "OptunaSearchCV"
       /\ (exists p,
              lookup name pipelines = Some p
              /\ Forall (fun pd => addresses p (fst pd) (snd pd) = true)
                        (param_distributions args))
       /\ Forall (fun pd => inhabited (snd pd) = true)
                 (param_distributions args)
       /\ scoring args = Recsys.score_wrapper isinstance_Pipeline AT_K shape
       /\ refit args = false
       /\ error_score args = "raise"
       /\ random_state args = RANDOM_STATE)
    (searchers isinstance_Pipeline AT_K shape)
  /\ map fst (searchers isinstance_Pipeline AT_K shape)
     = ["pure_svd"; "funk_svd"; "als_lightfm"]
  /\ map fst pipelines = ["baseline"; "pure_svd"; "funk_svd"; "als_lightfm"]
  /\ lookup "baseline" (searchers isinstance_Pipeline AT_K shape) = None.
Proof.
  split; [|repeat split].
  unfold searchers.
  repeat (constructor;
          [ cbv zeta; cbn [fst snd param_distributions scoring refit
                           error_score random_state];
            split; [reflexivity|];
            split; [eexists; split; [reflexivity|];
                    repeat constructor; vm_compute; reflexivity|];
            split; [repeat constructor; vm_compute; reflexivity|];
            repeat split; reflexivity
          | ]).
  constructor.
Qed.

End Searches.

End RecsysMore.

(* ===================================================================== *)
(** * Facts about data frames *)
(* ===================================================================== *)

Module FrameFacts.

Import Campaign.

Lemma positions_from_app (i : nat) (name : string) (a b : list string) :
  positions_from i name (a ++ b)
  = positions_from i name a ++ positions_from (i + List.length a) name b.
Proof.
  revert i. induction a as [|c a IH]; intros i; cbn.
  - now rewrite Nat.add_0_r.
  - rewrite IH, Nat.add_succ_r. destruct (String.eqb c name); reflexivity.
Qed.

Lemma positions_from_bounds (i : nat) (name : string) (cols : list string) :
  Forall (fun p => (i <= p < i + List.length cols)%nat)
         (positions_from i name cols).
Proof.
  revert i. induction cols as [|c cols IH]; intros i; cbn; [constructor|].
  assert (H : Forall (fun p => (i <= p < i + S (List.length cols))%nat)
                     (positions_from (S i) name cols)).
  { eapply Forall_impl; [|apply IH]. cbn. intros; lia. }
  destruct (String.eqb c name); [constructor; [lia|exact H]|exact H].
Qed.

Lemma positions_head_lt (name : string) (cols : list string) (i : nat)
    (others : list nat) :
  positions name cols = i :: others -> (i < List.length cols)%nat.
Proof.
  intros H. pose proof (positions_from_bounds 0 name cols) as Hb.
  unfold positions in H. rewrite H in Hb. inversion Hb; subst. lia.
Qed.

Lemma positions_from_absent (i : nat) (name : string) (cols : list string) :
  ~ In name cols -> positions_from i name cols = [].
Proof.
  revert i. induction cols as [|c cols IH]; intros i Hn; cbn; [reflexivity|].
  destruct (String.eqb_spec c name) as [->|_].
  - exfalso. apply Hn. now left.
  - apply IH. intros Hin. apply Hn. now right.
Qed.


Lemma positions_present (name : string) (cols : list string) :
  In name cols -> positions name cols <> [].
Proof.
  unfold positions. generalize 0%nat.
  induction cols as [|c cols IH]; intros i Hin; [contradiction|].
  cbn. destruct (String.eqb_spec c name) as [->|Hne]; [discriminate|].
  destruct Hin as [->|Hin]; [contradiction|]. now apply IH.
Qed.

(** [df.loc[:, name]] reads [value_at] on every row. *)
Lemma loc_column_value_at (df : DataFrame) (name : string) :
  In name (columns df) ->
  loc_column df name
  = Ok (map (fun r => (fst r, value_at df name r)) (rows df)).
Proof.
  intros Hin. unfold loc_column, value_at.
  destruct (positions name (columns df)) as [|i others] eqn:Hp.
  - exfalso. eapply positions_present; eassumption.
  - reflexivity.
Qed.

Lemma combine_map_fst_snd A B C (f : A -> B) (g : A -> C) (l : list A) :
  combine (map f l) (map g l) = map (fun a => (f a, g a)) l.
Proof. induction l as [|a l IH]; cbn; [reflexivity|now rewrite IH]. Qed.

Lemma combine_index (l : list (label * list Float64.float))
    (vals : list Float64.float) :
  List.length vals = List.length l ->
  map (fun rv => (fst (fst rv), snd rv)) (combine l vals)
  = combine (map fst l) vals.
Proof.
  revert vals. induction l as [|r l IH]; intros [|v vals] Hl;
    cbn in *; try discriminate; try reflexivity.
  f_equal. apply IH. lia.
Qed.

Lemma nth_set_cell (i : nat) (v : Float64.float) (cells : list Float64.float) :
  (i < List.length cells)%nat ->
  nth i (set_cell i v cells) Float64.nan = v.
Proof.
  intros Hi. unfold set_cell.
  rewrite app_nth2; rewrite firstn_length_le by lia; [|lia].
  now rewrite Nat.sub_diag.
Qed.

(** After [df[name] = vals] on an aligned frame, the column [name] holds
    [vals], row by row. *)
Lemma setitem_column (df scored : DataFrame) (name : string)
    (vals : list Float64.float) :
  aligned df ->
  setitem df name vals = Ok scored ->
  List.length vals = List.length (rows df) /\
  loc_column scored name = Ok (combine (index df) vals).
Proof.
  intros Hal. unfold setitem.
  destruct (Nat.eqb_spec (List.length vals) (List.length (rows df)))
    as [Hlen|_]; cbn [negb]; [|discriminate].
  unfold aligned in Hal. rewrite Forall_forall in Hal.
  destruct (positions name (columns df)) as [|i others] eqn:Hp;
    intros H; inversion H; subst; clear H; split; try assumption;
    unfold loc_column, index; cbn [columns rows].
  - unfold positions in *. rewrite positions_from_app, Hp. cbn.
    rewrite String.eqb_refl. f_equal.
    rewrite map_map. rewrite <- combine_index by assumption.
    apply map_ext_in. intros [[l cells] v] Hin. cbn.
    unfold cell. cbn.
    apply in_combine_l in Hin. specialize (Hal _ Hin). cbn in Hal.
    rewrite app_nth2 by lia. rewrite Hal, Nat.sub_diag. reflexivity.
  - rewrite Hp. f_equal.
    rewrite map_map. rewrite <- combine_index by assumption.
    apply map_ext_in. intros [[l cells] v] Hin. cbn.
    unfold cell. cbn.
    apply in_combine_l in Hin. specialize (Hal _ Hin). cbn in Hal.
    rewrite nth_set_cell; [reflexivity|].
    apply positions_head_lt in Hp. lia.
Qed.

(** [df.loc[mask, :]] with a mask computed from the rows is a filter. *)
Lemma filter_mask A (f : A -> bool) (l : list A) :
  map fst (filter snd (combine l (map f l))) = filter f l.
Proof.
  induction l as [|a l IH]; cbn; [reflexivity|].
  destruct (f a); cbn; now rewrite IH.
Qed.

Lemma filter_map_commute A B (key : A -> B) (f : B -> bool) (l : list A) :
  map key (filter (fun a => f (key a)) l) = filter f (map key l).
Proof.
  induction l as [|a l IH]; cbn; [reflexivity|].
  destruct (f (key a)); cbn; now rewrite IH.
Qed.


Lemma gtb_zero_not_nan (x : Float64.float) :
  Float64.gtb x Float64.zero = true -> Float64.isna x = false.
Proof. destruct x; cbn; intros H; try reflexivity; discriminate. Qed.


(** *** Selecting the columns from the fourth onward *)





(** *** Series arithmetic over the rows of one frame *)

Section OverRows.

Variable A : Type.
Variable lbl : A -> label.

Lemma fillna_map (v : A -> Float64.float) (l : list A) :
  fillna Float64.zero (map (fun r => (lbl r, v r)) l)
  = map (fun r => (lbl r, or_zero (v r))) l.
Proof. unfold fillna. rewrite map_map. reflexivity. Qed.

Lemma series_scale_map (c : Z) (v : A -> Float64.float) (l : list A) :
  series_scale c (map (fun r => (lbl r, v r)) l)
  = map (fun r => (lbl r, Float64.mul (Float64.of_int c) (v r))) l.
Proof. unfold series_scale. rewrite map_map. reflexivity. Qed.

Lemma series_sub_map (u v : A -> Float64.float) (l : list A) :
  series_sub (map (fun r => (lbl r, u r)) l) (map (fun r => (lbl r, v r)) l)
  = map (fun r => (lbl r, Float64.sub (u r) (v r))) l.
Proof.
  unfold series_sub. rewrite combine_map_fst_snd, map_map. reflexivity.
Qed.

End OverRows.

Lemma or_zero_valid (x : Float64.float) :
  Float64.valid x = true ->
  Float64.valid (or_zero x) = true /\ Float64.isna (or_zero x) = false.
Proof.
  unfold or_zero. destruct (Float64.isna x) eqn:Hx; intros Hv.
  - split; reflexivity.
  - split; assumption.
Qed.

Lemma value_at_valid (df : DataFrame) (name : string)
    (r : label * list Float64.float) :
  Forall (fun x => Float64.valid x = true) (snd r) ->
  Float64.valid (value_at df name r) = true.
Proof.
  intros Hv. unfold value_at.
  destruct (positions name (columns df)) as [|i _]; [reflexivity|].
  unfold cell. destruct (nth_in_or_default i (snd r) Float64.nan) as [Hin|Hd].
  - rewrite Forall_forall in Hv. now apply Hv.
  - rewrite Hd. reflexivity.
Qed.

End FrameFacts.

(* ===================================================================== *)
(** * final/campaign/__main__.py: the targets and the sample marks *)
(* ===================================================================== *)

Module FrameMore.

Import Campaign CampaignRuns.

(** ** Selecting columns *)

Lemma select_ok (names cols : list string) :
  (forall n, In n names -> In n cols) ->
  exists sel, select names cols = Ok sel.
Proof.
  induction names as [|n names IH]; intros Hin; cbn [select].
  - now exists [].
  - destruct (positions n cols) as [|p ps] eqn:Hp.
    + exfalso. eapply FrameFacts.positions_present; [|exact Hp].
      apply Hin. now left.
    + destruct IH as [sel ->]; [intros m Hm; apply Hin; now right|].
      cbn [rbind]. eauto.
Qed.

(** [df.loc[:, df.columns[3:]]] never raises. *)
Lemma loc_columns_tail_ok (df : DataFrame) (k : nat) :
  exists X, loc_columns df (skipn k (columns df)) = Ok X
            /\ index X = index df.
Proof.
  unfold loc_columns.
  destruct (select_ok (skipn k (columns df)) (columns df)) as [sel ->].
  { intros n Hn. rewrite <- (firstn_skipn k (columns df)).
    apply in_or_app. now right. }
  cbn [rbind]. eexists. split; [reflexivity|].
  unfold index. cbn [rows]. rewrite map_map. reflexivity.
Qed.

Lemma loc_column_ok (df : DataFrame) (name : string) (s : Series) :
  loc_column df name = Ok s ->
  In name (columns df)
  /\ s = map (fun r => (fst r, value_at df name r)) (rows df).
Proof.
  unfold loc_column, value_at.
  destruct (positions name (columns df)) as [|i others] eqn:Hp;
    [discriminate|].
  intros H. inversion H; subst. split; [|reflexivity].
  destruct (in_dec string_dec name (columns df)) as [Hin|Hnot];
    [exact Hin|].
  unfold positions in Hp.
  rewrite FrameFacts.positions_from_absent in Hp by exact Hnot.
  discriminate.
Qed.

Lemma loc_column_err (df : DataFrame) (name : string) (e : pyexn) :
  loc_column df name = Err e -> ~ In name (columns df) /\ e = KeyError name.
Proof.
  unfold loc_column.
  destruct (positions name (columns df)) as [|i others] eqn:Hp;
    [|discriminate].
  intros H. split; [|congruence].
  intros Hin. eapply FrameFacts.positions_present; eassumption.
Qed.

Lemma loc_column_absent (df : DataFrame) (name : string) :
  ~ In name (columns df) -> loc_column df name = Err (KeyError name).
Proof.
  intros Hnot. unfold loc_column, positions.
  now rewrite FrameFacts.positions_from_absent.
Qed.

(** ** The targets of [train] *)

Lemma train_targets_ok (df X : DataFrame) (w y : Series) :
  train_targets df = Ok (X, w, y) ->
  In "target_group_flag" (columns df)
  /\ In "target_purchase_amt" (columns df)
  /\ In "target_discount_sum" (columns df)
  /\ index X = index df
  /\ w = map (fun r => (fst r, or_zero (value_at df "target_group_flag" r)))
             (rows df)
  /\ y = map (fun r => (fst r, target_of df r)) (rows df).
Proof.
  unfold train_targets.
  destruct (loc_columns_tail_ok df 3) as (X0 & -> & HX). cbn [rbind].
  destruct (loc_column df "target_group_flag") as [flag|e] eqn:Hflag;
    [|discriminate]. cbn [rbind].
  destruct (loc_column df "target_purchase_amt") as [amt|e] eqn:Hamt;
    [|discriminate]. cbn [rbind].
  destruct (loc_column df "target_discount_sum") as [disc|e] eqn:Hdisc;
    [|discriminate]. cbn [rbind].
  apply loc_column_ok in Hflag, Hamt, Hdisc.
  destruct Hflag as [Hf ->], Hamt as [Ha ->], Hdisc as [Hd ->].
  intros H. inversion H; subst X w y; clear H.
  repeat split; try assumption.
  - now rewrite (FrameFacts.fillna_map fst).
  - rewrite !(FrameFacts.fillna_map fst).
    rewrite !(FrameFacts.series_scale_map fst).
    rewrite !(FrameFacts.series_sub_map fst).
    reflexivity.
Qed.

Lemma train_targets_err (df : DataFrame) (e : pyexn) :
  train_targets df = Err e ->
  e = KeyError "target_group_flag" \/ e = KeyError "target_purchase_amt"
  \/ e = KeyError "target_discount_sum".
Proof.
  unfold train_targets.
  destruct (loc_columns_tail_ok df 3) as (X & -> & _). cbn [rbind].
  destruct (loc_column df "target_group_flag") as [flag|e1] eqn:Hflag;
    cbn [rbind].
  2: { apply loc_column_err in Hflag. destruct Hflag as [_ ->].
       intros H. inversion H. auto. }
  destruct (loc_column df "target_purchase_amt") as [amt|e1] eqn:Hamt;
    cbn [rbind].
  2: { apply loc_column_err in Hamt. destruct Hamt as [_ ->].
       intros H. inversion H. auto. }
  destruct (loc_column df "target_discount_sum") as [disc|e1] eqn:Hdisc;
    cbn [rbind].
  2: { apply loc_column_err in Hdisc. destruct Hdisc as [_ ->].
       intros H. inversion H. auto. }
  discriminate.
Qed.

(** X4.  The three target columns are what [train] needs of the features.
    Lines 64 to 68 go through exactly when the frame has the columns
    [target_group_flag], [target_purchase_amt] and [target_discount_sum];
    otherwise they raise [KeyError] with the first of them that is
    missing, in this order.  A frame with fewer than four columns is no
    error: [X] then has no column. *)
Theorem train_targets_needs_target_columns (df : DataFrame) :
  let has (name : string) := In name (columns df) in
  ((has "target_group_flag" /\ has "target_purchase_amt"
    /\ has "target_discount_sum")
   <-> exists X w y, train_targets df = Ok (X, w, y))
  /\ (~ has "target_group_flag" ->
      train_targets df = Err (KeyError "target_group_flag"))
  /\ (has "target_group_flag" -> ~ has "target_purchase_amt" ->
      train_targets df = Err (KeyError "target_purchase_amt"))
  /\ (has "target_group_flag" -> has "target_purchase_amt" ->
      ~ has "target_discount_sum" ->
      train_targets df = Err (KeyError "target_discount_sum"))
  /\ ((List.length (columns df) <= 3)%nat ->
      forall X w y, train_targets df = Ok (X, w, y) -> columns X = []).
Proof.
  cbv zeta.
  split; [|split; [|split; [|split]]].
  - split.
    + intros (Hf & Ha & Hd). unfold train_targets.
      destruct (loc_columns_tail_ok df 3) as (X & -> & _). cbn [rbind].
      rewrite !FrameFacts.loc_column_value_at by assumption.
      cbn [rbind]. eauto.
    + intros (X & w & y & H). apply train_targets_ok in H. tauto.
  - intros Hf. unfold train_targets.
    destruct (loc_columns_tail_ok df 3) as (X & -> & _). cbn [rbind].
    now rewrite loc_column_absent by exact Hf.
  - intros Hf Ha. unfold train_targets.
    destruct (loc_columns_tail_ok df 3) as (X & -> & _). cbn [rbind].
    rewrite (@FrameFacts.loc_column_value_at df _ Hf). cbn [rbind].
    now rewrite loc_column_absent by exact Ha.
  - intros Hf Ha Hd. unfold train_targets.
    destruct (loc_columns_tail_ok df 3) as (X & -> & _). cbn [rbind].
    rewrite (@FrameFacts.loc_column_value_at df _ Hf). cbn [rbind].
    rewrite (@FrameFacts.loc_column_value_at df _ Ha). cbn [rbind].
    now rewrite loc_column_absent by exact Hd.
  - intros Hlen X w y H. unfold train_targets in H.
    rewrite skipn_all2 in H by exact Hlen.
    unfold loc_columns in H. cbn [select rbind] in H.
    destruct (loc_column df "target_group_flag"); [|discriminate].
    cbn [rbind] in H.
    destruct (loc_column df "target_purchase_amt"); [|discriminate].
    cbn [rbind] in H.
    destruct (loc_column df "target_discount_sum"); [|discriminate].
    cbn [rbind] in H. inversion H. reflexivity.
Qed.

(** [w] and [y] have one value per row of the frame. *)
Lemma train_targets_lengths (df X : DataFrame) (w y : Series) :
  train_targets df = Ok (X, w, y) ->
  List.length (values w) = List.length (rows df)
  /\ List.length (values y) = List.length (rows df).
Proof.
  intros H. apply train_targets_ok in H.
  destruct H as (_ & _ & _ & _ & -> & ->).
  unfold values. rewrite !map_map, !length_map. now split.
Qed.

(** X5.  [X], [w] and [y] are indexed like the sampled frame: they have
    one entry per row of it, under the same customer ids in the same
    order, so the three can be split together. *)
Theorem train_targets_index (df X : DataFrame) (w y : Series) :
  train_targets df = Ok (X, w, y) ->
  index X = index df
  /\ map fst w = index df
  /\ map fst y = index df
  /\ List.length (rows X) = List.length (rows df)
  /\ List.length (values w) = List.length (rows df)
  /\ List.length (values y) = List.length (rows df).
Proof.
  intros H. apply train_targets_ok in H.
  destruct H as (_ & _ & _ & HX & -> & ->).
  unfold values, index in *. rewrite !map_map, !length_map. cbn [fst].
  repeat split; try reflexivity; try assumption.
  apply (f_equal (@List.length label)) in HX.
  now rewrite !length_map in HX.
Qed.

(** X6.  The targets are never missing.  [w] holds no NaN.  On a
    well-formed frame in which no cell of the three target columns is an
    infinity, [y] holds no NaN either: a missing cell counts as 0, and the
    product and the differences of finite values are finite or overflow to
    an infinity. *)
Theorem train_targets_never_missing (df X : DataFrame) (w y : Series) :
  well_formed df ->
  train_targets df = Ok (X, w, y) ->
  Forall (fun p => Float64.isna (snd p) = false) w
  /\ ((forall r, In r (rows df) ->
         Float64Kind.isinf (value_at df "target_purchase_amt" r) = false
         /\ Float64Kind.isinf (value_at df "target_discount_sum" r) = false
         /\ Float64Kind.isinf (value_at df "target_group_flag" r) = false) ->
      Forall (fun p => Float64.isna (snd p) = false) y).
Proof.
  intros (_ & _ & Hval) H. apply train_targets_ok in H.
  destruct H as (_ & _ & _ & _ & -> & ->). split.
  - rewrite Forall_map. apply Forall_forall. intros r _. cbn [snd].
    unfold or_zero. destruct (value_at df _ r); reflexivity.
  - intros Hfin. rewrite Forall_map. apply Forall_forall. intros r Hr.
    cbn [snd]. unfold target_of.
    destruct (Hfin r Hr) as (Ha & Hd & Hf).
    rewrite Forall_forall in Hval.
    destruct (@FrameFacts.or_zero_valid
                (value_at df "target_group_flag" r)
                (FrameFacts.value_at_valid df "target_group_flag" r
                   (Hval r Hr))) as [Hv Hn].
    rewrite (Float64Facts.mul_one_l _ Hv Hn).
    apply Float64More.sub_finite_not_nan;
      [|now apply Float64More.or_zero_finite].
    apply Float64More.sub_finite_not_nan;
      [|now apply Float64More.or_zero_finite].
    apply Float64More.mul_finite_not_nan;
      [reflexivity|now apply Float64More.or_zero_finite].
Qed.

(** ** The [sample] column of the examples *)

Lemma mem_In (l : label) (ls : list label) : mem l ls = true <-> In l ls.
Proof.
  unfold mem. rewrite existsb_exists. split.
  - intros (x & Hx & He). apply Z.eqb_eq in He. now subst.
  - intros H. exists l. split; [exact H|apply Z.eqb_refl].
Qed.

Lemma forallb_mem_incl (ls idx : list label) :
  forallb (fun l => mem l idx) ls = true <-> incl ls idx.
Proof.
  rewrite forallb_forall. unfold incl.
  split; intros H l Hl; apply mem_In; auto.
Qed.

Lemma filter_length_NoDup (idx ls : list label) :
  NoDup idx -> NoDup ls -> incl ls idx ->
  List.length (filter (fun l => mem l ls) idx) = List.length ls.
Proof.
  intros Hi Hl Hincl. apply Permutation_length.
  apply NoDup_Permutation; [now apply NoDup_filter|exact Hl|].
  intros x. rewrite filter_In, mem_In. split; [tauto|].
  intros Hx. split; [now apply Hincl|exact Hx].
Qed.

(** When the two assignments of lines 102 and 103 go through, and what
    they mark. *)
Lemma mark_sample_facts (idx train_idx test_idx : list label) :
  ((exists marks, mark_sample idx train_idx test_idx = Ok marks)
   <-> incl train_idx idx /\ incl test_idx idx)
  /\ (forall marks,
        mark_sample idx train_idx test_idx = Ok marks ->
        marks = map (fun l => if mem l test_idx then Some "test"
                              else if mem l train_idx then Some "train"
                              else None) idx).
Proof.
  assert (Hok : forall marks,
             mark_sample idx train_idx test_idx = Ok marks ->
             incl train_idx idx /\ incl test_idx idx
             /\ marks = map (fun l => if mem l test_idx then Some "test"
                                      else if mem l train_idx then Some "train"
                                      else None) idx).
  { intros marks. unfold mark_sample.
    destruct (forallb (fun l => mem l idx) train_idx) eqn:Ht; cbn [negb];
      [|discriminate].
    destruct (forallb (fun l => mem l idx) test_idx) eqn:Hs; cbn [negb];
      [|discriminate].
    intros H. inversion H.
    repeat split; try reflexivity; now apply forallb_mem_incl. }
  split.
  - split.
    + intros (marks & H). apply Hok in H. tauto.
    + intros [Ht Hs]. unfold mark_sample.
      apply forallb_mem_incl in Ht, Hs. rewrite Ht, Hs. cbn [negb]. eauto.
  - intros marks H. now apply Hok in H.
Qed.

(** X7.  The [sample] column of the examples.  The two assignments of
    lines 102 and 103 go through exactly when every label of the train
    part and of the test part is a label of [X]; a row is then marked
    ['test'] when its label is in the test part, else ['train'] when it
    is in the train part, else it stays missing.  When the two parts
    split the distinct labels of [X] between them, no row stays missing,
    and the marks count the two parts. *)
Theorem mark_sample_partition (idx train_idx test_idx : list label) :
  ((exists marks, mark_sample idx train_idx test_idx = Ok marks)
   <-> incl train_idx idx /\ incl test_idx idx)
  /\ (forall marks,
        mark_sample idx train_idx test_idx = Ok marks ->
        marks = map (fun l => if mem l test_idx then Some "test"
                              else if mem l train_idx then Some "train"
                              else None) idx)
  /\ (forall marks,
        mark_sample idx train_idx test_idx = Ok marks ->
        NoDup idx -> Permutation (train_idx ++ test_idx) idx ->
        ~ In None marks
        /\ marked "train" marks = List.length train_idx
        /\ marked "test" marks = List.length test_idx).
Proof.
  assert (Hok : forall marks,
             mark_sample idx train_idx test_idx = Ok marks ->
             incl train_idx idx /\ incl test_idx idx
             /\ marks = map (fun l => if mem l test_idx then Some "test"
                                      else if mem l train_idx then Some "train"
                                      else None) idx).
  { intros marks. unfold mark_sample.
    destruct (forallb (fun l => mem l idx) train_idx) eqn:Ht; cbn [negb];
      [|discriminate].
    destruct (forallb (fun l => mem l idx) test_idx) eqn:Hs; cbn [negb];
      [|discriminate].
    intros H. inversion H.
    repeat split; try reflexivity; now apply forallb_mem_incl. }
  split; [|split].
  - split.
    + intros (marks & H). apply Hok in H. tauto.
    + intros [Ht Hs]. unfold mark_sample.
      apply forallb_mem_incl in Ht, Hs. rewrite Ht, Hs. cbn [negb]. eauto.
  - intros marks H. now apply Hok in H.
  - intros marks H Hnd Hperm. apply Hok in H. destruct H as (Ht & Hs & ->).
    assert (Hnd' : NoDup (train_idx ++ test_idx)).
    { eapply Permutation_NoDup; [symmetry; exact Hperm|exact Hnd]. }
    assert (Hdisj : forall l, In l train_idx -> ~ In l test_idx).
    { intros l Hl Hl'. apply NoDup_app_remove_l in Hnd' as Hn2.
      revert Hnd'. clear - Hl Hl'. induction train_idx as [|a tl IH];
        [contradiction|].
      cbn. intros Hn. inversion Hn as [|x xs Hx Hxs]; subst.
      destruct Hl as [->|Hl].
      - apply Hx. apply in_or_app. now right.
      - now apply IH. }
    split; [|split].
    + rewrite in_map_iff. intros (l & Hl & Hin).
      assert (Hcase : In l (train_idx ++ test_idx)).
      { eapply Permutation_in; [symmetry; exact Hperm|exact Hin]. }
      apply in_app_or in Hcase. destruct Hcase as [Hc|Hc].
      * apply mem_In in Hc. rewrite Hc in Hl.
        destruct (mem l test_idx); discriminate.
      * apply mem_In in Hc. rewrite Hc in Hl. discriminate.
    + unfold marked. rewrite <- FrameFacts.filter_map_commute, length_map.
      rewrite <- (@filter_length_NoDup idx train_idx Hnd
                    (NoDup_app_remove_r _ _ Hnd') Ht).
      f_equal. apply filter_ext_in. intros l Hl.
      destruct (mem l test_idx) eqn:Hs'.
      * cbn. symmetry. apply not_true_is_false. intros Ht'.
        apply mem_In in Ht', Hs'. exact (Hdisj l Ht' Hs').
      * destruct (mem l train_idx); reflexivity.
    + unfold marked. rewrite <- FrameFacts.filter_map_commute, length_map.
      rewrite <- (@filter_length_NoDup idx test_idx Hnd
                    (NoDup_app_remove_l _ _ Hnd') Hs).
      f_equal. apply filter_ext_in. intros l Hl.
      destruct (mem l test_idx) eqn:Hs'; [reflexivity|].
      destruct (mem l train_idx); reflexivity.
Qed.

End FrameMore.

(* ===================================================================== *)
(** * final/campaign/__main__.py *)
(* ===================================================================== *)

Module CampaignFacts.

Import Campaign.

(** ** Paths *)

Lemma endswith_sep_app (a b : string) :
  b <> EmptyString -> endswith_sep (a ++ b) = endswith_sep b.
Proof.
  intros Hb. induction a as [|c a IH]; [reflexivity|].
  cbn. rewrite IH. destruct (a ++ b)%string eqn:Hab; [|reflexivity].
  destruct a; cbn in Hab; [contradiction|discriminate].
Qed.

(** A directory made by [os.path.join(workpath, <name>)] is never empty
    and never ends with a separator, so joining a file name to it appends
    ["/"] and the name. *)
Lemma join_file_under (workpath dir file : string) :
  startswith_sep file = false ->
  startswith_sep dir = false ->
  dir <> EmptyString ->
  endswith_sep dir = false ->
  os_path_join (os_path_join workpath dir) file
  = (os_path_join workpath dir ++ "/" ++ file)%string.
Proof.
  intros Hfile Hdir Hne Hend.
  unfold os_path_join at 1. rewrite Hfile.
  assert (Hnonempty : String.eqb (os_path_join workpath dir) "" = false).
  { unfold os_path_join. rewrite Hdir.
    destruct (String.eqb workpath "" || endswith_sep workpath)%bool;
      apply String.eqb_neq; destruct workpath; cbn; try discriminate;
      destruct dir; try discriminate; contradiction. }
  assert (Hnosep : endswith_sep (os_path_join workpath dir) = false).
  { unfold os_path_join. rewrite Hdir.
    destruct (String.eqb workpath "" || endswith_sep workpath)%bool.
    - rewrite endswith_sep_app; assumption.
    - rewrite endswith_sep_app; [|destruct dir; discriminate].
      change ("/" ++ dir)%string with (String "/" dir).
      destruct dir; [contradiction|]. exact Hend. }
  rewrite Hnonempty, Hnosep. reflexivity.
Qed.

(** ** The targets of [train] *)


Section Tasks.

Variable DaskFrame : Type.
Variable Estimator : Type.
Variable Engine : Type.
Variable _engine : Engine.
Variable int_of_str : string -> result pyexn Z.
Variable W : Type.
Variable lib : W -> forall c : call DaskFrame Estimator Engine,
                     result pyexn (resp c) * W.

Local Abbreviation trace := (list (event (@resp DaskFrame Estimator Engine) pyexn)).
Local Abbreviation getitem := (@getitem Empty_set).
Local Abbreviation Ev :=
  (@Ev (call DaskFrame Estimator Engine) (@resp DaskFrame Estimator Engine)
       pyexn).

(** A task that runs before [_init] has set the paths ends with the
    [TypeError] of [os.path.join(None, ...)], and has called nothing. *)
Lemma train_before_init (name : string) (config : yaml) (w : W) :
  run lib (train module_globals name config) w
  = (Propagated
       (TypeError "expected str, bytes or os.PathLike object, not NoneType"),
     w,
     [BuiltinError
        (TypeError "expected str, bytes or os.PathLike object, not NoneType")]).
Proof. reflexivity. Qed.

(** *** The trace of a run of [_init] that returns *)

Lemma init_returned
    (workpath : path) (w w' : W) (g : globals) (tr : trace) :
  run lib (_init _engine workpath) w = (Returned g, w', tr) ->
  exists campaigns customers receipts : DaskFrame,
    let datapath := os_path_join workpath "data" in
    registered (calls tr)
    = [ (_engine, "campaigns", campaigns);
        (_engine, "customers", customers);
        (_engine, "receipts", receipts) ]
    /\ In (Ev (dd_read_csv (datapath ++ "/campaigns.csv")%string) (Ok campaigns)) tr
    /\ In (Ev (dd_read_csv (datapath ++ "/customers.csv")%string) (Ok customers)) tr
    /\ In (Ev (dd_read_parquet (datapath ++ "/receipts.parquet")%string) (Ok receipts)) tr
    /\ _datapath g = Some datapath.
Proof.
  intros H. unfold _init, lib_call in H. cbv zeta in H.
  rewrite !(@join_file_under workpath "data") in H
    by (reflexivity || discriminate).
  step_call H as found1; destruct found1; cbn [negb] in H;
    [|step_call H as made1].
  all: step_call H as found2; destruct found2; cbn [negb] in H;
    [|step_call H as made2].
  all: step_call H as found3; destruct found3; cbn [negb] in H;
    [|step_call H as made3].
  all: do 6 step_call H.
  all: cbn in H; inversion H; subst; clear H.
  all: eexists; eexists; eexists; cbv zeta.
  all: split; [reflexivity|].
  all: cbn [In]; repeat split; auto 20.
Qed.

Lemma join_global_ok (o : option path) (b p : path) :
  join_global (O := Empty_set) o b = Ok p ->
  exists a, o = Some a /\ p = os_path_join a b.
Proof.
  destruct o as [a|]; cbn; [|discriminate].
  intros H. inversion H. eauto.
Qed.

(** *** The trace of a run of [train] that returns *)

Lemma train_returned (g : globals) (name : string) (config : yaml)
    (w w' : W) (tr : trace) :
  run lib (train g name config) w = (Returned tt, w', tr) ->
  exists (datapath artifactspath metricspath : path)
         (frac : yaml) (features_dd sampled : DaskFrame)
         (features_df X : DataFrame) (ws y : Series)
         (transformers : yaml) (transform : Estimator)
         (selectors : yaml) (select_ : Estimator)
         (model_cfg : yaml) (model : Estimator)
         (validation test_size : yaml) (X_train X_test : DataFrame)
         (y_train y_test w_train w_test : Series)
         (fitted : Pipeline Estimator) (uplift : list Float64.float)
         (evaluation bin_count : yaml) (hist : list Z)
         (edges edges' : list Float64.float) (hist_ss : HistSeries)
         (cutoff_step : yaml) (cutoffs metrics : list Float64.float)
         (t_loop : trace) (sample : list (option string))
         (uplift_all : list Float64.float) (example_df : ExampleFrame),
    tr = [ Ev (dd_read_parquet
                 (os_path_join datapath (name ++ "_features.parquet")%string))
              (Ok features_dd);
           Ev (dd_sample features_dd frac _random_state) (Ok sampled);
           Ev (dd_compute sampled) (Ok features_df);
           Ev (build_pipeline transformers) (Ok transform);
           Ev (build_pipeline selectors) (Ok select_);
           Ev (build_pipeline (YSeq [model_cfg])) (Ok model);
           Ev (train_test_split X y ws test_size _random_state ws)
              (Ok (X_train, X_test, y_train, y_test, w_train, w_test));
           Ev (fit [("transform", transform); ("select", select_);
                    ("model", model)] X_train y_train w_train) (Ok fitted);
           Ev (pickle_dump fitted
                 (os_path_join artifactspath (name ++ "_pipeline.pkl")%string))
              (Ok tt);
           Ev (predict fitted X_test) (Ok uplift);
           Ev (np_histogram uplift bin_count) (Ok (hist, edges));
           Ev (np_around edges 2) (Ok edges');
           Ev (np_arange_float16 cutoff_step 1 cutoff_step) (Ok cutoffs) ]
         ++ t_loop
         ++ [ Ev (predict fitted X) (Ok uplift_all);
              Ev (to_csv (CsvHist hist_ss)
                    (os_path_join metricspath (name ++ "_hist.csv")%string) true)
                 (Ok tt);
              Ev (to_csv (CsvMetrics (combine cutoffs metrics))
                    (os_path_join metricspath (name ++ "_metrics.csv")%string) true)
                 (Ok tt);
              Ev (to_csv (CsvExamples example_df)
                    (os_path_join metricspath (name ++ "_examples.csv")%string) true)
                 (Ok tt) ]
    /\ calls t_loop
       = map (fun k => uplift_at_k uplift (values ws) (values y) k) cutoffs
    /\ List.length metrics = List.length cutoffs
    /\ _datapath g = Some datapath
    /\ _artifactspath g = Some artifactspath
    /\ _metricspath g = Some metricspath
    /\ getitem config "sample_frac" = Ok frac
    /\ train_targets features_df = Ok (X, ws, y)
    /\ getitem config "transformers" = Ok transformers
    /\ getitem config "selectors" = Ok selectors
    /\ getitem config "model" = Ok model_cfg
    /\ getitem config "validation" = Ok validation
    /\ getitem validation "test_size" = Ok test_size
    /\ getitem config "evaluation" = Ok evaluation
    /\ getitem evaluation "bin_count" = Ok bin_count
    /\ getitem evaluation "cutoff_step" = Ok cutoff_step
    /\ interval_series hist edges' = Ok hist_ss
    /\ mark_sample (index X) (index X_train) (index X_test) = Ok sample
    /\ example_frame X sample ws y uplift_all = Ok example_df.
Proof.
  intros H. unfold train, lib_call, builtin in H.
  step_builtin H as p Hp.
  apply join_global_ok in Hp. destruct Hp as (datapath & Hdp & ->).
  step_call H as features_dd.
  step_builtin H as frac Hfrac.
  step_call H as sampled.
  step_call H as features_df.
  step_builtin H as targets Htargets. destruct targets as [[X ws] y].
  step_builtin H as transformers Htransformers. step_call H as transform.
  step_builtin H as selectors Hselectors. step_call H as select_.
  step_builtin H as model_cfg Hmodel. step_call H as model.
  cbv zeta in H.
  step_builtin H as validation Hvalidation.
  step_builtin H as test_size Htest_size.
  step_call H as parts.
  destruct parts as [[[[[X_train X_test] y_train] y_test] w_train] w_test].
  step_call H as fitted.
  step_builtin H as pkl Hpkl.
  apply join_global_ok in Hpkl. destruct Hpkl as (artifactspath & Hap & ->).
  step_call H as dumped. destruct dumped.
  step_call H as uplift.
  step_builtin H as evaluation Hevaluation.
  step_builtin H as bin_count Hbin_count.
  step_call H as he. destruct he as [hist edges].
  step_call H as edges'.
  step_builtin H as hist_ss Hhist_ss.
  step_builtin H as evaluation' Hevaluation'.
  step_builtin H as cutoff_step Hcutoff_step.
  step_call H as cutoffs.
  apply run_bind_returned in H.
  destruct H as (metrics & w_loop & t_loop & t_rest & Hloop & H & ->).
  apply (run_for_each_invoke lib
           (fun k => uplift_at_k uplift (values ws) (values y) k)
           (fun _ r => r)) in Hloop.
  destruct Hloop as [Hcalls Hlen].
  cbv zeta in H.
  step_builtin H as sample Hsample.
  step_call H as uplift_all.
  step_builtin H as example_df Hexample.
  step_builtin H as hist_csv Hcsv1.
  apply join_global_ok in Hcsv1. destruct Hcsv1 as (metricspath & Hmp & ->).
  step_call H as wrote1. destruct wrote1.
  step_builtin H as metrics_csv Hcsv2.
  apply join_global_ok in Hcsv2. destruct Hcsv2 as (metricspath' & Hmp' & ->).
  step_call H as wrote2. destruct wrote2.
  step_builtin H as examples_csv Hcsv3.
  apply join_global_ok in Hcsv3. destruct Hcsv3 as (metricspath'' & Hmp'' & ->).
  step_call H as wrote3. destruct wrote3.
  cbn in H. inversion H; subst; clear H.
  assert (metricspath' = metricspath) by congruence.
  assert (metricspath'' = metricspath) by congruence.
  assert (evaluation' = evaluation) by congruence.
  subst metricspath' metricspath'' evaluation'.
  exists datapath, artifactspath, metricspath,
         frac, features_dd, sampled, features_df, X, ws, y,
         transformers, transform, selectors, select_, model_cfg, model,
         validation, test_size, X_train, X_test, y_train, y_test,
         w_train, w_test,
         fitted, uplift, evaluation, bin_count, hist, edges, edges', hist_ss,
         cutoff_step, cutoffs, metrics, t_loop, sample, uplift_all, example_df.
  repeat split; assumption || reflexivity.
Qed.

(** [train] hands the targets of the computed sample to
    [train_test_split], and stratifies by [w]. *)
Lemma train_splits_targets (g : globals) (name : string) (config : yaml)
    (w w' : W) (tr : trace) :
  run lib (train g name config) w = (Returned tt, w', tr) ->
  exists (sampled : DaskFrame) (features_df X : DataFrame) (ws y : Series)
         (test_size : yaml) parts,
    In (Ev (dd_compute sampled) (Ok features_df)) tr
    /\ train_targets features_df = Ok (X, ws, y)
    /\ In (Ev (train_test_split X y ws test_size _random_state ws) (Ok parts))
          tr.
Proof.
  intros H. apply train_returned in H.
  destruct H as (datapath & artifactspath & metricspath
                 & frac & features_dd & sampled & features_df & X & ws & y
                 & transformers & transform & selectors & select_
                 & model_cfg & model & validation & test_size
                 & X_train & X_test & y_train & y_test & w_train & w_test
                 & fitted & uplift & evaluation & bin_count & hist & edges
                 & edges' & hist_ss & cutoff_step & cutoffs & metrics
                 & t_loop & sample & uplift_all & example_df
                 & -> & _ & _ & _ & _ & _ & _ & Htargets & _).
  exists sampled, features_df, X, ws, y, test_size,
         (X_train, X_test, y_train, y_test, w_train, w_test).
  split; [cbn; auto 10|]. split; [exact Htargets|]. cbn. auto 10.
Qed.

(** *** The trace of a run of [featurize] that returns *)

Lemma featurize_returned (g : globals) (name : string) (config : yaml)
    (w w' : W) (tr : trace) :
  run lib (featurize _engine g name config) w = (Returned tt, w', tr) ->
  exists (calcers : yaml) (datapath : path) (features_dd : DaskFrame),
    getitem config "calcers" = Ok calcers
    /\ _datapath g = Some datapath
    /\ tr = [ Ev (compute_features calcers _engine) (Ok features_dd);
              Ev (to_parquet features_dd
                    (os_path_join datapath (name ++ "_features.parquet")%string))
                 (Ok tt) ].
Proof.
  intros H. unfold featurize, lib_call, builtin in H.
  step_builtin H as calcers Hcalcers.
  step_call H as features_dd.
  step_builtin H as p Hp.
  apply join_global_ok in Hp. destruct Hp as (datapath & Hdp & ->).
  step_call H as wrote. destruct wrote.
  cbn in H. inversion H; subst; clear H.
  exists calcers, datapath, features_dd. repeat split; assumption.
Qed.

(** C6.  When [_init] returns, it has registered exactly three tables on
    the engine [_engine], in this order: ['campaigns'] and ['customers'],
    each the frame [dd.read_csv] answered, and ['receipts'], the frame
    [dd.read_parquet] answered; the three files are [campaigns.csv],
    [customers.csv] and [receipts.parquet] directly under
    [os.path.join(workpath, 'data')]. *)
Theorem init_registers_three_tables
    (workpath : path) (w w' : W) (g : globals) (tr : trace) :
  run lib (_init _engine workpath) w = (Returned g, w', tr) ->
  exists campaigns customers receipts : DaskFrame,
    let datapath := os_path_join workpath "data" in
    registered (calls tr)
    = [ (_engine, "campaigns", campaigns);
        (_engine, "customers", customers);
        (_engine, "receipts", receipts) ]
    /\ In (Ev (dd_read_csv (datapath ++ "/campaigns.csv")%string) (Ok campaigns)) tr
    /\ In (Ev (dd_read_csv (datapath ++ "/customers.csv")%string) (Ok customers)) tr
    /\ In (Ev (dd_read_parquet (datapath ++ "/receipts.parquet")%string) (Ok receipts)) tr
    /\ _datapath g = Some datapath.
Proof. apply init_returned. Qed.

(** C5.  When [featurize] returns, it has made two calls: it computed
    [compute_features(config['calcers'], _engine)], and it wrote the answer,
    as it is, to [<name>_features.parquet] in the data directory.  The
    program depends on the configuration through its ['calcers'] entry
    only: two configurations with the same entry give the same task. *)
Theorem featurize_is_compute_features
    (g : globals) (name : string) (config : yaml) :
  (forall (w w' : W) (tr : trace),
      run lib (featurize _engine g name config) w = (Returned tt, w', tr) ->
      exists (calcers : yaml) (datapath : path) (features_dd : DaskFrame),
        getitem config "calcers" = Ok calcers
        /\ _datapath g = Some datapath
        /\ tr = [ Ev (compute_features calcers _engine) (Ok features_dd);
                  Ev (to_parquet features_dd
                        (os_path_join datapath
                           (name ++ "_features.parquet")%string))
                     (Ok tt) ])
  /\ (forall config' : yaml,
         getitem config' "calcers" = getitem config "calcers" ->
         featurize (DaskFrame := DaskFrame) (Estimator := Estimator)
                   _engine g name config'
         = featurize _engine g name config).
Proof.
  split.
  - intros w w' tr. apply featurize_returned.
  - intros config' Heq. unfold featurize. now rewrite Heq.
Qed.

Lemma files_written_none (cs : list (call DaskFrame Estimator Engine)) :
  Forall (fun c => written_file c = None) cs -> files_written cs = [].
Proof.
  induction 1 as [|c cs Hc _ IH]; [reflexivity|].
  unfold files_written in *. cbn. now rewrite Hc, IH.
Qed.

Lemma init_writes_nothing (workpath : path) (w : W) :
  files_written (calls (snd (run lib (_init _engine workpath) w))) = [].
Proof.
  apply files_written_none, all_calls_run.
  unfold _init, lib_call. cbv zeta. cbn [for_each].
  all_calls_tac ltac:(reflexivity).
Qed.

(** In a run of the command line with the task ['featurise'], the engine
    that [compute_features] is given is the one the three source tables
    were registered on. *)
Lemma main_featurise (args : arguments) (w w' : W) (tr : trace) :
  arg_task args = "featurise" ->
  run lib (main _engine int_of_str args) w = (Returned tt, w', tr) ->
  exists (campaigns customers receipts : DaskFrame) (calcers : yaml)
         (features_dd : DaskFrame) (file : path),
    registered (calls tr)
    = [ (_engine, "campaigns", campaigns);
        (_engine, "customers", customers);
        (_engine, "receipts", receipts) ]
    /\ In (Ev (compute_features calcers _engine) (Ok features_dd)) tr
    /\ files_written (calls tr) = [(file, Parquet)].
Proof.
  intros Htask H. unfold main in H. rewrite Htask in H. cbn [_tasks] in H.
  change (String.eqb "featurise" "featurise") with true in H. cbv iota in H.
  apply run_bind_returned in H.
  destruct H as (g & w1 & t1 & t2 & Hinit & H & ->).
  pose proof Hinit as Hrun.
  apply init_returned in Hinit.
  destruct Hinit as (campaigns & customers & receipts & Hreg & _).
  unfold lib_call in H. step_call H as config.
  apply featurize_returned in H.
  destruct H as (calcers & datapath & features_dd & _ & _ & ->).
  exists campaigns, customers, receipts, calcers, features_dd,
         (os_path_join datapath (arg_name args ++ "_features.parquet")%string).
  rewrite calls_app. unfold registered, files_written in *.
  rewrite !flat_map_app, Hreg. cbn.
  split; [reflexivity|]. split; [apply in_or_app; right; cbn; auto|].
  pose proof (init_writes_nothing (arg_work_dir args) w) as Hnone.
  rewrite Hrun in Hnone. cbn [snd] in Hnone.
  unfold files_written in Hnone. now rewrite Hnone.
Qed.

(** *** The trace of a run of [inference] that returns *)

Lemma inference_returned (g : globals) (name : string) (config : yaml)
    (w w' : W) (tr : trace) :
  run lib (inference int_of_str g name config) w = (Returned tt, w', tr) ->
  exists (datapath artifactspath submitspath : path)
         (features_dd : DaskFrame) (cols : list string) (selected : DaskFrame)
         (pipeline : Pipeline Estimator) (features_df : DataFrame)
         (uplift : list Float64.float) (scored : DataFrame)
         (uplift_col : Series) (sorted : DataFrame)
         (cutoff product : yaml) (n : Z),
    tr = [ Ev (dd_read_parquet
                 (os_path_join datapath (name ++ "_features.parquet")%string))
              (Ok features_dd);
           Ev (dd_columns features_dd) (Ok cols);
           Ev (dd_getitem features_dd (skipn 3 cols)) (Ok selected);
           Ev (pickle_load
                 (os_path_join artifactspath (name ++ "_pipeline.pkl")%string))
              (Ok pipeline);
           Ev (dd_compute selected) (Ok features_df);
           Ev (predict pipeline features_df) (Ok uplift);
           Ev (sort_values (loc_mask scored (positive_mask uplift_col))
                           "uplift" false) (Ok sorted);
           Ev (to_csv (CsvCustomers (slice_to (index sorted) n))
                 (os_path_join submitspath (name ++ "_submit.csv")%string)
                 false) (Ok tt) ]
    /\ _datapath g = Some datapath
    /\ _artifactspath g = Some artifactspath
    /\ _submitspath g = Some submitspath
    /\ setitem features_df "uplift" uplift = Ok scored
    /\ loc_column scored "uplift" = Ok uplift_col
    /\ getitem config "cutoff" = Ok cutoff
    /\ mul_int (shape0 sorted) cutoff = Ok product
    /\ py_int int_of_str product = Ok n.
Proof.
  intros H. unfold inference, lib_call, builtin in H.
  step_builtin H as p Hp.
  apply join_global_ok in Hp. destruct Hp as (datapath & Hdp & ->).
  step_call H as features_dd.
  step_call H as cols.
  step_call H as selected.
  step_builtin H as pkl Hpkl.
  apply join_global_ok in Hpkl. destruct Hpkl as (artifactspath & Hap & ->).
  step_call H as pipeline.
  step_call H as features_df.
  step_call H as uplift.
  step_builtin H as scored Hscored.
  step_builtin H as uplift_col Hcol.
  cbv zeta in H.
  step_call H as sorted.
  step_builtin H as cutoff Hcutoff.
  step_builtin H as product Hproduct.
  step_builtin H as n Hn.
  step_builtin H as csv Hcsv.
  apply join_global_ok in Hcsv. destruct Hcsv as (submitspath & Hsp & ->).
  step_call H as wrote. destruct wrote.
  cbn in H. inversion H; subst; clear H.
  exists datapath, artifactspath, submitspath, features_dd, cols, selected,
         pipeline, features_df, uplift, scored, uplift_col, sorted,
         cutoff, product, n.
  repeat split; assumption || reflexivity.
Qed.


(** *** No [raise] and no [try] in the tasks *)

Lemma featurize_plain g name config :
  raise_free (featurize (DaskFrame := DaskFrame) (Estimator := Estimator)
                _engine g name config) /\
  handler_free (featurize (DaskFrame := DaskFrame) (Estimator := Estimator)
                  _engine g name config).
Proof.
  unfold featurize, lib_call, builtin.
  split; [raise_free_tac|handler_free_tac].
Qed.

Lemma train_plain g name config :
  raise_free (train (DaskFrame := DaskFrame) (Estimator := Estimator)
                (Engine := Engine) g name config) /\
  handler_free (train (DaskFrame := DaskFrame) (Estimator := Estimator)
                  (Engine := Engine) g name config).
Proof.
  unfold train, lib_call, builtin.
  split; [raise_free_tac|handler_free_tac].
Qed.

Lemma inference_plain g name config :
  raise_free (inference (DaskFrame := DaskFrame) (Estimator := Estimator)
                (Engine := Engine) int_of_str g name config) /\
  handler_free (inference (DaskFrame := DaskFrame) (Estimator := Estimator)
                  (Engine := Engine) int_of_str g name config).
Proof.
  unfold inference, lib_call, builtin.
  split; [raise_free_tac|handler_free_tac].
Qed.

(** C7.  [featurize], [train] (its metric computation included) and
    [inference] (its cutoff selection included) contain no [raise]
    statement and no [try] block; so, whatever the libraries answer, a run
    never ends by an exception of the task's own, and an exception that
    comes out of a library call or a built-in is the exception the run
    ends with, unchanged. *)
Theorem tasks_propagate_library_errors
    (g : globals) (name : string) (config : yaml) (w : W) :
  (raise_free (featurize (DaskFrame := DaskFrame) (Estimator := Estimator)
                 _engine g name config) /\
   handler_free (featurize (DaskFrame := DaskFrame) (Estimator := Estimator)
                   _engine g name config) /\
   propagates_unchanged (run lib (featurize _engine g name config) w)) /\
  (raise_free (train (DaskFrame := DaskFrame) (Estimator := Estimator)
                 (Engine := Engine) g name config) /\
   handler_free (train (DaskFrame := DaskFrame) (Estimator := Estimator)
                   (Engine := Engine) g name config) /\
   propagates_unchanged (run lib (train g name config) w)) /\
  (raise_free (inference (DaskFrame := DaskFrame) (Estimator := Estimator)
                 (Engine := Engine) int_of_str g name config) /\
   handler_free (inference (DaskFrame := DaskFrame) (Estimator := Estimator)
                   (Engine := Engine) int_of_str g name config) /\
   propagates_unchanged (run lib (inference int_of_str g name config) w)).
Proof.
  destruct (featurize_plain g name config) as [Hf1 Hf2].
  destruct (train_plain g name config) as [Ht1 Ht2].
  destruct (inference_plain g name config) as [Hi1 Hi2].
  repeat split; try assumption;
    try (apply raise_free_run; assumption);
    try (apply handler_free_run; assumption).
Qed.

(** *** What the tasks write *)

Lemma featurize_formats g name config :
  all_calls (writes_only [Parquet])
            (featurize (DaskFrame := DaskFrame) (Estimator := Estimator)
                       _engine g name config).
Proof.
  unfold featurize, lib_call, builtin.
  all_calls_tac ltac:(unfold writes_only; cbn; tauto).
Qed.

Lemma train_formats g name config :
  all_calls (writes_only [Pickle; Csv])
            (train (DaskFrame := DaskFrame) (Estimator := Estimator)
                   (Engine := Engine) g name config).
Proof.
  unfold train, lib_call, builtin.
  all_calls_tac ltac:(unfold writes_only; cbn; tauto).
Qed.

Lemma inference_formats g name config :
  all_calls (writes_only [Csv])
            (inference (DaskFrame := DaskFrame) (Estimator := Estimator)
                       (Engine := Engine) int_of_str g name config).
Proof.
  unfold inference, lib_call, builtin.
  all_calls_tac ltac:(unfold writes_only; cbn; tauto).
Qed.

Lemma files_written_app (a b : list (call DaskFrame Estimator Engine)) :
  files_written (a ++ b) = files_written a ++ files_written b.
Proof. unfold files_written. apply flat_map_app. Qed.

Lemma files_written_uplift_at_k uplift ws y (cutoffs : list Float64.float) :
  files_written
    (map (fun k => uplift_at_k (DaskFrame := DaskFrame)
                     (Estimator := Estimator) (Engine := Engine)
                     uplift ws y k) cutoffs) = [].
Proof. induction cutoffs as [|k ks IH]; [reflexivity|exact IH]. Qed.

(** C3, as amended.  Whatever the libraries answer, [featurize] writes
    nothing but Parquet files, [train] nothing but a pickle file and CSV
    files, [inference] nothing but CSV files.  When the task returns, the
    files are: for [featurize], the features as
    [<data>/<name>_features.parquet]; for [train], the fitted pipeline as
    [<artifacts>/<name>_pipeline.pkl], then [<name>_hist.csv],
    [<name>_metrics.csv] and [<name>_examples.csv] under [<metrics>]; for
    [inference], [<submits>/<name>_submit.csv]. *)
Theorem tasks_file_formats
    (g : globals) (name : string) (config : yaml) (w : W) :
  Forall (writes_only [Parquet])
         (calls (snd (run lib (featurize _engine g name config) w)))
  /\ Forall (writes_only [Pickle; Csv])
            (calls (snd (run lib (train g name config) w)))
  /\ Forall (writes_only [Csv])
            (calls (snd (run lib (inference int_of_str g name config) w)))
  /\ (forall w' tr,
         run lib (featurize _engine g name config) w = (Returned tt, w', tr) ->
         exists datapath,
           _datapath g = Some datapath /\
           files_written (calls tr)
           = [ (os_path_join datapath (name ++ "_features.parquet")%string,
                Parquet) ])
  /\ (forall w' tr,
         run lib (train g name config) w = (Returned tt, w', tr) ->
         exists artifactspath metricspath,
           _artifactspath g = Some artifactspath /\
           _metricspath g = Some metricspath /\
           files_written (calls tr)
           = [ (os_path_join artifactspath (name ++ "_pipeline.pkl")%string,
                Pickle);
               (os_path_join metricspath (name ++ "_hist.csv")%string, Csv);
               (os_path_join metricspath (name ++ "_metrics.csv")%string, Csv);
               (os_path_join metricspath (name ++ "_examples.csv")%string,
                Csv) ])
  /\ (forall w' tr,
         run lib (inference int_of_str g name config) w
         = (Returned tt, w', tr) ->
         exists submitspath,
           _submitspath g = Some submitspath /\
           files_written (calls tr)
           = [ (os_path_join submitspath (name ++ "_submit.csv")%string,
                Csv) ]).
Proof.
  split; [apply all_calls_run, featurize_formats|].
  split; [apply all_calls_run, train_formats|].
  split; [apply all_calls_run, inference_formats|].
  split; [|split].
  - intros w' tr H. apply featurize_returned in H.
    destruct H as (calcers & datapath & features_dd & _ & Hdp & ->).
    exists datapath. split; [assumption|reflexivity].
  - intros w' tr H. apply train_returned in H.
    destruct H as (datapath & artifactspath & metricspath
                   & frac & features_dd & sampled & features_df & X & ws & y
                   & transformers & transform & selectors & select_
                   & model_cfg & model & validation & test_size
                   & X_train & X_test & y_train & y_test & w_train & w_test
                   & fitted & uplift & evaluation & bin_count & hist & edges
                   & edges' & hist_ss & cutoff_step & cutoffs & metrics
                   & t_loop & sample & uplift_all & example_df
                   & -> & Hloop & _ & _ & Hap & Hmp & _).
    exists artifactspath, metricspath.
    split; [assumption|]. split; [assumption|].
    rewrite !calls_app, !files_written_app, Hloop,
      files_written_uplift_at_k.
    reflexivity.
  - intros w' tr H. apply inference_returned in H.
    destruct H as (datapath & artifactspath & submitspath & features_dd & cols
                   & selected & pipeline & features_df & uplift & scored
                   & uplift_col & sorted & cutoff & product & n
                   & -> & _ & _ & Hsp & _).
    exists submitspath. split; [assumption|reflexivity].
Qed.

(** *** The order of the steps of [train] *)

Lemma steps_uplift_at_k uplift ws y (cutoffs : list Float64.float) :
  map (@step_of DaskFrame Estimator Engine)
      (map (fun k => uplift_at_k uplift ws y k) cutoffs)
  = repeat Score (List.length cutoffs).
Proof. induction cutoffs as [|k ks IH]; cbn; [reflexivity|now rewrite IH]. Qed.

Lemma persist_first (n : nat) :
  persisted_before_scored
    ([ReadFeatures; ReadFeatures; ReadFeatures; Assemble; Assemble; Assemble;
      Split; Fit; Persist]
     ++ repeat Score n ++ [WriteMetrics; WriteMetrics; WriteMetrics]).
Proof.
  intros i j Hi Hj.
  assert (i = 8%nat).
  { do 9 (destruct i as [|i]; [try reflexivity; cbn in Hi; discriminate|]).
    exfalso. cbn in Hi. apply nth_error_In in Hi.
    apply in_app_or in Hi. destruct Hi as [Hi|Hi].
    - apply repeat_spec in Hi. discriminate.
    - cbn in Hi. intuition discriminate. }
  subst i.
  do 8 (destruct j as [|j]; [cbn; split; discriminate|]). lia.
Qed.

(** C2, as amended.  A run of [train] that returns performs its steps in
    this order: it reads, samples and computes the features, assembles the
    pipeline from three [build_pipeline] calls, splits, fits, persists the
    fitted pipeline, then scores ([predict], [np.histogram], [np.around],
    [np.arange], one [uplift_at_k] per cutoff, [predict]) and at last
    writes the three metrics files.  The fitted pipeline is persisted
    right after the fit, before anything is scored. *)
Theorem train_persists_before_scoring
    (g : globals) (name : string) (config : yaml) (w w' : W) (tr : trace) :
  run lib (train g name config) w = (Returned tt, w', tr) ->
  exists n : nat,
    (5 <= n)%nat /\
    map (@step_of DaskFrame Estimator Engine) (calls tr)
    = [ReadFeatures; ReadFeatures; ReadFeatures; Assemble; Assemble; Assemble;
       Split; Fit; Persist]
      ++ repeat Score n ++ [WriteMetrics; WriteMetrics; WriteMetrics]
    /\ persisted_before_scored
         (map (@step_of DaskFrame Estimator Engine) (calls tr)).
Proof.
  intros H. apply train_returned in H.
  destruct H as (datapath & artifactspath & metricspath
                 & frac & features_dd & sampled & features_df & X & ws & y
                 & transformers & transform & selectors & select_
                 & model_cfg & model & validation & test_size
                 & X_train & X_test & y_train & y_test & w_train & w_test
                 & fitted & uplift & evaluation & bin_count & hist & edges
                 & edges' & hist_ss & cutoff_step & cutoffs & metrics
                 & t_loop & sample & uplift_all & example_df
                 & -> & Hloop & _).
  exists (4 + List.length cutoffs + 1)%nat.
  assert (Hsteps :
    map (@step_of DaskFrame Estimator Engine)
        (calls
           ([ Ev (dd_read_parquet
                    (os_path_join datapath (name ++ "_features.parquet")%string))
                 (Ok features_dd);
              Ev (dd_sample features_dd frac _random_state) (Ok sampled);
              Ev (dd_compute sampled) (Ok features_df);
              Ev (build_pipeline transformers) (Ok transform);
              Ev (build_pipeline selectors) (Ok select_);
              Ev (build_pipeline (YSeq [model_cfg])) (Ok model);
              Ev (train_test_split X y ws test_size _random_state ws)
                 (Ok (X_train, X_test, y_train, y_test, w_train, w_test));
              Ev (fit [("transform", transform); ("select", select_);
                       ("model", model)] X_train y_train w_train) (Ok fitted);
              Ev (pickle_dump fitted
                    (os_path_join artifactspath (name ++ "_pipeline.pkl")%string))
                 (Ok tt);
              Ev (predict fitted X_test) (Ok uplift);
              Ev (np_histogram uplift bin_count) (Ok (hist, edges));
              Ev (np_around edges 2) (Ok edges');
              Ev (np_arange_float16 cutoff_step 1 cutoff_step) (Ok cutoffs) ]
            ++ t_loop
            ++ [ Ev (predict fitted X) (Ok uplift_all);
                 Ev (to_csv (CsvHist hist_ss)
                       (os_path_join metricspath (name ++ "_hist.csv")%string)
                       true) (Ok tt);
                 Ev (to_csv (CsvMetrics (combine cutoffs metrics))
                       (os_path_join metricspath
                          (name ++ "_metrics.csv")%string) true) (Ok tt);
                 Ev (to_csv (CsvExamples example_df)
                       (os_path_join metricspath
                          (name ++ "_examples.csv")%string) true) (Ok tt) ]))
    = [ReadFeatures; ReadFeatures; ReadFeatures; Assemble; Assemble; Assemble;
       Split; Fit; Persist]
      ++ repeat Score (4 + List.length cutoffs + 1)
      ++ [WriteMetrics; WriteMetrics; WriteMetrics]).
  { rewrite !calls_app, !map_app, Hloop, steps_uplift_at_k.
    rewrite !repeat_app. cbn. rewrite <- !app_assoc. reflexivity. }
  split; [lia|]. split; [exact Hsteps|].
  rewrite Hsteps. apply persist_first.
Qed.

(** *** Two runs of [train] *)

Lemma train_seeded g name config :
  all_calls (seeded_with 110894)
            (train (DaskFrame := DaskFrame) (Estimator := Estimator)
                   (Engine := Engine) g name config).
Proof.
  unfold train, lib_call, builtin.
  all_calls_tac ltac:(unfold seeded_with; cbn; reflexivity || exact I).
Qed.

(** C9, as amended.  [train] gives the fixed random state 110894 to every
    call that takes one, the sampling and the split.  So two runs of
    [train] on the same features file and the same configuration, over
    libraries whose reading, sampling, computing, building and splitting
    are deterministic, agree on every call and every answer up to and
    including [train_test_split] (the same sample, the same partition) and
    call [fit] with the same arguments.  When the other calls ([fit],
    [predict], the numpy calls, [uplift_at_k], the writes) are
    deterministic too, the two runs are the same run and write the same
    outputs. *)
Theorem train_same_sample_and_split
    (g : globals) (name : string) (config : yaml) (w1 w2 : W) :
  seeded_calls_deterministic lib ->
  Forall (seeded_with 110894) (calls (run_trace lib (train g name config) w1))
  /\ firstn 7 (run_trace lib (train g name config) w1)
     = firstn 7 (run_trace lib (train g name config) w2)
  /\ firstn 8 (calls (run_trace lib (train g name config) w1))
     = firstn 8 (calls (run_trace lib (train g name config) w2))
  /\ ((forall c, deterministic lib c) ->
      run_trace lib (train g name config) w1
      = run_trace lib (train g name config) w2).
Proof.
  intros (Hread & Hsample & Hcompute & Hbuild & Hsplit).
  split; [apply all_calls_run, train_seeded|].
  rewrite <- and_assoc. split.
  - change (same_until 7 (run_trace lib (train g name config) w1)
                         (run_trace lib (train g name config) w2)).
    unfold deterministic in *.
    unfold train, lib_call, builtin.
    det_builtin.
    det_call ltac:(apply Hread).
    det_builtin.
    det_call ltac:(apply Hsample).
    det_call ltac:(apply Hcompute).
    det_builtin. split_pairs.
    det_builtin.
    det_call ltac:(apply Hbuild).
    det_builtin.
    det_call ltac:(apply Hbuild).
    det_builtin.
    det_call ltac:(apply Hbuild).
    cbv zeta.
    det_builtin. det_builtin.
    det_call ltac:(apply Hsplit).
    split_pairs.
    cbn [bind invoke for_each]. rewrite !run_trace_Call.
    repeat match goal with
           | |- context [lib ?w ?c] => destruct (lib w c) as [[?|?] ?]
           end; apply same_until_call.
  - intros Hdet. apply deterministic_run. exact Hdet.
Qed.

End Tasks.

End CampaignFacts.

(* ===================================================================== *)
(** * Facts about paths *)
(* ===================================================================== *)

Module PathFacts.

Local Open Scope string_scope.

Lemma string_app_assoc (a b c : string) :
  ((a ++ b) ++ c = a ++ (b ++ c))%string.
Proof. induction a as [|x a IH]; cbn; [reflexivity|now rewrite IH]. Qed.

Lemma list_ascii_app (a b : string) :
  list_ascii_of_string (a ++ b)
  = (list_ascii_of_string a ++ list_ascii_of_string b)%list.
Proof. induction a as [|x a IH]; cbn; [reflexivity|now rewrite IH]. Qed.

Lemma agree_start_app (l1 l2 r1 r2 : list ascii) :
  (l1 ++ r1 = l2 ++ r2)%list -> agree_start l1 l2 = true.
Proof.
  revert l2. induction l1 as [|a l1 IH]; intros [|b l2] H; try reflexivity.
  cbn in H. injection H as -> H. cbn. rewrite Ascii.eqb_refl. cbn.
  now apply IH.
Qed.

(** Two strings that are equal end the same way. *)
Lemma app_same_ending (x y s t : string) :
  (x ++ s)%string = (y ++ t)%string -> same_ending s t = true.
Proof.
  intros H. apply (f_equal list_ascii_of_string) in H.
  rewrite !list_ascii_app in H. apply (f_equal (@rev ascii)) in H.
  rewrite !rev_app_distr in H. unfold same_ending.
  eapply agree_start_app. exact H.
Qed.

(** [os.path.join(a, b)] ends with [b]. *)
Lemma os_path_join_ends (a b : path) :
  exists pre, os_path_join a b = (pre ++ b)%string.
Proof.
  unfold os_path_join. destruct (startswith_sep b).
  - now exists EmptyString.
  - destruct (String.eqb a "" || endswith_sep a)%bool.
    + now exists a.
    + exists (a ++ "/")%string. now rewrite string_app_assoc.
Qed.

Lemma os_path_join_file_ends (a name ending : string) :
  exists pre, os_path_join a (name ++ ending) = (pre ++ ending)%string.
Proof.
  destruct (os_path_join_ends a (name ++ ending)) as [pre ->].
  exists (pre ++ name)%string. now rewrite string_app_assoc.
Qed.

(** An absolute file name makes [os.path.join] forget the directory. *)
Lemma os_path_join_absolute (a name ending : string) :
  startswith_sep name = true ->
  os_path_join a (name ++ ending) = (name ++ ending)%string.
Proof.
  intros H. unfold os_path_join.
  destruct name as [|c name]; [discriminate|]. cbn in *. now rewrite H.
Qed.

Lemma startswith_sep_app (name ending : string) :
  startswith_sep name = false -> startswith_sep ending = false ->
  startswith_sep (name ++ ending) = false.
Proof. destruct name; cbn; auto. Qed.

(** Below a work directory that is not empty and does not end with a
    separator, the file [name ++ ending] of the directory [dir]. *)
Lemma join_under_work_dir (workpath dir name ending : string) :
  workpath <> EmptyString ->
  endswith_sep workpath = false ->
  startswith_sep dir = false ->
  dir <> EmptyString ->
  endswith_sep dir = false ->
  startswith_sep name = false ->
  startswith_sep ending = false ->
  os_path_join (os_path_join workpath dir) (name ++ ending)
  = (workpath ++ "/" ++ dir ++ "/" ++ name ++ ending)%string.
Proof.
  intros Hw Hwe Hd Hdn Hde Hn He.
  rewrite CampaignFacts.join_file_under;
    try assumption; [|now apply startswith_sep_app].
  unfold os_path_join. rewrite Hd, Hwe.
  destruct workpath as [|c wp]; [contradiction|]. cbn [String.eqb orb].
  now rewrite !string_app_assoc.
Qed.

End PathFacts.

(* ===================================================================== *)
(** * final/campaign/__main__.py: every run, the edges, the files *)
(* ===================================================================== *)

Module CampaignMore.

Import Campaign CampaignRuns.

Section Tasks.

Variable DaskFrame : Type.
Variable Estimator : Type.
Variable Engine : Type.
Variable _engine : Engine.
Variable int_of_str : string -> result pyexn Z.
Variable W : Type.
Variable lib : W -> forall c : call DaskFrame Estimator Engine,
                     result pyexn (resp c) * W.

Local Abbreviation trace := (list (event (@resp DaskFrame Estimator Engine) pyexn)).
Local Abbreviation getitem := (@getitem Empty_set).
Local Abbreviation Ev :=
  (@Ev (call DaskFrame Estimator Engine) (@resp DaskFrame Estimator Engine)
       pyexn).

(** ** Built-in operations *)


Lemma getitem_err (d : yaml) (key : string) (e : pyexn) :
  getitem d key = Err e ->
  (exists entries, d = YMap entries /\ assoc key entries = None
                   /\ e = KeyError key)
  \/ ((forall entries, d <> YMap entries)
      /\ e = TypeError
               "indices must be integers or object is not subscriptable").
Proof.
  destruct d as [| | | | | |entries]; cbn; intros H;
    try (right; split; [discriminate|congruence]).
  left. destruct (assoc key entries) eqn:Hk; [discriminate|].
  exists entries. repeat split; congruence.
Qed.

Lemma join_global_err (o : option path) (b : path) (e : pyexn) :
  join_global o b = Err e ->
  o = None
  /\ e = TypeError "expected str, bytes or os.PathLike object, not NoneType".
Proof. destruct o; cbn; [discriminate|]. intros H. split; congruence. Qed.

(** ** [_init] *)

(** X8.  In every run of [_init], whatever the libraries answer: the paths
    it asks [os.path.exists] about are, in this order, the directories
    [artifacts], [metrics] and [submits] under the work path (all three
    when it returns); the directories it calls [os.mkdir] on are exactly
    those reported missing, in the same order. *)
Theorem init_creates_missing_dirs (workpath : path) (w : W) :
  let r := run lib (_init _engine workpath) w in
  let dirs := [ os_path_join workpath "artifacts";
                os_path_join workpath "metrics";
                os_path_join workpath "submits" ] in
  (exists n, map fst (checked (snd r)) = firstn n dirs)
  /\ made_dirs (calls (snd r))
     = map fst (filter (fun pb => negb (snd pb)) (checked (snd r)))
  /\ (forall g, fst (fst r) = Returned g ->
                map fst (checked (snd r)) = dirs).
Proof.
  cbv zeta.
  apply (always_run lib (_init _engine workpath)
           (fun o tr =>
              (exists n, map fst (checked tr)
                         = firstn n [ os_path_join workpath "artifacts";
                                      os_path_join workpath "metrics";
                                      os_path_join workpath "submits" ])
              /\ made_dirs (calls tr)
                 = map fst (filter (fun pb => negb (snd pb)) (checked tr))
              /\ (forall g, o = Returned g ->
                            map fst (checked tr)
                            = [ os_path_join workpath "artifacts";
                                os_path_join workpath "metrics";
                                os_path_join workpath "submits" ]))).
  unfold _init, lib_call. cbv zeta.
  always_walk ltac:(
    cbn; split;
    [ first [ now exists 0%nat | now exists 1%nat | now exists 2%nat
            | now exists 3%nat ]
    | split; [reflexivity | intros; first [discriminate | reflexivity]] ]).
Qed.

(** When [_init] returns, the four module globals are the four
    directories under the work path, and the three source tables have been
    read from the data directory. *)
Lemma init_globals (workpath : path) (w w' : W) (g : globals) (tr : trace) :
  run lib (_init _engine workpath) w = (Returned g, w', tr) ->
  g = {| _datapath := Some (os_path_join workpath "data");
         _metricspath := Some (os_path_join workpath "metrics");
         _artifactspath := Some (os_path_join workpath "artifacts");
         _submitspath := Some (os_path_join workpath "submits") |}
  /\ files_read (calls tr)
     = [ (os_path_join (os_path_join workpath "data") "campaigns.csv", Csv);
         (os_path_join (os_path_join workpath "data") "customers.csv", Csv);
         (os_path_join (os_path_join workpath "data") "receipts.parquet",
          Parquet) ]
  /\ files_written (calls tr) = []
  /\ configs_read tr = []
  /\ List.length (registered (calls tr)) = 3%nat.
Proof.
  intros Hrun.
  assert (Hall : always (_init (DaskFrame := DaskFrame)
                           (Estimator := Estimator) _engine workpath)
           (fun o tr =>
              o = Returned g ->
              g = {| _datapath := Some (os_path_join workpath "data");
                     _metricspath := Some (os_path_join workpath "metrics");
                     _artifactspath :=
                       Some (os_path_join workpath "artifacts");
                     _submitspath := Some (os_path_join workpath "submits") |}
              /\ files_read (calls tr)
                 = [ (os_path_join (os_path_join workpath "data")
                        "campaigns.csv", Csv);
                     (os_path_join (os_path_join workpath "data")
                        "customers.csv", Csv);
                     (os_path_join (os_path_join workpath "data")
                        "receipts.parquet", Parquet) ]
              /\ files_written (calls tr) = []
              /\ configs_read tr = []
              /\ List.length (registered (calls tr)) = 3%nat)).
  { unfold _init, lib_call. cbv zeta.
  always_walk ltac:(
    intros Ho; first [discriminate Ho
                     | injection Ho as <-; repeat split; reflexivity]). }
  exact (always_run_eq lib Hall Hrun eq_refl).
Qed.

(** ** The files of a run that returns *)

Ltac read_files :=
  read_calls;
  cbn [files_completed files_read files_written configs_read made_dirs
       predictions metrics_computed splits computed csv_written
       registered flat_map app written_file read_file];
  read_loops;
  cbn [flat_map app written_file read_file].

Lemma featurize_files (g : globals) (name : string) (config : yaml)
    (w w' : W) (tr : trace) (datapath : path) :
  _datapath g = Some datapath ->
  run lib (featurize _engine g name config) w = (Returned tt, w', tr) ->
  files_read (calls tr) = []
  /\ files_written (calls tr)
     = [ (os_path_join datapath (name ++ "_features.parquet")%string,
          Parquet) ].
Proof.
  intros Hdp Hrun.
  assert (Hall : always (featurize (DaskFrame := DaskFrame)
                           (Estimator := Estimator) _engine g name config)
           (fun o tr =>
              o = Returned tt ->
              files_read (calls tr) = []
              /\ files_written (calls tr)
                 = [ (os_path_join datapath
                        (name ++ "_features.parquet")%string, Parquet) ])).
  { unfold featurize, lib_call, builtin. rewrite Hdp. cbn [join_global].
    always_walk ltac:(
      intros Ho; first [discriminate Ho | split; reflexivity]). }
  exact (always_run_eq lib Hall Hrun eq_refl).
Qed.

Lemma train_files (g : globals) (name : string) (config : yaml)
    (w w' : W) (tr : trace) (datapath artifactspath metricspath : path) :
  _datapath g = Some datapath ->
  _artifactspath g = Some artifactspath ->
  _metricspath g = Some metricspath ->
  run lib (train g name config) w = (Returned tt, w', tr) ->
  files_read (calls tr)
  = [ (os_path_join datapath (name ++ "_features.parquet")%string, Parquet) ]
  /\ files_written (calls tr)
     = [ (os_path_join artifactspath (name ++ "_pipeline.pkl")%string,
          Pickle);
         (os_path_join metricspath (name ++ "_hist.csv")%string, Csv);
         (os_path_join metricspath (name ++ "_metrics.csv")%string, Csv);
         (os_path_join metricspath (name ++ "_examples.csv")%string, Csv) ].
Proof.
  intros Hdp Hap Hmp Hrun.
  assert (Hall : always (train (DaskFrame := DaskFrame)
                           (Estimator := Estimator) (Engine := Engine)
                           g name config)
           (fun o tr =>
              o = Returned tt ->
              files_read (calls tr)
              = [ (os_path_join datapath
                     (name ++ "_features.parquet")%string, Parquet) ]
              /\ files_written (calls tr)
                 = [ (os_path_join artifactspath
                        (name ++ "_pipeline.pkl")%string, Pickle);
                     (os_path_join metricspath
                        (name ++ "_hist.csv")%string, Csv);
                     (os_path_join metricspath
                        (name ++ "_metrics.csv")%string, Csv);
                     (os_path_join metricspath
                        (name ++ "_examples.csv")%string, Csv) ])).
  { unfold train, lib_call, builtin. rewrite Hdp, Hap, Hmp.
    cbn [join_global].
    always_walk ltac:(
      intros Ho; first [discriminate Ho
                       | read_files; split; reflexivity]). }
  exact (always_run_eq lib Hall Hrun eq_refl).
Qed.

Lemma inference_files (g : globals) (name : string) (config : yaml)
    (w w' : W) (tr : trace) (datapath artifactspath submitspath : path) :
  _datapath g = Some datapath ->
  _artifactspath g = Some artifactspath ->
  _submitspath g = Some submitspath ->
  run lib (inference int_of_str g name config) w = (Returned tt, w', tr) ->
  files_read (calls tr)
  = [ (os_path_join datapath (name ++ "_features.parquet")%string, Parquet);
      (os_path_join artifactspath (name ++ "_pipeline.pkl")%string, Pickle) ]
  /\ files_written (calls tr)
     = [ (os_path_join submitspath (name ++ "_submit.csv")%string, Csv) ].
Proof.
  intros Hdp Hap Hsp Hrun.
  assert (Hall : always (inference (DaskFrame := DaskFrame)
                           (Estimator := Estimator) (Engine := Engine)
                           int_of_str g name config)
           (fun o tr =>
              o = Returned tt ->
              files_read (calls tr)
              = [ (os_path_join datapath
                     (name ++ "_features.parquet")%string, Parquet);
                  (os_path_join artifactspath
                     (name ++ "_pipeline.pkl")%string, Pickle) ]
              /\ files_written (calls tr)
                 = [ (os_path_join submitspath
                        (name ++ "_submit.csv")%string, Csv) ])).
  { unfold inference, lib_call, builtin. rewrite Hdp, Hap, Hsp.
    cbn [join_global].
    always_walk ltac:(
      intros Ho; first [discriminate Ho | split; reflexivity]). }
  exact (always_run_eq lib Hall Hrun eq_refl).
Qed.

(** X9.  The tasks hand their files over by name.  With the globals set
    and one [name]: the only file [featurize] writes, the features, is the
    only file [train] reads and the first of the two that [inference]
    reads; the pickle that [train] writes is the other file that
    [inference] reads.  No task reads anything else. *)
Theorem tasks_hand_over_files
    (g : globals) (name : string)
    (datapath artifactspath metricspath submitspath : path)
    (featurise_config train_config inference_config : yaml)
    (w1 w1' w2 w2' w3 w3' : W) (tr1 tr2 tr3 : trace) :
  _datapath g = Some datapath ->
  _artifactspath g = Some artifactspath ->
  _metricspath g = Some metricspath ->
  _submitspath g = Some submitspath ->
  run lib (featurize _engine g name featurise_config) w1
  = (Returned tt, w1', tr1) ->
  run lib (train g name train_config) w2 = (Returned tt, w2', tr2) ->
  run lib (inference int_of_str g name inference_config) w3
  = (Returned tt, w3', tr3) ->
  exists features pipeline_pkl : path,
    features = os_path_join datapath (name ++ "_features.parquet")%string
    /\ pipeline_pkl
       = os_path_join artifactspath (name ++ "_pipeline.pkl")%string
    /\ files_read (calls tr1) = []
    /\ files_written (calls tr1) = [(features, Parquet)]
    /\ files_read (calls tr2) = [(features, Parquet)]
    /\ In (pipeline_pkl, Pickle) (files_written (calls tr2))
    /\ files_read (calls tr3) = [(features, Parquet); (pipeline_pkl, Pickle)].
Proof.
  intros Hdp Hap Hmp Hsp H1 H2 H3.
  destruct (@featurize_files _ _ _ _ _ _ _ Hdp H1) as [Hr1 Hw1].
  destruct (@train_files _ _ _ _ _ _ _ _ _ Hdp Hap Hmp H2) as [Hr2 Hw2].
  destruct (@inference_files _ _ _ _ _ _ _ _ _ Hdp Hap Hsp H3) as [Hr3 Hw3].
  eexists. eexists. split; [reflexivity|]. split; [reflexivity|].
  rewrite Hr1, Hw1, Hr2, Hw2, Hr3. repeat split. now left.
Qed.

(** X10.  No output is overwritten.  With the globals set, whatever the
    directories and the name are, the six files that the three tasks write
    for one [name] are six different paths; so [train] does not write over
    the features it reads, nor [inference] over the features or the
    pickled pipeline. *)
Theorem outputs_never_collide
    (g : globals) (name : string)
    (datapath artifactspath metricspath submitspath : path)
    (featurise_config train_config inference_config : yaml)
    (w1 w1' w2 w2' w3 w3' : W) (tr1 tr2 tr3 : trace) :
  _datapath g = Some datapath ->
  _artifactspath g = Some artifactspath ->
  _metricspath g = Some metricspath ->
  _submitspath g = Some submitspath ->
  run lib (featurize _engine g name featurise_config) w1
  = (Returned tt, w1', tr1) ->
  run lib (train g name train_config) w2 = (Returned tt, w2', tr2) ->
  run lib (inference int_of_str g name inference_config) w3
  = (Returned tt, w3', tr3) ->
  NoDup (map fst (files_written (calls tr1) ++ files_written (calls tr2)
                  ++ files_written (calls tr3)))
  /\ (forall f, In f (files_read (calls tr2)) ->
                ~ In (fst f) (map fst (files_written (calls tr2))))
  /\ (forall f, In f (files_read (calls tr3)) ->
                ~ In (fst f) (map fst (files_written (calls tr3)))).
Proof.
  intros Hdp Hap Hmp Hsp H1 H2 H3.
  destruct (@featurize_files _ _ _ _ _ _ _ Hdp H1) as [Hr1 Hw1].
  destruct (@train_files _ _ _ _ _ _ _ _ _ Hdp Hap Hmp H2) as [Hr2 Hw2].
  destruct (@inference_files _ _ _ _ _ _ _ _ _ Hdp Hap Hsp H3) as [Hr3 Hw3].
  rewrite Hw1, Hr2, Hw2, Hr3, Hw3. cbn [app map fst].
  destruct (PathFacts.os_path_join_file_ends datapath name "_features.parquet")
    as [p1 ->].
  destruct (PathFacts.os_path_join_file_ends artifactspath name "_pipeline.pkl")
    as [p2 ->].
  destruct (PathFacts.os_path_join_file_ends metricspath name "_hist.csv")
    as [p3 ->].
  destruct (PathFacts.os_path_join_file_ends metricspath name "_metrics.csv")
    as [p4 ->].
  destruct (PathFacts.os_path_join_file_ends metricspath name "_examples.csv")
    as [p5 ->].
  destruct (PathFacts.os_path_join_file_ends submitspath name "_submit.csv")
    as [p6 ->].
  assert (Hne : forall x y s t : string,
             same_ending s t = false -> (x ++ s)%string <> (y ++ t)%string).
  { intros x y s t Hst Heq. apply PathFacts.app_same_ending in Heq.
    congruence. }
  split; [|split].
  - repeat constructor; cbn [In]; intros Hin;
      solve [repeat match goal with
             | H : _ \/ _ |- _ => destruct H as [H|H]
             | H : False |- _ => contradiction
             | H : (_ ++ _)%string = (_ ++ _)%string |- _ =>
                 refine (Hne _ _ _ _ _ H); reflexivity
             end].
  - intros f [<-|[]]. cbn [fst In]. intros Hin.
    repeat match goal with
           | H : _ \/ _ |- _ => destruct H as [H|H]
           | H : False |- _ => contradiction
           | H : (_ ++ _)%string = (_ ++ _)%string |- _ =>
               refine (Hne _ _ _ _ _ H); reflexivity
           end.
  - intros f [<-|[<-|[]]]; cbn [fst In]; intros Hin;
    repeat match goal with
           | H : _ \/ _ |- _ => destruct H as [H|H]
           | H : False |- _ => contradiction
           | H : (_ ++ _)%string = (_ ++ _)%string |- _ =>
               refine (Hne _ _ _ _ _ H); reflexivity
           end.
Qed.

(** X11.  A name that begins with a separator leaves the work directory:
    [os.path.join] drops the directory in front of an absolute file name,
    so whatever the globals are set to, the tasks write
    [<name>_features.parquet], [<name>_pipeline.pkl] and so on as absolute
    paths, and read them from there. *)
Theorem absolute_name_leaves_work_dir
    (g : globals) (name : string)
    (datapath artifactspath metricspath submitspath : path)
    (config : yaml) (w w' : W) (tr : trace) :
  _datapath g = Some datapath ->
  _artifactspath g = Some artifactspath ->
  _metricspath g = Some metricspath ->
  _submitspath g = Some submitspath ->
  startswith_sep name = true ->
  (run lib (featurize _engine g name config) w = (Returned tt, w', tr) ->
   files_written (calls tr)
   = [((name ++ "_features.parquet")%string, Parquet)])
  /\ (run lib (train g name config) w = (Returned tt, w', tr) ->
      files_read (calls tr)
      = [((name ++ "_features.parquet")%string, Parquet)]
      /\ files_written (calls tr)
         = [ ((name ++ "_pipeline.pkl")%string, Pickle);
             ((name ++ "_hist.csv")%string, Csv);
             ((name ++ "_metrics.csv")%string, Csv);
             ((name ++ "_examples.csv")%string, Csv) ])
  /\ (run lib (inference int_of_str g name config) w
      = (Returned tt, w', tr) ->
      files_read (calls tr)
      = [ ((name ++ "_features.parquet")%string, Parquet);
          ((name ++ "_pipeline.pkl")%string, Pickle) ]
      /\ files_written (calls tr)
         = [((name ++ "_submit.csv")%string, Csv)]).
Proof.
  intros Hdp Hap Hmp Hsp Habs. split; [|split]; intros Hrun.
  - destruct (@featurize_files _ _ _ _ _ _ _ Hdp Hrun) as [_ ->].
    now rewrite PathFacts.os_path_join_absolute.
  - destruct (@train_files _ _ _ _ _ _ _ _ _ Hdp Hap Hmp Hrun) as [-> ->].
    now rewrite !PathFacts.os_path_join_absolute.
  - destruct (@inference_files _ _ _ _ _ _ _ _ _ Hdp Hap Hsp Hrun) as [-> ->].
    now rewrite !PathFacts.os_path_join_absolute.
Qed.

(** ** The command line *)

(** A run of the command line that returns: [_init] returned, the
    configuration was loaded, the task was found and returned. *)
Lemma main_returned (args : arguments) (w w' : W) (tr : trace) :
  run lib (main _engine int_of_str args) w = (Returned tt, w', tr) ->
  exists (g : globals) (w1 w2 : W) (t1 t2 : trace) (config : yaml)
         (run_task : task DaskFrame Estimator Engine),
    run lib (_init _engine (arg_work_dir args)) w = (Returned g, w1, t1)
    /\ _tasks _engine int_of_str (arg_task args) = Some run_task
    /\ run lib (run_task g (arg_name args) config) w2 = (Returned tt, w', t2)
    /\ tr = t1 ++ Ev (yaml_load (arg_config args)) (Ok config) :: t2.
Proof.
  intros H. unfold main in H.
  apply run_bind_returned in H.
  destruct H as (g & w1 & t1 & t2 & Hinit & H & ->).
  unfold lib_call in H. step_call H as config.
  destruct (_tasks _engine int_of_str (arg_task args)) as [run_task|] eqn:Ht;
    [|discriminate H].
  exists g, w1, w0, t1, tr, config, run_task. repeat split; assumption.
Qed.

Lemma tasks_keys (key : string) (run_task : task DaskFrame Estimator Engine) :
  _tasks _engine int_of_str key = Some run_task ->
  (key = "featurise" /\ run_task = featurize _engine)
  \/ (key = "train" /\ run_task = @train DaskFrame Estimator Engine)
  \/ (key = "inference" /\ run_task = inference int_of_str).
Proof.
  unfold _tasks.
  destruct (String.eqb_spec key "featurise") as [->|_];
    [intros H; inversion H; auto|].
  destruct (String.eqb_spec key "train") as [->|_];
    [intros H; inversion H; auto|].
  destruct (String.eqb_spec key "inference") as [->|_];
    [intros H; inversion H; auto|discriminate].
Qed.

(** X12.  Where the command line reads and writes.  For a work directory
    that is not empty and does not end with a separator, and a name that is
    not absolute, a run of the command line that returns has read the
    three source tables from [<work_dir>/data], loaded the one
    configuration file it was given, and then, by the task: ['featurise']
    wrote [<work_dir>/data/<name>_features.parquet]; ['train'] read that
    file and wrote [<work_dir>/artifacts/<name>_pipeline.pkl] and the
    three CSV files under [<work_dir>/metrics]; ['inference'] read the
    features and the pickle and wrote
    [<work_dir>/submits/<name>_submit.csv].  There is no other task. *)
Theorem main_output_files (args : arguments) (w w' : W) (tr : trace) :
  arg_work_dir args <> EmptyString ->
  endswith_sep (arg_work_dir args) = false ->
  startswith_sep (arg_name args) = false ->
  run lib (main _engine int_of_str args) w = (Returned tt, w', tr) ->
  let wd := arg_work_dir args in
  let name := arg_name args in
  let sources :=
    [ ((wd ++ "/data/campaigns.csv")%string, Csv);
      ((wd ++ "/data/customers.csv")%string, Csv);
      ((wd ++ "/data/receipts.parquet")%string, Parquet) ] in
  let features :=
    ((wd ++ "/data/" ++ name ++ "_features.parquet")%string, Parquet) in
  let pipeline_pkl :=
    ((wd ++ "/artifacts/" ++ name ++ "_pipeline.pkl")%string, Pickle) in
  (exists config, configs_read tr = [(arg_config args, config)])
  /\ ((arg_task args = "featurise"
       /\ files_read (calls tr) = sources
       /\ files_written (calls tr) = [features])
      \/ (arg_task args = "train"
          /\ files_read (calls tr) = sources ++ [features]
          /\ files_written (calls tr)
             = [ pipeline_pkl;
                 ((wd ++ "/metrics/" ++ name ++ "_hist.csv")%string, Csv);
                 ((wd ++ "/metrics/" ++ name ++ "_metrics.csv")%string, Csv);
                 ((wd ++ "/metrics/" ++ name ++ "_examples.csv")%string,
                  Csv) ])
      \/ (arg_task args = "inference"
          /\ files_read (calls tr) = sources ++ [features; pipeline_pkl]
          /\ files_written (calls tr)
             = [ ((wd ++ "/submits/" ++ name ++ "_submit.csv")%string,
                  Csv) ])).
Proof.
  intros Hwd Hwe Hname Hrun. cbv zeta.
  destruct (@main_returned _ _ _ _ Hrun)
    as (g & w1 & w2 & t1 & t2 & config & run_task & Hinit & Htask & Ht & ->).
  destruct (@init_globals _ _ _ _ _ Hinit) as (Hg & Hread & Hwritten & Hconf & _).
  assert (Hsrc : forall file : string,
             startswith_sep file = false ->
             os_path_join (os_path_join (arg_work_dir args) "data") file
             = (arg_work_dir args ++ "/data/" ++ file)%string).
  { intros file Hfile.
    exact (@PathFacts.join_under_work_dir (arg_work_dir args) "data" "" file
             Hwd Hwe eq_refl ltac:(discriminate) eq_refl eq_refl Hfile). }
  assert (Hdir : forall dir ending : string,
             startswith_sep dir = false -> dir <> EmptyString ->
             endswith_sep dir = false -> startswith_sep ending = false ->
             os_path_join (os_path_join (arg_work_dir args) dir)
                          (arg_name args ++ ending)%string
             = (arg_work_dir args ++ "/" ++ dir ++ "/" ++ arg_name args
                ++ ending)%string).
  { intros dir ending Hd Hdn Hde He.
    now apply PathFacts.join_under_work_dir. }
  rewrite !Hsrc in Hread by reflexivity.
  assert (Hcalls : forall B (f : call DaskFrame Estimator Engine -> list B),
             f (yaml_load (arg_config args)) = [] ->
             flat_map f (calls (t1 ++ Ev (yaml_load (arg_config args))
                                         (Ok config) :: t2))
             = (flat_map f (calls t1) ++ flat_map f (calls t2))%list).
  { intros B f Hf. rewrite calls_app, calls_cons_Ev, flat_map_app.
    cbn [flat_map]. now rewrite Hf. }
  split.
  { exists config. unfold configs_read in *. rewrite flat_map_app, Hconf.
    cbn [flat_map app].
    assert (Hnone : configs_read t2 = []).
    { destruct (@tasks_keys _ _ Htask) as [[_ ->]|[[_ ->]|[_ ->]]].
      - assert (Hall : always (featurize (DaskFrame := DaskFrame)
                                 (Estimator := Estimator) _engine g
                                 (arg_name args) config)
                         (fun o tr => configs_read tr = [])).
        { unfold featurize, lib_call, builtin.
          always_walk ltac:(reflexivity). }
        exact (always_run_eq lib Hall Ht).
      - assert (Hall : always (train (DaskFrame := DaskFrame)
                                 (Estimator := Estimator) (Engine := Engine)
                                 g (arg_name args) config)
                         (fun o tr => configs_read tr = [])).
        { unfold train, lib_call, builtin.
          always_walk ltac:(read_files; reflexivity). }
        exact (always_run_eq lib Hall Ht).
      - assert (Hall : always (inference (DaskFrame := DaskFrame)
                                 (Estimator := Estimator) (Engine := Engine)
                                 int_of_str g (arg_name args) config)
                         (fun o tr => configs_read tr = [])).
        { unfold inference, lib_call, builtin.
          always_walk ltac:(reflexivity). }
        exact (always_run_eq lib Hall Ht). }
    unfold configs_read in Hnone. now rewrite Hnone. }
  unfold files_read, files_written in *.
  rewrite !Hcalls by reflexivity. rewrite Hread, Hwritten. cbn [app].
  assert (Hdp : _datapath g
                = Some (os_path_join (arg_work_dir args) "data"))
    by (rewrite Hg; reflexivity).
  assert (Hap : _artifactspath g
                = Some (os_path_join (arg_work_dir args) "artifacts"))
    by (rewrite Hg; reflexivity).
  assert (Hmp : _metricspath g
                = Some (os_path_join (arg_work_dir args) "metrics"))
    by (rewrite Hg; reflexivity).
  assert (Hsp : _submitspath g
                = Some (os_path_join (arg_work_dir args) "submits"))
    by (rewrite Hg; reflexivity).
  destruct (@tasks_keys _ _ Htask) as [[Hk ->]|[[Hk ->]|[Hk ->]]].
  - left. split; [exact Hk|].
    destruct (@featurize_files _ _ _ _ _ _ _ Hdp Ht) as [Hr Hw].
    unfold files_read, files_written in Hr, Hw. rewrite Hr, Hw.
    rewrite !Hdir by (reflexivity || discriminate).
    split; reflexivity.
  - right; left. split; [exact Hk|].
    destruct (@train_files _ _ _ _ _ _ _ _ _ Hdp Hap Hmp Ht) as [Hr Hw].
    unfold files_read, files_written in Hr, Hw. rewrite Hr, Hw.
    rewrite !Hdir by (reflexivity || discriminate).
    split; reflexivity.
  - right; right. split; [exact Hk|].
    destruct (@inference_files _ _ _ _ _ _ _ _ _ Hdp Hap Hsp Ht) as [Hr Hw].
    unfold files_read, files_written in Hr, Hw. rewrite Hr, Hw.
    rewrite !Hdir by (reflexivity || discriminate).
    split; reflexivity.
Qed.

(** X13.  The names of the tasks.  The command line knows the tasks
    ['featurise'], ['train'] and ['inference'] and no other; ['featurize'],
    as the function is spelled, is none.  With any other task name a run
    never returns and never writes a file; when [_init] and the loading of
    the configuration go through, it ends with [KeyError(task)], the three
    tables registered and the configuration read for nothing. *)
Theorem main_unknown_task (args : arguments) (w : W) :
  ~ In (arg_task args) ["featurise"; "train"; "inference"] ->
  let r := run lib (main _engine int_of_str args) w in
  _tasks (DaskFrame := DaskFrame) (Estimator := Estimator) _engine int_of_str
         (arg_task args) = None
  /\ _tasks (DaskFrame := DaskFrame) (Estimator := Estimator) _engine
            int_of_str "featurize" = None
  /\ (forall u, fst (fst r) <> Returned u)
  /\ files_written (calls (snd r)) = []
  /\ (forall config, In (arg_config args, config) (configs_read (snd r)) ->
        fst (fst r) = Propagated (KeyError (arg_task args))
        /\ List.length (registered (calls (snd r))) = 3%nat
        /\ last (snd r) (BuiltinError (KeyError ""))
           = BuiltinError (KeyError (arg_task args))).
Proof.
  intros Hnot. cbv zeta.
  assert (Hnone : _tasks (DaskFrame := DaskFrame) (Estimator := Estimator)
                         _engine int_of_str (arg_task args) = None).
  { unfold _tasks.
    destruct (String.eqb_spec (arg_task args) "featurise") as [He|_];
      [exfalso; apply Hnot; rewrite He; cbn; auto|].
    destruct (String.eqb_spec (arg_task args) "train") as [He|_];
      [exfalso; apply Hnot; rewrite He; cbn; auto|].
    destruct (String.eqb_spec (arg_task args) "inference") as [He|_];
      [exfalso; apply Hnot; rewrite He; cbn; auto|reflexivity]. }
  split; [exact Hnone|]. split; [reflexivity|].
  apply (always_run lib (main _engine int_of_str args)
           (fun o tr =>
              (forall u, o <> Returned u)
              /\ files_written (calls tr) = []
              /\ (forall config,
                     In (arg_config args, config) (configs_read tr) ->
                     o = Propagated (KeyError (arg_task args))
                     /\ List.length (registered (calls tr)) = 3%nat
                     /\ last tr (BuiltinError (KeyError ""))
                        = BuiltinError (KeyError (arg_task args))))).
  unfold main, _init, lib_call. rewrite Hnone. cbv zeta.
  always_walk ltac:(
    split; [discriminate|]; split; [reflexivity|];
    intros config HIn; cbn in HIn;
    first [ contradiction
          | repeat split; reflexivity ]).
Qed.

(** ** What a run has written when it ends *)

(** X14.  [featurize] and [inference] write at the very end: in every run,
    whatever the libraries answer, at most one write is attempted; a run
    that returns has completed exactly one write, and a run that ends with
    an exception has completed none. *)
Theorem featurize_and_inference_write_last
    (g : globals) (name : string) (config : yaml) (w : W) :
  let rf := run lib (featurize _engine g name config) w in
  let ri := run lib (inference int_of_str g name config) w in
  match fst (fst rf) with
  | Returned _ => exists f, files_completed (snd rf) = [f]
  | _ => files_completed (snd rf) = []
  end
  /\ (List.length (files_written (calls (snd rf))) <= 1)%nat
  /\ match fst (fst ri) with
     | Returned _ => exists f, files_completed (snd ri) = [f]
     | _ => files_completed (snd ri) = []
     end
  /\ (List.length (files_written (calls (snd ri))) <= 1)%nat.
Proof.
  cbv zeta. rewrite <- and_assoc. split.
  - apply (always_run lib (featurize _engine g name config)
             (fun o tr =>
                match o with
                | Returned _ => exists f, files_completed tr = [f]
                | _ => files_completed tr = []
                end
                /\ (List.length (files_written (calls tr)) <= 1)%nat)).
    unfold featurize, lib_call, builtin.
    always_walk ltac:(cbn; split; [eauto|lia]).
  - apply (always_run lib (inference int_of_str g name config)
             (fun o tr =>
                match o with
                | Returned _ => exists f, files_completed tr = [f]
                | _ => files_completed tr = []
                end
                /\ (List.length (files_written (calls tr)) <= 1)%nat)).
    unfold inference, lib_call, builtin.
    always_walk ltac:(cbn; split; [eauto|lia]).
Qed.

(** X15.  [train] is not all-or-nothing.  In every run, whatever the
    libraries answer, the writes that completed are a beginning of: the
    pickled pipeline, the histogram, the metrics, the examples; all four
    when the run returns, and the examples only then.  No [predict] is
    called before the pipeline has been pickled: a run that fails while
    scoring leaves the fitted pipeline on disk. *)
Theorem train_partial_outputs
    (g : globals) (name : string) (config : yaml) (w : W)
    (artifactspath metricspath : path) :
  _artifactspath g = Some artifactspath ->
  _metricspath g = Some metricspath ->
  let r := run lib (train g name config) w in
  let pkl := (os_path_join artifactspath (name ++ "_pipeline.pkl")%string,
              Pickle) in
  let outputs :=
    [ pkl;
      (os_path_join metricspath (name ++ "_hist.csv")%string, Csv);
      (os_path_join metricspath (name ++ "_metrics.csv")%string, Csv);
      (os_path_join metricspath (name ++ "_examples.csv")%string, Csv) ] in
  (exists n, files_completed (snd r) = firstn n outputs)
  /\ (fst (fst r) = Returned tt <-> files_completed (snd r) = outputs)
  /\ (forall pipeline X, In (predict pipeline X) (calls (snd r)) ->
                         In pkl (files_completed (snd r))).
Proof.
  clear _engine int_of_str. intros Hap Hmp. cbv zeta.
  apply (always_run lib (train g name config)
           (fun o tr =>
              (exists n, files_completed tr
                         = firstn n
                             [ (os_path_join artifactspath
                                  (name ++ "_pipeline.pkl")%string, Pickle);
                               (os_path_join metricspath
                                  (name ++ "_hist.csv")%string, Csv);
                               (os_path_join metricspath
                                  (name ++ "_metrics.csv")%string, Csv);
                               (os_path_join metricspath
                                  (name ++ "_examples.csv")%string, Csv) ])
              /\ (o = Returned tt <->
                  files_completed tr
                  = [ (os_path_join artifactspath
                         (name ++ "_pipeline.pkl")%string, Pickle);
                      (os_path_join metricspath
                         (name ++ "_hist.csv")%string, Csv);
                      (os_path_join metricspath
                         (name ++ "_metrics.csv")%string, Csv);
                      (os_path_join metricspath
                         (name ++ "_examples.csv")%string, Csv) ])
              /\ (forall pipeline X, In (predict pipeline X) (calls tr) ->
                    In (os_path_join artifactspath
                          (name ++ "_pipeline.pkl")%string, Pickle)
                       (files_completed tr)))).
  unfold train, lib_call, builtin. rewrite Hap, Hmp. cbn [join_global].
  always_walk ltac:(solve [
    try match goal with
        | |- context [Returned ?u = Returned tt] => is_var u; destruct u
        end;
    cbn [files_completed calls flat_map app written_file];
    rewrite ?flat_map_app;
    repeat match goal with
           | Hloop : Forall _ ?t |- context [flat_map ?f ?t] =>
               rewrite (loop_flat_map_nil f Hloop)
                 by (intros ? [?|?]; reflexivity)
           end;
    cbn [flat_map app written_file];
    split;
    [ first [ now exists 0%nat | now exists 1%nat | now exists 2%nat
            | now exists 3%nat | now exists 4%nat ]
    | split;
      [ split; first [discriminate | reflexivity]
      | intros pipeline X HIn;
        first [ now left
              | exfalso; cbn [In] in HIn; intuition discriminate ] ] ]]).
Qed.

(** ** What [train] scores *)

Lemma metrics_of_loop (uplift ws ys : list Float64.float)
    (rs : list {k : Float64.float
                & resp (uplift_at_k (DaskFrame := DaskFrame)
                          (Estimator := Estimator) (Engine := Engine)
                          uplift ws ys k)}) :
  metrics_computed
    (map (fun ar : {k : Float64.float
                    & resp (uplift_at_k (DaskFrame := DaskFrame)
                              (Estimator := Estimator) (Engine := Engine)
                              uplift ws ys k)} =>
            Ev (uplift_at_k uplift ws ys (projT1 ar)) (Ok (projT2 ar))) rs)
  = map (fun km => (uplift, ws, ys, fst km, snd km))
        (combine (map (@projT1 _ _) rs)
                 (map (fun ar : {k : Float64.float
                                 & resp (uplift_at_k (DaskFrame := DaskFrame)
                                           (Estimator := Estimator)
                                           (Engine := Engine)
                                           uplift ws ys k)} =>
                         (projT2 ar : Float64.float)) rs)).
Proof.
  induction rs as [|[k m] rs IH]; [reflexivity|].
  cbn [map combine projT1 projT2 fst snd]. rewrite <- IH. reflexivity.
Qed.

(** X16.  What the metrics file holds.  In a run of [train] that returns,
    [uplift_at_k] is called once per cutoff that [np.arange] answered, in
    order, each time with the uplift predicted for the test part and with
    the values of [w] and [y] of the whole sample (one per row of the
    sampled frame, not one per row of the test part); the metrics file is
    the series that pairs each cutoff with the answer to its call. *)
Theorem train_metrics_rows
    (g : globals) (name : string) (config : yaml) (w w' : W) (tr : trace) :
  run lib (train g name config) w = (Returned tt, w', tr) ->
  exists (features_df X X_train X_test : DataFrame) (ws y : Series)
         (fitted : Pipeline Estimator)
         (uplift uplift_all cutoffs metrics : list Float64.float)
         (evaluation cutoff_step : yaml) (metricspath : path),
    computed tr = [features_df]
    /\ train_targets features_df = Ok (X, ws, y)
    /\ splits tr = [(X, X_train, X_test)]
    /\ predictions tr = [(fitted, X_test, uplift); (fitted, X, uplift_all)]
    /\ getitem config "evaluation" = Ok evaluation
    /\ getitem evaluation "cutoff_step" = Ok cutoff_step
    /\ In (Ev (np_arange_float16 cutoff_step 1 cutoff_step) (Ok cutoffs)) tr
    /\ List.length metrics = List.length cutoffs
    /\ metrics_computed tr
       = map (fun km => (uplift, values ws, values y, fst km, snd km))
             (combine cutoffs metrics)
    /\ _metricspath g = Some metricspath
    /\ In (CsvMetrics (combine cutoffs metrics),
           os_path_join metricspath (name ++ "_metrics.csv")%string, true)
          (csv_written (calls tr))
    /\ List.length (values ws) = List.length (rows features_df)
    /\ List.length (values y) = List.length (rows features_df).
Proof.
  intros Hrun.
  refine (always_run_eq lib
            (Q := fun o tr =>
                    o = Returned tt ->
                    exists (features_df X X_train X_test : DataFrame)
                           (ws y : Series) (fitted : Pipeline Estimator)
                           (uplift uplift_all cutoffs metrics
                            : list Float64.float)
                           (evaluation cutoff_step : yaml)
                           (metricspath : path),
                      computed tr = [features_df]
                      /\ train_targets features_df = Ok (X, ws, y)
                      /\ splits tr = [(X, X_train, X_test)]
                      /\ predictions tr
                         = [(fitted, X_test, uplift); (fitted, X, uplift_all)]
                      /\ getitem config "evaluation" = Ok evaluation
                      /\ getitem evaluation "cutoff_step" = Ok cutoff_step
                      /\ In (Ev (np_arange_float16 cutoff_step 1 cutoff_step)
                                (Ok cutoffs)) tr
                      /\ List.length metrics = List.length cutoffs
                      /\ metrics_computed tr
                         = map (fun km => (uplift, values ws, values y,
                                           fst km, snd km))
                               (combine cutoffs metrics)
                      /\ _metricspath g = Some metricspath
                      /\ In (CsvMetrics (combine cutoffs metrics),
                             os_path_join metricspath
                               (name ++ "_metrics.csv")%string, true)
                            (csv_written (calls tr))
                      /\ List.length (values ws)
                         = List.length (rows features_df)
                      /\ List.length (values y)
                         = List.length (rows features_df))
            _ Hrun eq_refl).
  unfold train, lib_call, builtin.
  always_walk ltac:(intros Ho; try discriminate Ho).
  match goal with
  | H : join_global (_metricspath g) _ = Ok _ |- _ =>
      apply CampaignFacts.join_global_ok in H;
      destruct H as (metricspath & Hmp & ->)
  end.
  repeat match goal with
         | H : join_global (_metricspath g) _ = Ok _ |- _ =>
             apply CampaignFacts.join_global_ok in H;
             let m := fresh "m" in
             let Hm := fresh "Hm" in
             destruct H as (m & Hm & ->);
             assert (m = metricspath) by congruence; subst m
         end.
  match goal with
  | H : train_targets ?df = Ok (?X, ?ws, ?y) |- _ =>
      destruct (@FrameMore.train_targets_lengths _ _ _ _ H)
        as (Hlw & Hly);
      exists df, X
  end.
  do 12 eexists.
  split; [read_files; reflexivity|].
  split; [eassumption|].
  split; [read_files; reflexivity|].
  split; [read_files; reflexivity|].
  split; [reflexivity|].
  split; [eassumption|].
  split; [cbn [In]; do 12 right; left; reflexivity|].
  match type of Hreturned with
  | forall ys, Returned ?r = _ -> _ =>
      match goal with
      | |- List.length ?m = _ /\ _ => unify m r
      end
  end.
  split; [destruct (Hreturned _ eq_refl) as (rs & -> & -> & _);
          now rewrite !length_map|].
  split.
  { destruct (Hreturned _ eq_refl) as (rs & -> & -> & ->).
    unfold metrics_computed at 1. cbn [flat_map app].
    rewrite flat_map_app. cbn [flat_map app]. rewrite app_nil_r.
    fold (metrics_computed (DaskFrame := DaskFrame) (Estimator := Estimator)
            (Engine := Engine)).
    apply metrics_of_loop. }
  split; [exact Hmp|].
  split; [read_files; cbn [In]; now auto|].
  split; assumption.
Qed.

Lemma example_frame_ok (X : DataFrame) (sample : list (option string))
    (ws y : Series) (uplift : list Float64.float) (e : ExampleFrame) :
  example_frame X sample ws y uplift = Ok e ->
  List.length uplift = List.length (rows X)
  /\ e = {| ex_features := X; ex_sample := sample; ex_w := ws; ex_y := y;
            ex_uplift := uplift |}.
Proof.
  unfold example_frame.
  destruct (Nat.eqb_spec (List.length uplift) (List.length (rows X)))
    as [Hl|_]; cbn [negb]; [|discriminate].
  intros H. inversion H. split; [exact Hl|reflexivity].
Qed.

(** X17.  What the examples file holds.  In a run of [train] that returns,
    the last file written is the examples: the features [X] of the whole
    sample, with the column [sample] that marks each row by the part of
    the split its label is in, the columns [w] and [y] of the whole
    sample, and as [uplift] what the fitted pipeline predicts for [X]
    itself, one value per row.  The labels of both parts of the split are
    labels of [X]. *)
Theorem train_examples_frame
    (g : globals) (name : string) (config : yaml) (w w' : W) (tr : trace) :
  run lib (train g name config) w = (Returned tt, w', tr) ->
  exists (features_df X X_train X_test : DataFrame) (ws y : Series)
         (fitted : Pipeline Estimator)
         (uplift uplift_all : list Float64.float)
         (marks : list (option string)) (metricspath : path),
    computed tr = [features_df]
    /\ train_targets features_df = Ok (X, ws, y)
    /\ splits tr = [(X, X_train, X_test)]
    /\ predictions tr = [(fitted, X_test, uplift); (fitted, X, uplift_all)]
    /\ mark_sample (index X) (index X_train) (index X_test) = Ok marks
    /\ incl (index X_train) (index X)
    /\ incl (index X_test) (index X)
    /\ List.length marks = List.length (rows X)
    /\ List.length uplift_all = List.length (rows X)
    /\ _metricspath g = Some metricspath
    /\ last (csv_written (calls tr)) (CsvCustomers [], EmptyString, false)
       = (CsvExamples {| ex_features := X; ex_sample := marks;
                         ex_w := ws; ex_y := y; ex_uplift := uplift_all |},
          os_path_join metricspath (name ++ "_examples.csv")%string, true).
Proof.
  intros Hrun.
  refine (always_run_eq lib
            (Q := fun o tr =>
                    o = Returned tt ->
                    exists (features_df X X_train X_test : DataFrame)
                           (ws y : Series) (fitted : Pipeline Estimator)
                           (uplift uplift_all : list Float64.float)
                           (marks : list (option string))
                           (metricspath : path),
                      computed tr = [features_df]
                      /\ train_targets features_df = Ok (X, ws, y)
                      /\ splits tr = [(X, X_train, X_test)]
                      /\ predictions tr
                         = [(fitted, X_test, uplift); (fitted, X, uplift_all)]
                      /\ mark_sample (index X) (index X_train) (index X_test)
                         = Ok marks
                      /\ incl (index X_train) (index X)
                      /\ incl (index X_test) (index X)
                      /\ List.length marks = List.length (rows X)
                      /\ List.length uplift_all = List.length (rows X)
                      /\ _metricspath g = Some metricspath
                      /\ last (csv_written (calls tr))
                              (CsvCustomers [], EmptyString, false)
                         = (CsvExamples
                              {| ex_features := X; ex_sample := marks;
                                 ex_w := ws; ex_y := y;
                                 ex_uplift := uplift_all |},
                            os_path_join metricspath
                              (name ++ "_examples.csv")%string, true))
            _ Hrun eq_refl).
  unfold train, lib_call, builtin.
  always_walk ltac:(intros Ho; try discriminate Ho).
  match goal with
  | H : join_global (_metricspath g) _ = Ok _ |- _ =>
      apply CampaignFacts.join_global_ok in H;
      destruct H as (metricspath & Hmp & ->)
  end.
  repeat match goal with
         | H : join_global (_metricspath g) _ = Ok _ |- _ =>
             apply CampaignFacts.join_global_ok in H;
             let m := fresh "m" in
             let Hm := fresh "Hm" in
             destruct H as (m & Hm & ->);
             assert (m = metricspath) by congruence; subst m
         end.
  match goal with
  | H : example_frame _ _ _ _ _ = Ok _ |- _ =>
      apply example_frame_ok in H; destruct H as [Hlen ->]
  end.
  match goal with
  | H : mark_sample _ _ _ = Ok ?marks |- _ =>
      pose proof (proj1 (proj1 (FrameMore.mark_sample_facts _ _ _))
                    (ex_intro _ marks H)) as [Hin1 Hin2];
      pose proof (proj2 (FrameMore.mark_sample_facts _ _ _) _ H) as Hmarks
  end.
  match goal with
  | H : train_targets ?df = Ok (?X, ?ws, ?y) |- _ => exists df, X
  end.
  do 9 eexists.
  split; [read_files; reflexivity|].
  split; [eassumption|].
  split; [read_files; reflexivity|].
  split; [read_files; reflexivity|].
  split; [eassumption|].
  split; [exact Hin1|].
  split; [exact Hin2|].
  split; [rewrite Hmarks, length_map; unfold index; now rewrite length_map|].
  split; [exact Hlen|].
  split; [exact Hmp|].
  read_files. reflexivity.
Qed.

(** ** What the tasks need of the configuration *)



(** X19.  A configuration without ['evaluation'] costs a training run.
    [train] reads the key only after it has fitted and pickled the
    pipeline and predicted the test part.  So on such a configuration no
    run returns, and a run that gets as far as the key ends with
    [KeyError('evaluation')] having written the pickle and nothing else:
    no metric is computed, no CSV file is written. *)
Theorem train_fails_late_without_evaluation
    (g : globals) (name : string) (entries : list (string * yaml)) (w : W)
    (artifactspath : path) :
  assoc "evaluation" entries = None ->
  _artifactspath g = Some artifactspath ->
  let r := run lib (train g name (YMap entries)) w in
  (forall u, fst (fst r) <> Returned u)
  /\ (In (BuiltinError (KeyError "evaluation")) (snd r) ->
      fst (fst r) = Propagated (KeyError "evaluation")
      /\ files_completed (snd r)
         = [ (os_path_join artifactspath (name ++ "_pipeline.pkl")%string,
              Pickle) ]
      /\ List.length (predictions (snd r)) = 1%nat
      /\ metrics_computed (snd r) = []
      /\ csv_written (calls (snd r)) = []).
Proof.
  intros Hnone Hap. cbv zeta.
  assert (Heval : getitem (YMap entries) "evaluation"
                  = Err (KeyError "evaluation")).
  { cbn. now rewrite Hnone. }
  apply (always_run lib (train g name (YMap entries))
           (fun o tr =>
              (forall u, o <> Returned u)
              /\ (In (BuiltinError (KeyError "evaluation")) tr ->
                  o = Propagated (KeyError "evaluation")
                  /\ files_completed tr
                     = [ (os_path_join artifactspath
                            (name ++ "_pipeline.pkl")%string, Pickle) ]
                  /\ List.length (predictions tr) = 1%nat
                  /\ metrics_computed tr = []
                  /\ csv_written (calls tr) = []))).
  unfold train, lib_call, builtin. rewrite Hap. cbn [join_global].
  always_walk ltac:(
    split; [discriminate|];
    intros HIn; cbn [In] in HIn;
    repeat match goal with
           | H : _ \/ _ |- _ => destruct H as [H|H]
           end;
    try contradiction; try discriminate;
    first
      [ solve [ injection HIn as HIn; subst;
                match goal with
                | H : getitem _ _ = Err _ |- _ =>
                    apply getitem_err in H;
                    destruct H as [(? & ? & ? & He)|[? He]]; discriminate He
                | H : join_global _ _ = Err _ |- _ =>
                    apply join_global_err in H; destruct H as [_ He];
                    discriminate He
                | H : train_targets _ = Err _ |- _ =>
                    apply FrameMore.train_targets_err in H;
                    destruct H as [He|[He|He]]; discriminate He
                end ]
      | repeat split; reflexivity ]).
Qed.

(** ** What [inference] writes *)

(** The ranking of a run of [inference] that returns: the customers kept,
    in the order they were sorted in, and the slice of them that was
    written. *)
Lemma inference_ranking
    (g : globals) (name : string) (config : yaml) (w w' : W) (tr : trace) :
  sort_values_contract lib ->
  compute_contract lib ->
  run lib (inference int_of_str g name config) w = (Returned tt, w', tr) ->
  exists (pipeline : Pipeline Estimator) (features_df : DataFrame)
         (uplift : list Float64.float) (ranked : Series)
         (cutoff product : yaml) (n : Z) (submitspath : path),
    predictions tr = [(pipeline, features_df, uplift)]
    /\ List.length uplift = List.length (rows features_df)
    /\ Permutation ranked
                   (kept_positive (combine (index features_df) uplift))
    /\ getitem config "cutoff" = Ok cutoff
    /\ mul_int (Z.of_nat (List.length ranked)) cutoff = Ok product
    /\ py_int int_of_str product = Ok n
    /\ _submitspath g = Some submitspath
    /\ csv_written (calls tr)
       = [ (CsvCustomers (slice_to (map fst ranked) n),
            os_path_join submitspath (name ++ "_submit.csv")%string,
            false) ].
Proof.
  intros Hsort Hcompute H. pose proof H as Hrun.
  apply CampaignFacts.inference_returned in H.
  destruct H as (datapath & artifactspath & submitspath & features_dd & cols
                 & selected & pipeline & features_df & uplift & scored
                 & uplift_col & sorted & cutoff & product & n
                 & Htr & Hdp & Hap & Hsp & Hscored & Hcol & Hcutoff
                 & Hproduct & Hn).
  assert (Hal : aligned features_df).
  { destruct (run_event_answered lib _ _ (dd_compute selected)
                (Ok features_df) Hrun) as (w0 & w1 & Hc).
    { rewrite Htr. cbn. auto 10. }
    eapply Hcompute; eassumption. }
  destruct (FrameFacts.setitem_column _ _ Hal Hscored) as [Hlen Hcol'].
  rewrite Hcol in Hcol'. inversion Hcol'; subst uplift_col; clear Hcol'.
  unfold loc_column in Hcol.
  destruct (positions "uplift" (columns scored)) as [|i others] eqn:Hpos;
    [discriminate|].
  inversion Hcol as [Hkeys]; clear Hcol.
  set (key := fun r : label * list Float64.float => (fst r, cell i r)) in *.
  set (kept := loc_mask scored
                 (positive_mask (combine (index features_df) uplift))) in *.
  assert (Hrows : rows kept
                  = filter (fun r => Float64.gtb (cell i r) Float64.zero)
                           (rows scored)).
  { unfold kept, loc_mask, positive_mask. cbn [rows].
    rewrite <- Hkeys, map_map.
    apply (FrameFacts.filter_mask
             (fun r => Float64.gtb (snd (key r)) Float64.zero)). }
  assert (Hkept : map key (rows kept)
                  = kept_positive (combine (index features_df) uplift)).
  { rewrite Hrows. unfold kept_positive. rewrite <- Hkeys.
    apply (FrameFacts.filter_map_commute key
             (fun p => Float64.gtb (snd p) Float64.zero)). }
  destruct (run_event_answered lib _ _ (sort_values kept "uplift" false)
              (Ok sorted) Hrun) as (w0 & w1 & Hs).
  { rewrite Htr. cbn. auto 10. }
  destruct (Hsort _ _ _ _ _ i others Hs) as (Hcols & Hperm & Hsorted).
  { exact Hpos. }
  { rewrite Hrows, Forall_forall. intros r Hr.
    apply filter_In in Hr. destruct Hr as [_ Hr].
    now apply FrameFacts.gtb_zero_not_nan. }
  set (ranked := map key (rows sorted)).
  assert (Hids : index sorted = map fst ranked).
  { unfold ranked, index. now rewrite map_map. }
  assert (HN : shape0 sorted = Z.of_nat (List.length ranked)).
  { unfold shape0, ranked. now rewrite length_map. }
  rewrite Hids in Htr. rewrite HN in Hproduct.
  exists pipeline, features_df, uplift, ranked, cutoff, product, n,
         submitspath.
  split; [rewrite Htr; reflexivity|].
  split; [exact Hlen|].
  split; [rewrite <- Hkept; unfold ranked; now apply Permutation_map|].
  split; [exact Hcutoff|]. split; [exact Hproduct|]. split; [exact Hn|].
  split; [exact Hsp|].
  rewrite Htr. reflexivity.
Qed.

Lemma slice_to_firstn A (l : list A) (n : Z) :
  exists k, slice_to l n = firstn k l.
Proof. unfold slice_to. destruct (n <? 0); eauto. Qed.

Lemma NoDup_firstn A (k : nat) (l : list A) : NoDup l -> NoDup (firstn k l).
Proof.
  intros H. rewrite <- (firstn_skipn k l) in H.
  eapply NoDup_app_remove_r. exact H.
Qed.

Lemma In_firstn A (k : nat) (l : list A) (x : A) :
  In x (firstn k l) -> In x l.
Proof.
  intros H. rewrite <- (firstn_skipn k l). apply in_or_app. now left.
Qed.

Lemma NoDup_map_fst_filter A B (f : A * B -> bool) (l : list (A * B)) :
  NoDup (map fst l) -> NoDup (map fst (filter f l)).
Proof.
  induction l as [|p l IH]; cbn; [constructor|].
  intros H. inversion H as [|x xs Hx Hxs]; subst.
  destruct (f p); cbn; [|now apply IH].
  constructor; [|now apply IH].
  rewrite in_map_iff in *. intros (q & Hq & Hin). apply Hx.
  exists q. split; [exact Hq|]. apply filter_In in Hin. tauto.
Qed.

Lemma map_fst_combine A B (a : list A) (b : list B) :
  List.length b = List.length a -> map fst (combine a b) = a.
Proof.
  revert b. induction a as [|x a IH]; intros [|y b] H;
    cbn in *; try discriminate; try reflexivity.
  f_equal. apply IH. lia.
Qed.

(** X20.  Whatever the cutoff is (negative, above one, a boolean, a
    string), the customers that a run of [inference] writes are a
    beginning of the ranking: each of them is a row whose predicted uplift
    is strictly greater than [0.0] (so no NaN), no more of them than rows
    were kept, and none is written twice when the ids of the features are
    distinct. *)
Theorem inference_writes_only_positive
    (g : globals) (name : string) (config : yaml) (w w' : W) (tr : trace) :
  sort_values_contract lib ->
  compute_contract lib ->
  run lib (inference int_of_str g name config) w = (Returned tt, w', tr) ->
  exists (pipeline : Pipeline Estimator) (features_df : DataFrame)
         (uplift : list Float64.float) (written : list label) (csv : path),
    predictions tr = [(pipeline, features_df, uplift)]
    /\ csv_written (calls tr) = [(CsvCustomers written, csv, false)]
    /\ (forall l, In l written ->
          exists u, In (l, u) (combine (index features_df) uplift)
                    /\ Float64.gtb u Float64.zero = true
                    /\ Float64.isna u = false)
    /\ (List.length written
        <= List.length (kept_positive (combine (index features_df) uplift)))%nat
    /\ (NoDup (index features_df) -> NoDup written).
Proof.
  intros Hsort Hcompute Hrun.
  destruct (@inference_ranking _ _ _ _ _ _ Hsort Hcompute Hrun)
    as (pipeline & features_df & uplift & ranked & cutoff & product & n
        & submitspath & Hpred & Hlen & Hperm & _ & _ & _ & _ & Hcsv).
  destruct (slice_to_firstn (map fst ranked) n) as [k Hk].
  exists pipeline, features_df, uplift, (slice_to (map fst ranked) n),
         (os_path_join submitspath (name ++ "_submit.csv")%string).
  split; [exact Hpred|]. split; [exact Hcsv|]. rewrite Hk.
  split; [|split].
  - intros l Hl. apply In_firstn in Hl. apply in_map_iff in Hl.
    destruct Hl as ([l' u] & Hfst & Hin). cbn in Hfst. subst l'.
    exists u. eapply Permutation_in in Hin; [|exact Hperm].
    unfold kept_positive in Hin. apply filter_In in Hin. cbn in Hin.
    destruct Hin as [Hin Hpos]. repeat split; try assumption.
    now apply FrameFacts.gtb_zero_not_nan.
  - rewrite length_firstn, length_map.
    rewrite <- (Permutation_length Hperm). lia.
  - intros Hnd. apply NoDup_firstn.
    eapply Permutation_NoDup;
      [symmetry; apply Permutation_map; exact Hperm|].
    unfold kept_positive. apply NoDup_map_fst_filter.
    rewrite map_fst_combine; [exact Hnd|].
    unfold index. now rewrite length_map.
Qed.





(** ** The tasks before [_init] *)

(** X23.  The tasks before [_init].  With the path globals still [None]:
    [train] and [inference] end at once with the [TypeError] of
    [os.path.join(None, ...)], before any library is called.  [featurize]
    does not return either, and writes nothing, but it fails late: unless
    reading [config['calcers']] fails or [compute_features] raises, it
    ends with that [TypeError] after [compute_features] has answered, the
    features computed for nothing. *)
Theorem tasks_before_init (name : string) (config : yaml) (w : W) :
  let type_error : pyexn :=
    TypeError "expected str, bytes or os.PathLike object, not NoneType" in
  run lib (train module_globals name config) w
  = (Propagated type_error, w, [BuiltinError type_error])
  /\ run lib (inference int_of_str module_globals name config) w
     = (Propagated type_error, w, [BuiltinError type_error])
  /\ let r := run lib (featurize _engine module_globals name config) w in
     (exists e, getitem config "calcers" = Err e
                /\ r = (Propagated e, w, [BuiltinError e]))
     \/ (exists calcers,
           getitem config "calcers" = Ok calcers
           /\ ((exists e,
                  fst (fst r) = Propagated e
                  /\ snd r = [Ev (compute_features calcers _engine) (Err e)])
               \/ (exists features_dd,
                     fst (fst r) = Propagated type_error
                     /\ snd r = [ Ev (compute_features calcers _engine)
                                     (Ok features_dd);
                                  BuiltinError type_error ]))).
Proof.
  cbv zeta. split; [reflexivity|]. split; [reflexivity|].
  unfold featurize, lib_call, builtin.
  destruct (getitem config "calcers") as [calcers|e] eqn:Hcalcers.
  - right. exists calcers. split; [reflexivity|].
    cbn. destruct (lib w (compute_features calcers _engine))
      as [[features_dd|e] w1]; cbn.
    + right. now exists features_dd.
    + left. now exists e.
  - left. exists e. split; reflexivity.
Qed.

End Tasks.

End CampaignMore.

(* ===================================================================== *)
(** * The example library honours the contracts *)
(* ===================================================================== *)

Module ExampleFacts.

Import Campaign CampaignExample.

Local Abbreviation row := (label * list Float64.float)%type.

Lemma insert_desc_perm (i : nat) (r : row) (l : list row) :
  Permutation (insert_desc i r l) (r :: l).
Proof.
  induction l as [|x l IH]; cbn; [reflexivity|].
  destruct (Float64.total_leb (cell i x) (cell i r)); [reflexivity|].
  rewrite IH. apply perm_swap.
Qed.

Lemma sort_desc_perm (i : nat) (l : list row) : Permutation (sort_desc i l) l.
Proof.
  induction l as [|x l IH]; cbn; [reflexivity|].
  rewrite insert_desc_perm. now constructor.
Qed.

Lemma insert_desc_sorted (i : nat) (r : row) (l : list row) :
  StronglySorted (total_desc i) l ->
  StronglySorted (total_desc i) (insert_desc i r l).
Proof.
  induction 1 as [|x l Hs IH Hall]; cbn.
  - repeat constructor.
  - destruct (Float64.total_leb (cell i x) (cell i r)) eqn:Hxr.
    + constructor; [constructor; assumption|].
      constructor; [exact Hxr|].
      eapply Forall_impl; [|exact Hall]. intros y Hy. unfold total_desc in *.
      eapply Float64Facts.total_leb_trans; eassumption.
    + constructor; [exact IH|].
      eapply Permutation_Forall;
        [symmetry; apply insert_desc_perm|].
      constructor; [|exact Hall]. unfold total_desc.
      destruct (Float64Facts.total_leb_total (cell i x) (cell i r)) as [H|H];
        [congruence|exact H].
Qed.

Lemma sort_desc_sorted (i : nat) (l : list row) :
  StronglySorted (total_desc i) (sort_desc i l).
Proof.
  induction l as [|x l IH]; cbn; [constructor|].
  now apply insert_desc_sorted.
Qed.

Lemma StronglySorted_weaken A (R R' : A -> A -> Prop) (l : list A) :
  (forall a b, In a l -> In b l -> R a b -> R' a b) ->
  StronglySorted R l -> StronglySorted R' l.
Proof.
  intros Hw Hs. induction Hs as [|x l Hs IH Hall]; constructor.
  - apply IH. intros a b Ha Hb. apply Hw; now right.
  - rewrite Forall_forall in *. intros y Hy.
    apply Hw; [now left|now right|now apply Hall].
Qed.

Lemma lib_sorts : sort_values_contract lib.
Proof.
  intros w df by_ df' w' i others Hlib Hpos Hnan.
  cbn in Hlib. rewrite Hpos in Hlib. injection Hlib as Hdf Hw. subst df'.
  cbn [columns rows]. split; [reflexivity|].
  split; [apply sort_desc_perm|].
  apply StronglySorted_weaken with (R := total_desc i);
    [|apply sort_desc_sorted].
  intros a b Ha Hb Hab. unfold desc_by, total_desc in *.
  rewrite Forall_forall in Hnan.
  rewrite <- Float64Facts.total_leb_leb; [exact Hab| |];
    apply Hnan; eapply Permutation_in; try eassumption;
    apply sort_desc_perm.
Qed.

Lemma lib_computes_aligned : compute_contract lib.
Proof.
  intros w d df w' Hlib. cbn in Hlib.
  destruct (aligned_b d) eqn:Hal; [|discriminate].
  injection Hlib as Hdf Hw. subst df.
  unfold aligned, aligned_b in *. rewrite forallb_forall in Hal.
  rewrite Forall_forall. intros r Hr. now apply Nat.eqb_eq, Hal.
Qed.

Lemma lib_seeded_deterministic : seeded_calls_deterministic lib.
Proof.
  repeat split; intros; intros w1 w2; cbn; try reflexivity.
  destruct (aligned_b d); reflexivity.
Qed.

Lemma features_well_formed : well_formed features.
Proof.
  split; [|split].
  - repeat constructor; cbn; intuition discriminate.
  - repeat constructor.
  - repeat constructor.
Qed.

End ExampleFacts.

(* ===================================================================== *)
(** * The theorems on the example runs *)
(* ===================================================================== *)

Module CampaignExamples.

Import Campaign CampaignExample.

Local Abbreviation Ev := (@Ev call resp pyexn).

Lemma half_cutoff_run_returns :
  run lib (inference int_of_str g "spring" (inference_config half)) 1%nat
  = (Returned tt, 1%nat, snd half_cutoff_run).
Proof. vm_compute. reflexivity. Qed.


(** What the run with [cutoff: 0.5] wrote. *)
Lemma half_cutoff_run_writes :
  calls (snd half_cutoff_run)
  = [ dd_read_parquet "./data/spring_features.parquet";
      dd_columns features;
      dd_getitem features ["age"; "spend"];
      pickle_load "./artifacts/spring_pipeline.pkl";
      dd_compute {| columns := ["age"; "spend"];
                    rows := map (fun r => (fst r, skipn 3 (snd r)))
                                (rows features) |};
      predict [("model", 0)]
              {| columns := ["age"; "spend"];
                 rows := map (fun r => (fst r, skipn 3 (snd r)))
                             (rows features) |};
      sort_values
        {| columns := ["age"; "spend"; "uplift"];
           rows := [ (101, [f 30; f 5; f 5]); (103, [f 25; f 3; f 3]);
                     (105, [f 38; f 7; f 7]); (106, [f 19; f 1; f 1]) ] |}
        "uplift" false;
      to_csv (CsvCustomers [105; 101]) "./submits/spring_submit.csv" false ].
Proof. vm_compute. reflexivity. Qed.


(** *** [_init] *)

Lemma init_run_returns :
  run lib (_init _engine "/srv/work") 1%nat
  = (Returned {| _datapath := Some "/srv/work/data";
                 _metricspath := Some "/srv/work/metrics";
                 _artifactspath := Some "/srv/work/artifacts";
                 _submitspath := Some "/srv/work/submits" |},
     1%nat, snd init_run).
Proof. vm_compute. reflexivity. Qed.

Lemma init_registers_three_tables_witness :
  exists campaigns customers receipts : DaskFrame,
    let datapath := os_path_join "/srv/work" "data" in
    registered (calls (snd init_run))
    = [ (_engine, "campaigns", campaigns);
        (_engine, "customers", customers);
        (_engine, "receipts", receipts) ]
    /\ In (Ev (dd_read_csv (datapath ++ "/campaigns.csv")%string)
              (Ok campaigns)) (snd init_run)
    /\ In (Ev (dd_read_csv (datapath ++ "/customers.csv")%string)
              (Ok customers)) (snd init_run)
    /\ In (Ev (dd_read_parquet (datapath ++ "/receipts.parquet")%string)
              (Ok receipts)) (snd init_run)
    /\ _datapath {| _datapath := Some "/srv/work/data";
                    _metricspath := Some "/srv/work/metrics";
                    _artifactspath := Some "/srv/work/artifacts";
                    _submitspath := Some "/srv/work/submits" |}
       = Some datapath.
Proof.
  exact (@CampaignFacts.init_registers_three_tables
           DaskFrame Estimator Engine _engine nat lib
           "/srv/work" 1%nat 1%nat _ (snd init_run) init_run_returns).
Defined.

(** *** [featurize] *)

Lemma featurise_run_returns :
  run lib (featurize _engine g "spring" featurise_config) 1%nat
  = (Returned tt, 1%nat, snd featurise_run).
Proof. vm_compute. reflexivity. Qed.

Lemma featurize_is_compute_features_witness :
  exists (calcers : yaml) (datapath : path) (features_dd : DaskFrame),
    getitem (O := Empty_set) featurise_config "calcers" = Ok calcers
    /\ _datapath g = Some datapath
    /\ snd featurise_run
       = [ Ev (compute_features calcers _engine) (Ok features_dd);
           Ev (to_parquet features_dd
                 (os_path_join datapath ("spring" ++ "_features.parquet")%string))
              (Ok tt) ].
Proof.
  exact (proj1 (@CampaignFacts.featurize_is_compute_features
                  DaskFrame Estimator Engine _engine nat lib
                  g "spring" featurise_config)
               1%nat 1%nat (snd featurise_run) featurise_run_returns).
Defined.

(** C3 fails as stated.  The featurise task writes its features as a
    Parquet file, not as a CSV file, and the train task writes the fitted
    pipeline as a pickle file before its three CSV files. *)
Lemma featurise_writes_parquet :
  files_written (calls (snd featurise_run))
  = [("./data/spring_features.parquet", Parquet)]
  /\ ~ Forall (writes_only [Csv]) (calls (snd featurise_run))
  /\ files_written (calls (snd (train_run 1)))
     = [ ("./artifacts/spring_pipeline.pkl", Pickle);
         ("./metrics/spring_hist.csv", Csv);
         ("./metrics/spring_metrics.csv", Csv);
         ("./metrics/spring_examples.csv", Csv) ]
  /\ ~ Forall (writes_only [Csv]) (calls (snd (train_run 1))).
Proof.
  split; [vm_compute; reflexivity|].
  split.
  { intros H. rewrite Forall_forall in H.
    specialize (H (to_parquet features "./data/spring_features.parquet")).
    unfold writes_only in H. cbn in H.
    destruct H as [H|H]; [now right; left|discriminate H|exact H]. }
  split; [vm_compute; reflexivity|].
  intros H. rewrite Forall_forall in H.
  specialize (H (pickle_dump [("transform", 1); ("select", 1); ("model", 1)]
                             "./artifacts/spring_pipeline.pkl")).
  unfold writes_only in H. cbn in H.
  destruct H as [H|H]; [do 8 right; now left|discriminate H|exact H].
Qed.

Lemma tasks_file_formats_witness :
  Forall (writes_only [Parquet]) (calls (snd featurise_run))
  /\ Forall (writes_only [Pickle; Csv]) (calls (snd (train_run 1)))
  /\ Forall (writes_only [Csv]) (calls (snd half_cutoff_run)).
Proof.
  pose proof (@CampaignFacts.tasks_file_formats
                DaskFrame Estimator Engine _engine int_of_str nat lib
                g "spring" featurise_config 1%nat) as (Hf & _).
  pose proof (@CampaignFacts.tasks_file_formats
                DaskFrame Estimator Engine _engine int_of_str nat lib
                g "spring" train_config 1%nat) as (_ & Ht & _).
  pose proof (@CampaignFacts.tasks_file_formats
                DaskFrame Estimator Engine _engine int_of_str nat lib
                g "spring" (inference_config half) 1%nat) as (_ & _ & Hi & _).
  exact (conj Hf (conj Ht Hi)).
Defined.

(** *** [train] *)

Lemma train_run_returns :
  run lib (train g "spring" train_config) 1%nat
  = (Returned tt, 1%nat, snd (train_run 1)).
Proof. vm_compute. reflexivity. Qed.

Lemma train_persists_before_scoring_witness :
  exists n : nat,
    (5 <= n)%nat /\
    map (@step_of DaskFrame Estimator Engine) (calls (snd (train_run 1)))
    = [ReadFeatures; ReadFeatures; ReadFeatures; Assemble; Assemble; Assemble;
       Split; Fit; Persist]
      ++ repeat Score n ++ [WriteMetrics; WriteMetrics; WriteMetrics]
    /\ persisted_before_scored
         (map (@step_of DaskFrame Estimator Engine)
              (calls (snd (train_run 1)))).
Proof.
  exact (@CampaignFacts.train_persists_before_scoring
           DaskFrame Estimator Engine nat lib
           g "spring" train_config 1%nat 1%nat (snd (train_run 1))
           train_run_returns).
Defined.

(** C2 fails as stated.  In the example run the ninth call persists the
    fitted pipeline, and none of the eight calls before it scores
    anything: the pipeline is persisted before it is scored. *)
Lemma train_persists_unscored :
  map (@step_of DaskFrame Estimator Engine) (calls (snd (train_run 1)))
  = [ReadFeatures; ReadFeatures; ReadFeatures; Assemble; Assemble; Assemble;
     Split; Fit; Persist; Score; Score; Score; Score; Score; Score;
     WriteMetrics; WriteMetrics; WriteMetrics]
  /\ ~ persisted_after_scored
         (map (@step_of DaskFrame Estimator Engine)
              (calls (snd (train_run 1)))).
Proof.
  assert (Hsteps :
    map (@step_of DaskFrame Estimator Engine) (calls (snd (train_run 1)))
    = [ReadFeatures; ReadFeatures; ReadFeatures; Assemble; Assemble; Assemble;
       Split; Fit; Persist; Score; Score; Score; Score; Score; Score;
       WriteMetrics; WriteMetrics; WriteMetrics])
    by (vm_compute; reflexivity).
  split; [exact Hsteps|].
  rewrite Hsteps. intros H.
  destruct (H 8%nat eq_refl) as (j & Hj & Hs).
  do 8 (destruct j as [|j]; [discriminate Hs|]). lia.
Qed.


(** The targets of the six example customers: [28 * 2 - 0 - 1 = 55] for
    customer 101, whose discount is missing, and so on. *)
Lemma train_targets_example :
  train_targets features
  = Ok ({| columns := ["age"; "spend"];
           rows := [ (101, [f 30; f 5]); (102, [f 41; f (-2)]);
                     (103, [f 25; f 3]); (104, [f 52; f 0]);
                     (105, [f 38; f 7]); (106, [f 19; f 1]) ] |},
        [(101, f 1); (102, f 0); (103, f 0); (104, f 1); (105, f 0);
         (106, f 1)],
        [(101, f 55); (102, f (-1)); (103, f 0); (104, f 26); (105, f 82);
         (106, f (-1))]).
Proof. vm_compute. reflexivity. Qed.

Lemma train_same_sample_and_split_witness :
  Forall (seeded_with 110894)
         (calls (run_trace lib (train g "spring" train_config) 1%nat))
  /\ firstn 7 (run_trace lib (train g "spring" train_config) 1%nat)
     = firstn 7 (run_trace lib (train g "spring" train_config) 2%nat)
  /\ firstn 8 (calls (run_trace lib (train g "spring" train_config) 1%nat))
     = firstn 8 (calls (run_trace lib (train g "spring" train_config) 2%nat))
  /\ ((forall c, deterministic lib c) ->
      run_trace lib (train g "spring" train_config) 1%nat
      = run_trace lib (train g "spring" train_config) 2%nat).
Proof.
  exact (@CampaignFacts.train_same_sample_and_split
           DaskFrame Estimator Engine nat lib
           g "spring" train_config 1%nat 2%nat
           ExampleFacts.lib_seeded_deterministic).
Defined.

(** C9 fails as stated.  Over a library whose seeded calls are
    deterministic but whose [fit] is not (it draws from the state of the
    library, as an estimator built without a random state of its own
    does), two runs of [train] on the same features file and the same
    configuration select the same sample and the same partition, write the
    same four files, and yet write different uplifts to
    [spring_examples.csv]. *)
Lemma train_runs_write_different_examples :
  seeded_calls_deterministic lib
  /\ fst (fst (train_run 1)) = Returned tt
  /\ fst (fst (train_run 2)) = Returned tt
  /\ firstn 7 (snd (train_run 1)) = firstn 7 (snd (train_run 2))
  /\ files_written (calls (snd (train_run 1)))
     = files_written (calls (snd (train_run 2)))
  /\ exists e1 e2 : ExampleFrame,
       last (calls (snd (train_run 1))) (os_mkdir "")
       = to_csv (CsvExamples e1) "./metrics/spring_examples.csv" true
       /\ last (calls (snd (train_run 2))) (os_mkdir "")
          = to_csv (CsvExamples e2) "./metrics/spring_examples.csv" true
       /\ ex_uplift e1 = map f [4; -3; 2; -1; 6; 0]
       /\ ex_uplift e2 = map f [3; -4; 1; -2; 5; -1]
       /\ e1 <> e2.
Proof.
  split; [exact ExampleFacts.lib_seeded_deterministic|].
  split; [vm_compute; reflexivity|].
  split; [vm_compute; reflexivity|].
  split; [vm_compute; reflexivity|].
  split; [vm_compute; reflexivity|].
  eexists. eexists.
  split; [vm_compute; reflexivity|].
  split; [vm_compute; reflexivity|].
  split; [vm_compute; reflexivity|].
  split; [vm_compute; reflexivity|].
  intros H. apply (f_equal ex_uplift) in H. vm_compute in H. discriminate H.
Qed.

End CampaignExamples.

(* ===================================================================== *)
(** * The further theorems on the example runs *)
(* ===================================================================== *)

Module MoreExamples.

Import Campaign CampaignExample CampaignScenario CampaignRuns.

(** ** The runs return, or end where they should *)

Lemma main_train_run_returns :
  run (lib_with (loads train_config))
      (main _engine int_of_str (command_line "train")) 1%nat
  = (Returned tt, 1%nat, snd main_train_run).
Proof. vm_compute. reflexivity. Qed.

Lemma absolute_featurise_run_returns :
  run lib (featurize _engine g "/tmp/spring" featurise_config) 1%nat
  = (Returned tt, 1%nat, snd absolute_featurise_run).
Proof. vm_compute. reflexivity. Qed.

Lemma whole_cutoff_run_returns :
  run lib (inference int_of_str g "spring" (YMap [("cutoff", YInt 1)])) 1%nat
  = (Returned tt, 1%nat, snd whole_cutoff_run).
Proof. vm_compute. reflexivity. Qed.


(** ** The files of the three tasks *)

(** The three tasks for the name [spring]: [featurize] writes
    [./data/spring_features.parquet], the other two read it. *)
Lemma tasks_hand_over_files_witness :
  exists features pipeline_pkl : path,
    features = os_path_join "./data" ("spring" ++ "_features.parquet")%string
    /\ pipeline_pkl
       = os_path_join "./artifacts" ("spring" ++ "_pipeline.pkl")%string
    /\ files_read (calls (snd featurise_run)) = []
    /\ files_written (calls (snd featurise_run)) = [(features, Parquet)]
    /\ files_read (calls (snd (train_run 1))) = [(features, Parquet)]
    /\ In (pipeline_pkl, Pickle) (files_written (calls (snd (train_run 1))))
    /\ files_read (calls (snd half_cutoff_run))
       = [(features, Parquet); (pipeline_pkl, Pickle)].
Proof.
  exact (@CampaignMore.tasks_hand_over_files
           DaskFrame Estimator Engine _engine int_of_str nat lib g "spring"
           "./data" "./artifacts" "./metrics" "./submits"
           featurise_config train_config (inference_config half)
           1%nat 1%nat 1%nat 1%nat 1%nat 1%nat
           (snd featurise_run) (snd (train_run 1)) (snd half_cutoff_run)
           eq_refl eq_refl eq_refl eq_refl
           CampaignExamples.featurise_run_returns
           CampaignExamples.train_run_returns
           CampaignExamples.half_cutoff_run_returns).
Defined.

(** The six files of the name [spring] are six paths. *)
Lemma outputs_never_collide_witness :
  NoDup (map fst (files_written (calls (snd featurise_run))
                  ++ files_written (calls (snd (train_run 1)))
                  ++ files_written (calls (snd half_cutoff_run))))
  /\ (forall f, In f (files_read (calls (snd (train_run 1)))) ->
                ~ In (fst f) (map fst (files_written
                                         (calls (snd (train_run 1))))))
  /\ (forall f, In f (files_read (calls (snd half_cutoff_run))) ->
                ~ In (fst f) (map fst (files_written
                                         (calls (snd half_cutoff_run))))).
Proof.
  exact (@CampaignMore.outputs_never_collide
           DaskFrame Estimator Engine _engine int_of_str nat lib g "spring"
           "./data" "./artifacts" "./metrics" "./submits"
           featurise_config train_config (inference_config half)
           1%nat 1%nat 1%nat 1%nat 1%nat 1%nat
           (snd featurise_run) (snd (train_run 1)) (snd half_cutoff_run)
           eq_refl eq_refl eq_refl eq_refl
           CampaignExamples.featurise_run_returns
           CampaignExamples.train_run_returns
           CampaignExamples.half_cutoff_run_returns).
Defined.

(** [featurize] under the name [/tmp/spring], with the globals pointing
    below [.]: the features go to [/tmp]. *)
Lemma absolute_name_leaves_work_dir_witness :
  files_written (calls (snd absolute_featurise_run))
  = [("/tmp/spring_features.parquet", Parquet)].
Proof.
  exact (proj1 (@CampaignMore.absolute_name_leaves_work_dir
                  DaskFrame Estimator Engine _engine int_of_str nat lib
                  g "/tmp/spring" "./data" "./artifacts" "./metrics"
                  "./submits" featurise_config 1%nat 1%nat
                  (snd absolute_featurise_run)
                  eq_refl eq_refl eq_refl eq_refl eq_refl)
               absolute_featurise_run_returns).
Defined.

(** The command line [-n spring -t train -c spring.yaml -d /srv/work]. *)
Lemma main_output_files_witness :
  configs_read (snd main_train_run) = [("spring.yaml", train_config)]
  /\ files_read (calls (snd main_train_run))
     = [ ("/srv/work/data/campaigns.csv", Csv);
         ("/srv/work/data/customers.csv", Csv);
         ("/srv/work/data/receipts.parquet", Parquet);
         ("/srv/work/data/spring_features.parquet", Parquet) ]
  /\ files_written (calls (snd main_train_run))
     = [ ("/srv/work/artifacts/spring_pipeline.pkl", Pickle);
         ("/srv/work/metrics/spring_hist.csv", Csv);
         ("/srv/work/metrics/spring_metrics.csv", Csv);
         ("/srv/work/metrics/spring_examples.csv", Csv) ].
Proof.
  destruct (@CampaignMore.main_output_files
              DaskFrame Estimator Engine _engine int_of_str nat
              (lib_with (loads train_config)) (command_line "train")
              1%nat 1%nat (snd main_train_run)
              ltac:(discriminate) eq_refl eq_refl main_train_run_returns)
    as [_ [(Htask & _)|[(_ & Hread & Hwritten)|(Htask & _)]]];
    [discriminate Htask| |discriminate Htask].
  split; [vm_compute; reflexivity|].
  split; [exact Hread|exact Hwritten].
Defined.

(** The command line with the task [featurize], as the function is
    spelled: [KeyError('featurize')] after the tables and the
    configuration were read. *)
Lemma main_unknown_task_witness :
  fst (fst main_featurize_run) = Propagated (KeyError "featurize")
  /\ List.length (registered (calls (snd main_featurize_run))) = 3%nat
  /\ files_written (calls (snd main_featurize_run)) = [].
Proof.
  assert (Hno : ~ In (arg_task (command_line "featurize"))
                     ["featurise"; "train"; "inference"]).
  { intros [H|[H|[H|[]]]]; discriminate H. }
  destruct (@CampaignMore.main_unknown_task
              DaskFrame Estimator Engine _engine int_of_str nat
              (lib_with (loads featurise_config)) (command_line "featurize")
              1%nat Hno)
    as (_ & _ & _ & Hwritten & Hread).
  destruct (Hread featurise_config) as (Hout & Hreg & _).
  { vm_compute. left. reflexivity. }
  split; [exact Hout|]. split; [exact Hreg|exact Hwritten].
Defined.

(** ** [train] *)

(** [np.histogram] raises: the pickle is on disk, nothing else. *)
Lemma train_partial_outputs_witness :
  let r := histogram_fails_run in
  let pkl := (os_path_join "./artifacts" ("spring" ++ "_pipeline.pkl")%string,
              Pickle) in
  let outputs :=
    [ pkl;
      (os_path_join "./metrics" ("spring" ++ "_hist.csv")%string, Csv);
      (os_path_join "./metrics" ("spring" ++ "_metrics.csv")%string, Csv);
      (os_path_join "./metrics" ("spring" ++ "_examples.csv")%string, Csv) ]
  in
  (exists n, files_completed (snd r) = firstn n outputs)
  /\ (fst (fst r) = Returned tt <-> files_completed (snd r) = outputs)
  /\ (forall pipeline X, In (predict pipeline X) (calls (snd r)) ->
                         In pkl (files_completed (snd r))).
Proof.
  exact (@CampaignMore.train_partial_outputs
           DaskFrame Estimator Engine nat (lib_with histogram_fails)
           g "spring" train_config 1%nat "./artifacts" "./metrics"
           eq_refl eq_refl).
Defined.

(** The metrics of the example run of [train]. *)
Lemma train_metrics_rows_witness :
  exists (features_df X X_train X_test : DataFrame) (ws y : Series)
         (fitted : Pipeline Estimator)
         (uplift uplift_all cutoffs metrics : list Float64.float)
         (evaluation cutoff_step : yaml) (metricspath : path),
    computed (snd (train_run 1)) = [features_df]
    /\ train_targets features_df = Ok (X, ws, y)
    /\ splits (snd (train_run 1)) = [(X, X_train, X_test)]
    /\ predictions (snd (train_run 1))
       = [(fitted, X_test, uplift); (fitted, X, uplift_all)]
    /\ getitem (O := Empty_set) train_config "evaluation" = Ok evaluation
    /\ getitem (O := Empty_set) evaluation "cutoff_step" = Ok cutoff_step
    /\ In (Ev (resp := resp) (np_arange_float16 cutoff_step 1 cutoff_step)
              (Ok cutoffs))
          (snd (train_run 1))
    /\ List.length metrics = List.length cutoffs
    /\ metrics_computed (snd (train_run 1))
       = map (fun km => (uplift, values ws, values y, fst km, snd km))
             (combine cutoffs metrics)
    /\ _metricspath g = Some metricspath
    /\ In (CsvMetrics (combine cutoffs metrics),
           os_path_join metricspath ("spring" ++ "_metrics.csv")%string, true)
          (csv_written (calls (snd (train_run 1))))
    /\ List.length (values ws) = List.length (rows features_df)
    /\ List.length (values y) = List.length (rows features_df).
Proof.
  exact (@CampaignMore.train_metrics_rows
           DaskFrame Estimator Engine nat lib g "spring" train_config
           1%nat 1%nat (snd (train_run 1))
           CampaignExamples.train_run_returns).
Defined.

(** The examples of the example run of [train]. *)
Lemma train_examples_frame_witness :
  exists (features_df X X_train X_test : DataFrame) (ws y : Series)
         (fitted : Pipeline Estimator)
         (uplift uplift_all : list Float64.float)
         (marks : list (option string)) (metricspath : path),
    computed (snd (train_run 1)) = [features_df]
    /\ train_targets features_df = Ok (X, ws, y)
    /\ splits (snd (train_run 1)) = [(X, X_train, X_test)]
    /\ predictions (snd (train_run 1))
       = [(fitted, X_test, uplift); (fitted, X, uplift_all)]
    /\ mark_sample (index X) (index X_train) (index X_test) = Ok marks
    /\ incl (index X_train) (index X)
    /\ incl (index X_test) (index X)
    /\ List.length marks = List.length (rows X)
    /\ List.length uplift_all = List.length (rows X)
    /\ _metricspath g = Some metricspath
    /\ last (csv_written (calls (snd (train_run 1))))
            (CsvCustomers [], EmptyString, false)
       = (CsvExamples {| ex_features := X; ex_sample := marks;
                         ex_w := ws; ex_y := y; ex_uplift := uplift_all |},
          os_path_join metricspath ("spring" ++ "_examples.csv")%string, true).
Proof.
  exact (@CampaignMore.train_examples_frame
           DaskFrame Estimator Engine nat lib g "spring" train_config
           1%nat 1%nat (snd (train_run 1))
           CampaignExamples.train_run_returns).
Defined.

(** [train] on a configuration without ['evaluation']. *)
Lemma train_fails_late_without_evaluation_witness :
  fst (fst no_evaluation_run) = Propagated (KeyError "evaluation")
  /\ files_completed (snd no_evaluation_run)
     = [ (os_path_join "./artifacts" ("spring" ++ "_pipeline.pkl")%string,
          Pickle) ]
  /\ List.length (predictions (snd no_evaluation_run)) = 1%nat
  /\ metrics_computed (snd no_evaluation_run) = []
  /\ csv_written (calls (snd no_evaluation_run)) = [].
Proof.
  apply (@CampaignMore.train_fails_late_without_evaluation
           DaskFrame Estimator Engine nat lib g "spring" no_evaluation
           1%nat "./artifacts" eq_refl eq_refl).
  vm_compute. repeat (first [left; reflexivity | right]).
Defined.

(** ** [inference] *)

(** [cutoff: 1]: the four customers of positive uplift are written. *)
Lemma inference_writes_only_positive_witness :
  exists (pipeline : Pipeline Estimator) (features_df : DataFrame)
         (uplift : list Float64.float) (written : list label) (csv : path),
    predictions (snd whole_cutoff_run) = [(pipeline, features_df, uplift)]
    /\ csv_written (calls (snd whole_cutoff_run))
       = [(CsvCustomers written, csv, false)]
    /\ (forall l, In l written ->
          exists u, In (l, u) (combine (index features_df) uplift)
                    /\ Float64.gtb u Float64.zero = true
                    /\ Float64.isna u = false)
    /\ (List.length written
        <= List.length (kept_positive (combine (index features_df) uplift)))%nat
    /\ (NoDup (index features_df) -> NoDup written).
Proof.
  exact (@CampaignMore.inference_writes_only_positive
           DaskFrame Estimator Engine int_of_str nat lib
           g "spring" (YMap [("cutoff", YInt 1)]) 1%nat 1%nat
           (snd whole_cutoff_run)
           ExampleFacts.lib_sorts ExampleFacts.lib_computes_aligned
           whole_cutoff_run_returns).
Defined.



(** ** The targets of the example customers *)

Lemma train_targets_index_witness :
  exists (X : DataFrame) (w y : Series),
    train_targets features = Ok (X, w, y)
    /\ index X = [101; 102; 103; 104; 105; 106]
    /\ map fst w = index features
    /\ map fst y = index features
    /\ List.length (rows X) = 6%nat
    /\ List.length (values w) = 6%nat
    /\ List.length (values y) = 6%nat.
Proof.
  eexists _, _, _. split; [exact CampaignExamples.train_targets_example|].
  exact (FrameMore.train_targets_index features
           CampaignExamples.train_targets_example).
Defined.

Lemma train_targets_never_missing_witness :
  exists (X : DataFrame) (w y : Series),
    train_targets features = Ok (X, w, y)
    /\ Forall (fun p => Float64.isna (snd p) = false) w
    /\ Forall (fun p => Float64.isna (snd p) = false) y.
Proof.
  eexists _, _, _. split; [exact CampaignExamples.train_targets_example|].
  destruct (FrameMore.train_targets_never_missing
              ExampleFacts.features_well_formed
              CampaignExamples.train_targets_example) as [Hw Hy].
  split; [exact Hw|]. apply Hy.
  intros r Hr. cbn in Hr.
  repeat (destruct Hr as [<-|Hr]; [vm_compute; repeat split|]).
  contradiction.
Defined.

(** ** [score_wrapper] on the five interactions *)

Lemma score_wrapper_asks_once_witness :
  let r := run RecsysExample.lib
               (Recsys.score_wrapper RecsysExample.isinstance_Pipeline
                  RecsysExample.AT_K RecsysExample.shape
                  0%nat RecsysExample.X None)
               0%nat in
  propagates_unchanged r
  /\ (exists n, RecsysRuns.asked (calls (snd r))
                = firstn n [(0%nat, RecsysExample.X, RecsysExample.AT_K)])
  /\ (forall y_true y_pred k,
        In (y_true, y_pred, k) (RecsysRuns.scored (calls (snd r))) ->
        y_true = Recsys.group_items RecsysExample.X
        /\ k = RecsysExample.AT_K
        /\ RecsysRuns.predicted (snd r) = [y_pred])
  /\ (List.length (RecsysRuns.scored (calls (snd r))) <= 1)%nat
  /\ Recsys.score_wrapper RecsysExample.isinstance_Pipeline
       RecsysExample.AT_K RecsysExample.shape 0%nat RecsysExample.X None
     = Recsys.score_wrapper RecsysExample.isinstance_Pipeline
         RecsysExample.AT_K RecsysExample.shape 0%nat RecsysExample.X None.
Proof.
  exact (@RecsysMore.score_wrapper_asks_once
           RecsysExample.object RecsysExample.isinstance_Pipeline
           RecsysExample.AT_K RecsysExample.ndarray RecsysExample.shape
           nat RecsysExample.lib 0%nat RecsysExample.X None 0%nat eq_refl).
Defined.

End MoreExamples.
